(** * LawDataApi: the PDF-to-Markdown preprocessing script, [preprocessing.py]

    A shallow embedding of the four routines of the script
    ([save_documents_as_markdown], [pdf_file_load],
    [merge_documents_to_single_markdown], [api_key_load]) together with the
    few operations of Python's [str] and [os.path] they rely on, and the
    properties of the merged text, of the per-page files and of the loader's
    result. *)

From Stdlib Require Import ZArith Ascii String.
From stdpp Require Import base decidable option list strings pretty gmap.

Local Open Scope string_scope.
Local Open Scope list_scope.

(** ** Python strings

    A [str] is modelled as a [string]; the operations below are the ones the
    script calls, with Python's behaviour on every input. *)

Module PyStr.

(** [s[n:]] *)
Fixpoint slice_from (n : nat) (s : string) : string :=
  match n, s with
  | O, _ => s
  | S _, "" => ""
  | S k, String _ s' => slice_from k s'
  end.

(** [s[:n]] *)
Fixpoint slice_to (n : nat) (s : string) : string :=
  match n, s with
  | O, _ => ""
  | S _, "" => ""
  | S k, String c s' => String c (slice_to k s')
  end.

(** [s.startswith(p)] *)
Fixpoint startswith (s p : string) : bool :=
  match p, s with
  | "", _ => true
  | String _ _, "" => false
  | String a p', String b s' => if decide (a = b) then startswith s' p' else false
  end.

(** [s.endswith(p)]: the last [len(p)] characters of [s] are [p]. *)
Definition endswith (s p : string) : bool :=
  bool_decide ((String.length p ≤ String.length s)%nat
               ∧ slice_from (String.length s - String.length p) s = p).

(** [p in s] for a pattern [p]. *)
Fixpoint contains (p s : string) : bool :=
  startswith s p ||
  match s with
  | "" => false
  | String _ s' => contains p s'
  end.

(** [c in s] for a single character. *)
Fixpoint contains_char (c : ascii) (s : string) : bool :=
  match s with
  | "" => false
  | String a s' => bool_decide (a = c) || contains_char c s'
  end.

(** [lower] moves [A]..[Z] to [a]..[z] and leaves every other character
    alone.  The script only compares the end of a lowered name with
    [.pdf], and no other character lowers to one of these four. *)
Definition lower_char (c : ascii) : ascii :=
  let n := nat_of_ascii c in
  if (65 <=? n)%nat && (n <=? 90)%nat then ascii_of_nat (n + 32) else c.

(** [s.lower()] *)
Fixpoint lower (s : string) : string :=
  match s with
  | "" => ""
  | String c s' => String (lower_char c) (lower s')
  end.

(** Puts a character in front of the first piece of a split. *)
Definition cons_head (c : ascii) (l : list string) : list string :=
  match l with
  | [] => [String c ""]
  | h :: t => String c h :: t
  end.

(** [s.split(sep)] for a non-empty [sep]: the pieces between the
    occurrences of [sep], found from left to right without overlap.
    [skip] counts the characters of a separator that are still to pass. *)
Fixpoint split_go (sep : string) (skip : nat) (s : string) : list string :=
  match s with
  | "" => [""]
  | String c s' =>
      match skip with
      | S k => split_go sep k s'
      | O =>
          if startswith s sep
          then "" :: split_go sep (String.length sep - 1) s'
          else cons_head c (split_go sep 0 s')
      end
  end.

Definition split (s sep : string) : list string := split_go sep 0 s.

(** [sep.join(l)] *)
Definition join (sep : string) (l : list string) : string :=
  String.concat sep l.

(** Truth value of a string in a condition: non-empty. *)
Definition truthy (s : string) : bool :=
  match s with "" => false | _ => true end.

End PyStr.

(** The line feed, and the paragraph break the merger splits on. *)
Definition LF : string := String (ascii_of_nat 10) "".
Definition LFLF : string := LF +:+ LF.

(** ** [os.path] on a POSIX system *)

Module OsPath.
Import PyStr.

Definition sep : string := "/".

(** [os.path.join(a, b)] *)
Definition join (a b : string) : string :=
  if startswith b sep then b
  else if negb (truthy a) || endswith a sep then a +:+ b
  else a +:+ sep +:+ b.

(** [p.rfind(c)]: the index of the last [c] in [p], or [-1]; [i] is the
    index of the first character of [p]. *)
Fixpoint rfind_go (c : ascii) (p : string) (i : Z) : Z :=
  match p with
  | "" => (-1)%Z
  | String a p' =>
      let r := rfind_go c p' (i + 1) in
      if (0 <=? r)%Z then r else if decide (a = c) then i else (-1)%Z
  end.

Definition rfind (p : string) (c : ascii) : Z := rfind_go c p 0.

(** [os.path.basename(p)] *)
Definition basename (p : string) : string :=
  let i := (rfind p "/" + 1)%Z in
  slice_from (Z.to_nat i) p.

(** [p[a:b]] for [0 <= a]. *)
Definition slice (p : string) (a b : Z) : string :=
  slice_to (Z.to_nat (b - a)) (slice_from (Z.to_nat a) p).

Fixpoint only_dots (s : string) : bool :=
  match s with
  | "" => true
  | String c s' => bool_decide (c = "."%char) && only_dots s'
  end.

(** [os.path.splitext(p)]: the extension starts at the last dot of the
    last component, unless only dots come before it in that component. *)
Definition splitext (p : string) : string * string :=
  let sepIndex := rfind p "/" in
  let dotIndex := rfind p "." in
  if (sepIndex <? dotIndex)%Z then
    if only_dots (slice p (sepIndex + 1) dotIndex) then (p, "")
    else (slice_to (Z.to_nat dotIndex) p, slice_from (Z.to_nat dotIndex) p)
  else (p, "").

End OsPath.

(** ** Documents, exceptions and the outside world *)

(** One page returned by the parsing service; only its [text] is read. *)
Record Document := mkDocument { text : string }.

(** The classes of [Exception] the script distinguishes. *)
Inductive exn_class := PermissionError | ValueError | OtherException.

Record exn := Exn { class_of : exn_class; str : string }.

(** A path of the file system names a directory or a file with its text. *)
Inductive node := Dir | File (content : string).

(** Requests the script makes to its environment, in the order made. *)
Inductive event :=
  | EvLoadDotenv
  | EvGetenv (name : string)
  | EvNestAsyncioApply
  | EvExists (path : string)
  | EvIsdir (path : string)
  | EvMakedirs (path : string)
  | EvListdir (path : string)
  | EvLlamaParse
  | EvLoadData (path : string)
  | EvWrite (path content : string)
  | EvPrint (line : string).

(** The state of the environment during one call.
    - [environ] is the process environment, [dotenv] the variables of the
      local environment file;
    - [fs] is the file system, by path as the script spells it;
    - [dir_entries] and [parse_result] are the answers of [os.listdir] and
      of the parsing service ([SimpleDirectoryReader(...).load_data()]);
    - [refuses] gives the error with which the system answers a request to
      create or to open for writing a path (permissions, missing parent);
    - [trace] records the requests made. *)
Record World := mkWorld {
  environ : gmap string string;
  dotenv : gmap string string;
  fs : gmap string node;
  dir_entries : string → exn + list string;
  parse_result : string → exn + list Document;
  refuses : string → option exn;
  trace : list event
}.

Definition log (e : event) (w : World) : World :=
  mkWorld (environ w) (dotenv w) (fs w) (dir_entries w) (parse_result w)
          (refuses w) (trace w ++ [e]).

Definition set_fs (f : gmap string node) (w : World) : World :=
  mkWorld (environ w) (dotenv w) f (dir_entries w) (parse_result w)
          (refuses w) (trace w).

Definition set_environ (e : gmap string string) (w : World) : World :=
  mkWorld e (dotenv w) (fs w) (dir_entries w) (parse_result w)
          (refuses w) (trace w).

(** ** Computations: state passing with exceptions *)

Definition M (A : Type) : Type := World → (exn + A) * World.

Definition ret {A} (a : A) : M A := λ w, (inr a, w).

Definition raise {A} (e : exn) : M A := λ w, (inl e, w).

Definition bind {A B} (m : M A) (k : A → M B) : M B :=
  λ w, match m w with
       | (inr a, w') => k a w'
       | (inl e, w') => (inl e, w')
       end.

(** [try: m  except Exception as e: h e] *)
Definition try_except {A} (m : M A) (h : exn → M A) : M A :=
  λ w, match m w with
       | (inr a, w') => (inr a, w')
       | (inl e, w') => h e w'
       end.

Declare Scope M_scope.
Delimit Scope M_scope with M.
Bind Scope M_scope with M.
Notation "x ← y ; z" := (bind y (λ x, z))
  (at level 20, y at level 100, z at level 200, only parsing) : M_scope.
Notation "y ;; z" := (bind y (λ _, z))
  (at level 100, z at level 200, only parsing, right associativity) : M_scope.
Local Open Scope M_scope.

(** [for i, x in enumerate(l): body i x], counting from [i]. *)
Fixpoint for_enumerate {A} (i : nat) (l : list A) (body : nat → A → M unit)
  : M unit :=
  match l with
  | [] => ret tt
  | x :: l' => body i x ;; for_enumerate (S i) l' body
  end.

(** [for x in l: acc = body acc x] *)
Fixpoint for_fold {A B} (l : list A) (acc : B) (body : B → A → M B) : M B :=
  match l with
  | [] => ret acc
  | x :: l' => acc' ← body acc x; for_fold l' acc' body
  end.

(** ** The environment's operations *)

Definition print (line : string) : M unit :=
  λ w, (inr tt, log (EvPrint line) w).

(** [load_dotenv()]: variables of the environment file are added to the
    process environment, those already set keep their value. *)
Definition load_dotenv : M unit :=
  λ w, (inr tt, set_environ (environ w ∪ dotenv w) (log EvLoadDotenv w)).

Definition os_getenv (name : string) : M (option string) :=
  λ w, (inr (environ w !! name), log (EvGetenv name) w).

Definition nest_asyncio_apply : M unit :=
  λ w, (inr tt, log EvNestAsyncioApply w).

(** The empty path names nothing. *)
Definition lookup_path (w : World) (path : string) : option node :=
  if PyStr.truthy path then fs w !! path else None.

Definition os_path_exists (path : string) : M bool :=
  λ w, (inr (if lookup_path w path is Some _ then true else false),
        log (EvExists path) w).

Definition os_path_isdir (path : string) : M bool :=
  λ w, (inr (if lookup_path w path is Some Dir then true else false),
        log (EvIsdir path) w).

(** [os.makedirs(path)]: refused by the system, or on the empty path, or
    when the path already names something; otherwise the directory is there
    afterwards. *)
Definition os_makedirs (path : string) : M unit :=
  λ w, let w' := log (EvMakedirs path) w in
       match refuses w path with
       | Some e => (inl e, w')
       | None =>
           if negb (PyStr.truthy path)
           then (inl (Exn OtherException "No such file or directory"), w')
           else
             match lookup_path w path with
             | Some _ => (inl (Exn OtherException "File exists"), w')
             | None => (inr tt, set_fs (<[path := Dir]> (fs w)) w')
             end
       end.

Definition os_listdir (path : string) : M (list string) :=
  λ w, (dir_entries w path, log (EvListdir path) w).

(** [LlamaParse(result_type="markdown", num_workers=8, verbose=True,
    language="ko")] *)
Definition LlamaParse : M unit :=
  λ w, (inr tt, log EvLlamaParse w).

(** [SimpleDirectoryReader(input_files=[path], file_extractor=...).load_data()] *)
Definition load_data (path : string) : M (list Document) :=
  λ w, (parse_result w path, log (EvLoadData path) w).

(** [with open(path, "w", encoding="utf-8") as f: f.write(content)]:
    refused by the system, or on the empty path, or on a directory;
    otherwise the file holds exactly [content] afterwards. *)
Definition write_text (path content : string) : M unit :=
  λ w, let w' := log (EvWrite path content) w in
       match refuses w path with
       | Some e => (inl e, w')
       | None =>
           if negb (PyStr.truthy path)
           then (inl (Exn OtherException "No such file or directory"), w')
           else
             match lookup_path w path with
             | Some Dir => (inl (Exn OtherException "Is a directory"), w')
             | _ => (inr tt, set_fs (<[path := File content]> (fs w)) w')
             end
       end.

(** ** The script *)

Import PyStr.

(** Lines 9-33. *)
Definition save_documents_as_markdown
    (documents : list Document) (output_folder : string) : M unit :=
  found ← os_path_exists output_folder;
  (if negb found then os_makedirs output_folder else ret tt) ;;
  for_enumerate 0 documents (λ i doc,
    let filename := "document_" +:+ pretty (i + 1)%nat +:+ ".md" in
    let filepath := OsPath.join output_folder filename in
    write_text filepath (text doc) ;;
    print ("문서 " +:+ pretty (i + 1)%nat +:+ "을(를) " +:+ filepath
           +:+ "에 저장했습니다.")).

(** Lines 156-170. *)
Definition api_key_load : M string :=
  try_except
    (load_dotenv ;;
     LLAMA_CLOUD_API_KEY ← os_getenv "LLAMA_CLOUD_API_KEY";
     match LLAMA_CLOUD_API_KEY with
     | Some key =>
         if truthy key then
           nest_asyncio_apply ;;
           print ("API 키 로드 완료: " +:+ slice_to 5 key +:+ "...") ;;
           ret key
         else
           raise (Exn ValueError
                    "LLAMA_CLOUD_API_KEY가 환경 변수에 설정되지 않았습니다.")
     | None =>
         raise (Exn ValueError
                  "LLAMA_CLOUD_API_KEY가 환경 변수에 설정되지 않았습니다.")
     end)
    (λ e, raise (Exn ValueError ("API 키 로드 중 오류 발생: " +:+ str e))).

(** Lines 71-74: the paths of the entries kept for parsing. *)
Definition pdf_files_of (folder_path : string) (entries : list string)
  : list string :=
  foldl (λ pdf_files file,
           if endswith (lower file) ".pdf"
           then pdf_files ++ [OsPath.join folder_path file]
           else pdf_files)
        [] entries.

(** Lines 87-96: one turn of the parsing loop. *)
Definition parse_one (result_dict : gmap string (list Document))
    (pdf_file : string) : M (gmap string (list Document)) :=
  let filename := (OsPath.splitext (OsPath.basename pdf_file)).1 in
  documents ← load_data pdf_file;
  let result_dict := <[filename := documents]> result_dict in
  print ("'" +:+ filename +:+ ".pdf' 파일 파싱 완료: "
         +:+ pretty (length documents) +:+ " 페이지") ;;
  ret result_dict.

(** Lines 47-98: the body of the [try]. *)
Definition pdf_file_load_body (folder_path : string)
  : M (gmap string (list Document)) :=
  api_key_load ;;
  found ← os_path_exists folder_path;
  if negb found then
    print ("'" +:+ folder_path +:+ "' 폴더가 존재하지 않습니다.") ;;
    ret ∅
  else
    isdir ← os_path_isdir folder_path;
    if negb isdir then
      print ("'" +:+ folder_path +:+ "'는 폴더가 아닙니다.") ;;
      ret ∅
    else
      LlamaParse ;;
      entries ← os_listdir folder_path;
      let pdf_files := pdf_files_of folder_path entries in
      match pdf_files with
      | [] =>
          print ("'" +:+ folder_path +:+ "' 폴더에 PDF 파일이 없습니다.") ;;
          ret ∅
      | _ :: _ =>
          print ("'" +:+ folder_path +:+ "' 폴더에 "
                 +:+ pretty (length pdf_files)
                 +:+ " 개의 PDF 파일이 로드되었습니다.") ;;
          for_fold pdf_files ∅ parse_one
      end.

(** Lines 46-105. *)
Definition pdf_file_load (folder_path : string)
  : M (gmap string (list Document)) :=
  try_except (pdf_file_load_body folder_path)
    (λ e,
       match class_of e with
       | PermissionError =>
           print ("'" +:+ folder_path +:+ "' 폴더에 접근할 권한이 없습니다.") ;;
           ret ∅
       | _ =>
           print ("PDF 파일 로드 중 오류가 발생했습니다: " +:+ str e) ;;
           ret ∅
       end).

(** Lines 134-146: what page [i] adds to the merged text. *)
Definition page_text (i : nat) (doc : Document) : string :=
  let current_text := text doc in
  let current_text :=
    if (0 <? i)%nat && truthy current_text then
      let lines := split current_text LFLF in
      if (0 <? length lines)%nat then join LF (List.tl lines) else current_text
    else current_text in
  current_text +:+ " ".

(** Lines 130-147: the merging loop, from page index [i]. *)
Fixpoint merge_loop (i : nat) (merged_content : string)
    (documents : list Document) : string :=
  match documents with
  | [] => merged_content
  | doc :: rest => merge_loop (S i) (merged_content +:+ page_text i doc) rest
  end.

Definition merged_content_of (documents : list Document) : string :=
  merge_loop 0 "" documents.

(** Lines 108-153. *)
Definition merge_documents_to_single_markdown
    (documents : list Document) (output_folder filename : string) : M unit :=
  found ← os_path_exists output_folder;
  (if negb found then os_makedirs output_folder else ret tt) ;;
  let merged_filepath := OsPath.join output_folder (filename +:+ ".md") in
  let merged_content := merged_content_of documents in
  write_text merged_filepath merged_content ;;
  print ("모든 문서가 " +:+ merged_filepath +:+ "에 병합되어 저장되었습니다.").


(** ** Notions used to state the properties *)

(** A text with its first paragraph removed: split on the paragraph break,
    drop the first piece, rejoin the others with one line feed. *)
Definition strip_first_paragraph (t : string) : string :=
  join LF (List.tl (split t LFLF)).

(** The file the merger writes, and the file the per-page writer writes for
    the page of index [i]. *)
Definition merged_filepath_of (output_folder filename : string) : string :=
  OsPath.join output_folder (filename +:+ ".md").

Definition page_filepath (output_folder : string) (i : nat) : string :=
  OsPath.join output_folder ("document_" +:+ pretty (i + 1)%nat +:+ ".md").

(** The files of a DocumentSet of [n] pages. *)
Definition page_paths (output_folder : string) (n : nat) : list string :=
  page_filepath output_folder <$> seq 0 n.

(** The system lets the script have [output_folder]: it is there, or it has
    a name and may be created. *)
Definition accepts_folder (w : World) (output_folder : string) : bool :=
  match lookup_path w output_folder with
  | Some _ => true
  | None =>
      truthy output_folder
      && (if refuses w output_folder is None then true else false)
  end.

(** The system lets the script write the file [path]: opening it is not
    refused and it is not a directory (nor the folder about to be made). *)
Definition accepts_write (w : World) (output_folder path : string) : bool :=
  (if refuses w path is None then true else false)
  && (if lookup_path w path is Some Dir then false else true)
  && (if lookup_path w output_folder is Some _ then true
      else negb (String.eqb path output_folder)).

(** Texts put one after the other with nothing in between. *)
Definition concat_texts (l : list string) : string :=
  foldr String.append "" l.

(** What a page after the first adds to the merged text. *)
Definition later_page (doc : Document) : string :=
  strip_first_paragraph (text doc) +:+ " ".

(** The credential as the script finds it once the environment file has
    been loaded. *)
Definition credential (w : World) : option string :=
  (environ w ∪ dotenv w) !! "LLAMA_CLOUD_API_KEY".

(** Whether a directory entry is kept for parsing (line 73). *)
Definition is_pdf_name (file : string) : bool :=
  endswith (lower file) ".pdf".

(** The key under which the loader files the result of a path (line 87),
    and the stem of a directory entry. *)
Definition key_of_path (pdf_file : string) : string :=
  (OsPath.splitext (OsPath.basename pdf_file)).1.

Definition stem (file : string) : string := (OsPath.splitext file).1.

(** The entries [os.listdir] reports for a folder, none when it fails. *)
Definition listing (w : World) (folder_path : string) : list string :=
  match dir_entries w folder_path with
  | inr entries => entries
  | inl _ => []
  end.

(** The paths of a list up to the first one that fails a test, that one
    included. *)
Fixpoint up_to_first_failure (ok : string → bool) (l : list string)
  : list string :=
  match l with
  | [] => []
  | p :: l' => if ok p then p :: up_to_first_failure ok l' else [p]
  end.

(** The pages the service returns for a path, when it returns. *)
Definition pages_of (w : World) (pdf_file : string) : list Document :=
  match parse_result w pdf_file with
  | inr documents => documents
  | inl _ => []
  end.

Definition parses (w : World) (pdf_file : string) : bool :=
  if parse_result w pdf_file is inr _ then true else false.

(** The paths one call of the loader hands to the parsing service: none
    unless the credential is set, the path is a folder and its listing is
    given; then those of the entries whose lowercased name ends with [.pdf],
    in the order listed, up to the first the service fails on. *)
Definition submitted_paths (w : World) (folder_path : string) : list string :=
  match credential w with
  | Some key =>
      if truthy key then
        match lookup_path w folder_path, dir_entries w folder_path with
        | Some Dir, inr entries =>
            up_to_first_failure (parses w)
              (OsPath.join folder_path
               <$> List.filter (λ file, endswith (lower file) ".pdf") entries)
        | _, _ => []
        end
      else []
  | None => []
  end.

(** The mapping the parsing loop builds from [result_dict] when every
    file parses. *)
Definition filed (w : World) (result_dict : gmap string (list Document))
    (pdf_files : list string) : gmap string (list Document) :=
  foldl (λ m pdf_file, <[key_of_path pdf_file := pages_of w pdf_file]> m)
        result_dict pdf_files.

(** The message of the error raised for a missing credential (line 163). *)
Definition KEY_MISSING : string :=
  "LLAMA_CLOUD_API_KEY가 환경 변수에 설정되지 않았습니다.".

(** Two worlds that differ only in what was recorded or in the process
    environment: the file system and the answers of the system and of the
    service are the same. *)
Definition same_outside (w w' : World) : Prop :=
  fs w' = fs w ∧ dir_entries w' = dir_entries w
  ∧ parse_result w' = parse_result w ∧ refuses w' = refuses w.

(** The world once [api_key_load] has failed for want of the credential,
    and once it has returned [key]. *)
Definition key_sought (w : World) : World :=
  log (EvGetenv "LLAMA_CLOUD_API_KEY")
      (set_environ (environ w ∪ dotenv w) (log EvLoadDotenv w)).

Definition key_loaded (w : World) (key : string) : World :=
  log (EvPrint ("API 키 로드 완료: " +:+ slice_to 5 key +:+ "..."))
      (log EvNestAsyncioApply (key_sought w)).

(** The world once the loader has found its folder and listed it. *)
Definition folder_listed (w : World) (key folder_path : string) : World :=
  log (EvListdir folder_path)
      (log EvLlamaParse
           (log (EvIsdir folder_path)
                (log (EvExists folder_path) (key_loaded w key)))).

(** The files written, oldest first, as the trace records them. *)
Definition writes_of (t : list event) : list (string * string) :=
  omap (λ e, if e is EvWrite p c then Some (p, c) else None) t.

(** A run from [w] to [w'] asked for the writes of an initial part of [l],
    and for no other. *)
Definition writes_within (w w' : World) (l : list (string * string)) : Prop :=
  ∃ k, writes_of (trace w') = writes_of (trace w) ++ take k l.

(** The paths handed to the parsing service, oldest first. *)
Definition parsed_of (t : list event) : list string :=
  omap (λ e, if e is EvLoadData p then Some p else None) t.

(** Requests that touch the file system or the parsing service. *)
Definition is_file_access (e : event) : bool :=
  match e with
  | EvExists _ | EvIsdir _ | EvMakedirs _ | EvListdir _
  | EvLoadData _ | EvWrite _ _ => true
  | _ => false
  end.

(** Lines 20-21 and 123-124, the common opening of the two writers:
    afterwards the folder is there. *)
Definition ensure_folder (output_folder : string) : M unit :=
  found ← os_path_exists output_folder;
  if negb found then os_makedirs output_folder else ret tt.

(** Lines 24-33: one turn of the per-page writer's loop. *)
Definition save_page (output_folder : string) (i : nat) (doc : Document)
  : M unit :=
  let filename := "document_" +:+ pretty (i + 1)%nat +:+ ".md" in
  let filepath := OsPath.join output_folder filename in
  write_text filepath (text doc) ;;
  print ("문서 " +:+ pretty (i + 1)%nat +:+ "을(를) " +:+ filepath
         +:+ "에 저장했습니다.").

(** ** The top-level routine

    [run] goes through the loaded mapping with [items()], in the order in
    which the keys were first assigned: for it the loader is taken over a
    dictionary that keeps that order.  The loader is first written over any
    dictionary, given by its empty value and its assignment; over [gmap] it
    is [pdf_file_load] itself. *)

(** Lines 87-96 over a dictionary with assignment [set]. *)
Definition parse_one_with {D} (set : string → list Document → D → D)
    (result_dict : D) (pdf_file : string) : M D :=
  let filename := (OsPath.splitext (OsPath.basename pdf_file)).1 in
  documents ← load_data pdf_file;
  let result_dict := set filename documents result_dict in
  print ("'" +:+ filename +:+ ".pdf' 파일 파싱 완료: "
         +:+ pretty (length documents) +:+ " 페이지") ;;
  ret result_dict.

(** Lines 47-98 over a dictionary. *)
Definition pdf_file_load_body_with {D} (empty : D)
    (set : string → list Document → D → D) (folder_path : string) : M D :=
  api_key_load ;;
  found ← os_path_exists folder_path;
  if negb found then
    print ("'" +:+ folder_path +:+ "' 폴더가 존재하지 않습니다.") ;;
    ret empty
  else
    isdir ← os_path_isdir folder_path;
    if negb isdir then
      print ("'" +:+ folder_path +:+ "'는 폴더가 아닙니다.") ;;
      ret empty
    else
      LlamaParse ;;
      entries ← os_listdir folder_path;
      let pdf_files := pdf_files_of folder_path entries in
      match pdf_files with
      | [] =>
          print ("'" +:+ folder_path +:+ "' 폴더에 PDF 파일이 없습니다.") ;;
          ret empty
      | _ :: _ =>
          print ("'" +:+ folder_path +:+ "' 폴더에 "
                 +:+ pretty (length pdf_files)
                 +:+ " 개의 PDF 파일이 로드되었습니다.") ;;
          for_fold pdf_files empty (parse_one_with set)
      end.

(** Lines 46-105 over a dictionary. *)
Definition pdf_file_load_with {D} (empty : D)
    (set : string → list Document → D → D) (folder_path : string) : M D :=
  try_except (pdf_file_load_body_with empty set folder_path)
    (λ e,
       match class_of e with
       | PermissionError =>
           print ("'" +:+ folder_path +:+ "' 폴더에 접근할 권한이 없습니다.") ;;
           ret empty
       | _ =>
           print ("PDF 파일 로드 중 오류가 발생했습니다: " +:+ str e) ;;
           ret empty
       end).

(** Lines 156-170 whatever the three library calls of the [try] block do:
    [load_dotenv()], [nest_asyncio.apply()] and the [print] of line 167 are
    given as computations that may raise.  With the operations of the
    environment above it is [api_key_load] itself. *)
Definition api_key_load_with (load_dotenv nest_asyncio_apply : M unit)
    (print : string → M unit) : M string :=
  try_except
    (load_dotenv ;;
     LLAMA_CLOUD_API_KEY ← os_getenv "LLAMA_CLOUD_API_KEY";
     match LLAMA_CLOUD_API_KEY with
     | Some key =>
         if truthy key then
           nest_asyncio_apply ;;
           print ("API 키 로드 완료: " +:+ slice_to 5 key +:+ "...") ;;
           ret key
         else
           raise (Exn ValueError
                    "LLAMA_CLOUD_API_KEY가 환경 변수에 설정되지 않았습니다.")
     | None =>
         raise (Exn ValueError
                  "LLAMA_CLOUD_API_KEY가 환경 변수에 설정되지 않았습니다.")
     end)
    (λ e, raise (Exn ValueError ("API 키 로드 중 오류 발생: " +:+ str e))).

(** A [dict] with the order of its keys: [d[k] = v] replaces the value of
    a key that is there, in place, and puts a new key last. *)
Fixpoint dict_set {V} (k : string) (v : V) (d : list (string * V))
  : list (string * V) :=
  match d with
  | [] => [(k, v)]
  | (k', v') :: d' =>
      if decide (k' = k) then (k, v) :: d' else (k', v') :: dict_set k v d'
  end.

(** [pdf_file_load] with the result as [items()] gives it. *)
Definition pdf_file_load_items (folder_path : string)
  : M (list (string * list Document)) :=
  pdf_file_load_with [] dict_set folder_path.

(** [for x in l: body x] *)
Fixpoint for_each {A} (l : list A) (body : A → M unit) : M unit :=
  match l with
  | [] => ret tt
  | x :: l' => body x ;; for_each l' body
  end.

(** Lines 178-182: one turn of the loop of [run]. *)
Definition convert_one (item : string * list Document) : M unit :=
  let '(filename, documents) := item in
  match documents with
  | [] => ret tt
  | _ :: _ =>
      merge_documents_to_single_markdown documents "pdf2markdown" filename ;;
      print ("'" +:+ filename +:+ ".pdf'를 마크다운으로 변환 완료")
  end.

(** Lines 173-184. *)
Definition run : M unit :=
  pdf_documents ← pdf_file_load_items "data";
  for_each pdf_documents convert_one ;;
  print "모든 PDF 파일이 개별 마크다운으로 변환되었습니다.".

(** The dictionary the parsing loop builds from [result_dict] when every
    file parses. *)
Definition filed_with {D} (set : string → list Document → D → D) (w : World)
    (result_dict : D) (pdf_files : list string) : D :=
  foldl (λ d pdf_file, set (key_of_path pdf_file) (pages_of w pdf_file) d)
        result_dict pdf_files.

(** The ways in which loading a folder comes to nothing: no credential, no
    folder of that name, a listing refused, or a file the service fails
    on. *)
Definition load_fails (w : World) (folder_path : string) : Prop :=
  (credential w = None ∨ credential w = Some "")
  ∨ lookup_path w folder_path ≠ Some Dir
  ∨ (∃ e, dir_entries w folder_path = inl e)
  ∨ (∃ entries, dir_entries w folder_path = inr entries
                ∧ forallb (parses w) (pdf_files_of folder_path entries) = false).

(** What a call leaves as it was when it only reads: the file system, the
    answers of the system and of the service, and the writes asked for; the
    process environment has the variables of the environment file added. *)
Definition only_read (w w' : World) : Prop :=
  same_outside w w'
  ∧ writes_of (trace w') = writes_of (trace w)
  ∧ environ w' = environ w ∪ dotenv w
  ∧ dotenv w' = dotenv w.

(** A call that only records requests other than writes. *)
Definition only_logged (w w' : World) : Prop :=
  same_outside w w'
  ∧ writes_of (trace w') = writes_of (trace w)
  ∧ environ w' = environ w
  ∧ dotenv w' = dotenv w.

(** The world once a writer has seen to its folder: made if it was not
    there. *)
Definition folder_ensured (w : World) (output_folder : string) : World :=
  match lookup_path w output_folder with
  | Some _ => log (EvExists output_folder) w
  | None =>
      set_fs (<[output_folder := Dir]> (fs w))
             (log (EvMakedirs output_folder) (log (EvExists output_folder) w))
  end.

(** The world once the merger has written its file. *)
Definition merged_world (documents : list Document)
    (output_folder filename : string) (w : World) : World :=
  let path := merged_filepath_of output_folder filename in
  let w1 := folder_ensured w output_folder in
  log (EvPrint ("모든 문서가 " +:+ path +:+ "에 병합되어 저장되었습니다."))
      (set_fs (<[path := File (merged_content_of documents)]> (fs w1))
              (log (EvWrite path (merged_content_of documents)) w1)).

(** The file [run] writes for the PDF of stem [filename]. *)
Definition markdown_path (filename : string) : string :=
  OsPath.join "pdf2markdown" (filename +:+ ".md").

(** The last message of [run] (line 184). *)
Definition ALL_CONVERTED : string :=
  "모든 PDF 파일이 개별 마크다운으로 변환되었습니다.".

(** ** Sample inputs *)

(** A world as the default run meets it: the credential is set, [data]
    holds three PDF files and a text file, the service returns two pages
    for each file, and nothing is refused. *)
Definition sample_world : World :=
  mkWorld
    {[ "LLAMA_CLOUD_API_KEY" := "llx-0123456789" ]} ∅
    {[ "data" := Dir ]}
    (λ p, if decide (p = "data")
          then inr ["civil.pdf"; "notes.txt"; "penal.PDF"; "tax.Pdf"]
          else inl (Exn OtherException "No such file or directory"))
    (λ p, inr [mkDocument ("# " +:+ p); mkDocument "page two"])
    (λ _, None)
    [].

(** The same world without the credential. *)
Definition world_without_key : World :=
  mkWorld ∅ ∅ (fs sample_world) (dir_entries sample_world)
          (parse_result sample_world) (refuses sample_world) [].

(** A world whose service fails on the second of the three PDF files. *)
Definition world_failing_service : World :=
  mkWorld (environ sample_world) (dotenv sample_world) (fs sample_world)
          (dir_entries sample_world)
          (λ p, if decide (p = "data/penal.PDF")
                then inl (Exn OtherException "service unavailable")
                else parse_result sample_world p)
          (refuses sample_world) [].

(** A world whose folder holds two PDF files with one stem. *)
Definition world_with_twins : World :=
  mkWorld (environ sample_world) (dotenv sample_world) (fs sample_world)
          (λ p, if decide (p = "data") then inr ["law.pdf"; "law.PDF"]
                else inl (Exn OtherException "No such file or directory"))
          (parse_result sample_world) (refuses sample_world) [].

(** A world with more in it: a regular file [report.pdf], a folder [texts]
    without any PDF file, and a folder [sealed] that may not be listed. *)
Definition world_with_report : World :=
  mkWorld (environ sample_world) (dotenv sample_world)
          {[ "data" := Dir; "report.pdf" := File "%PDF-1.7";
             "texts" := Dir; "sealed" := Dir ]}
          (λ p, if decide (p = "texts") then inr ["notes.txt"; "pdf"; "a.pdf.bak"]
                else if decide (p = "sealed")
                     then inl (Exn PermissionError "Permission denied")
                     else dir_entries sample_world p)
          (parse_result sample_world) (refuses sample_world) [].

(** A world that lets no one write the second page file of [pages]. *)
Definition world_refusing_second : World :=
  mkWorld (environ sample_world) (dotenv sample_world) (fs sample_world)
          (dir_entries sample_world) (parse_result sample_world)
          (λ p, if decide (p = "pages/document_2.md")
                then Some (Exn PermissionError "Permission denied")
                else None)
          [].


(** A world whose folder holds a PDF file for which the service returns
    no page. *)
Definition world_with_blank : World :=
  mkWorld (environ sample_world) (dotenv sample_world) (fs sample_world)
          (λ p, if decide (p = "data")
                then inr ["civil.pdf"; "notes.txt"; "blank.PDF"]
                else inl (Exn OtherException "No such file or directory"))
          (λ p, if decide (p = "data/blank.PDF") then inr []
                else parse_result sample_world p)
          (refuses sample_world) [].

Definition page_a : Document := mkDocument ("# Title" +:+ LFLF +:+ "first").
Definition page_b : Document :=
  mkDocument ("header" +:+ LFLF +:+ "second" +:+ LFLF +:+ "more").
Definition page_c : Document := mkDocument ("header" +:+ LFLF +:+ "third").

(** A page that is one paragraph, without any paragraph break. *)
Definition page_plain : Document := mkDocument "only paragraph".

(** ** The operations on known values *)

Example split_paragraphs :
  split ("a" +:+ LFLF +:+ "b" +:+ LFLF +:+ LF +:+ "c") LFLF
  = ["a"; "b"; LF +:+ "c"].
Proof. reflexivity. Qed.

Example split_empty : split "" LFLF = [""].
Proof. reflexivity. Qed.

Example split_only_break : split LFLF LFLF = [""; ""].
Proof. reflexivity. Qed.

Example join_none : join LF [] = "".
Proof. reflexivity. Qed.

Example lower_mixed : lower "Ab.PdF" = "ab.pdf".
Proof. reflexivity. Qed.

Example join_paths :
  OsPath.join "data" "a.pdf" = "data/a.pdf"
  ∧ OsPath.join "data/" "a.pdf" = "data/a.pdf"
  ∧ OsPath.join "" "a.pdf" = "a.pdf"
  ∧ OsPath.join "data" "/abs.pdf" = "/abs.pdf".
Proof. by split_and!. Qed.

Example basename_paths :
  OsPath.basename "data/x/a.pdf" = "a.pdf" ∧ OsPath.basename "data/" = "".
Proof. by split_and!. Qed.

Example splitext_names :
  OsPath.splitext "a.b.PDF" = ("a.b", ".PDF")
  ∧ OsPath.splitext ".pdf" = (".pdf", "")
  ∧ OsPath.splitext "..pdf" = ("..pdf", "")
  ∧ OsPath.splitext "x.y/pdf" = ("x.y/pdf", "").
Proof. by split_and!. Qed.

Example strip_example :
  strip_first_paragraph (text page_b) = "second" +:+ LF +:+ "more".
Proof. reflexivity. Qed.

Example page_names :
  page_paths "pages" 3
  = ["pages/document_1.md"; "pages/document_2.md"; "pages/document_3.md"].
Proof. reflexivity. Qed.

(** ** Facts about the string operations *)

Section PyStrFacts.
Import PyStr.

Lemma append_cons (c : ascii) (s t : string) :
  String c s +:+ t = String c (s +:+ t).
Proof. reflexivity. Qed.

Lemma append_nil_l (s : string) : "" +:+ s = s.
Proof. reflexivity. Qed.

Lemma append_nil_r (s : string) : s +:+ "" = s.
Proof.
  induction s as [|c s IH]; [done | by rewrite append_cons, IH].
Qed.

Lemma append_assoc (a b c : string) : (a +:+ b) +:+ c = a +:+ (b +:+ c).
Proof.
  induction a as [|x a IH]; [done | by rewrite !append_cons, IH].
Qed.

Lemma length_append (a b : string) :
  String.length (a +:+ b) = (String.length a + String.length b)%nat.
Proof.
  induction a as [|x a IH]; [done | rewrite append_cons; simpl; by rewrite IH].
Qed.

Lemma slice_from_append (a b : string) : slice_from (String.length a) (a +:+ b) = b.
Proof.
  induction a as [|x a IH]; [by destruct b | by rewrite append_cons].
Qed.

Lemma slice_to_append (a b : string) : slice_to (String.length a) (a +:+ b) = a.
Proof.
  induction a as [|x a IH]; [by destruct b|].
  rewrite append_cons; simpl. by rewrite IH.
Qed.

Lemma slice_to_from (n : nat) (s : string) : slice_to n s +:+ slice_from n s = s.
Proof.
  revert s; induction n as [|n IH]; intros [|c s]; simpl; try done.
  by rewrite append_cons, IH.
Qed.

Lemma truthy_spec (s : string) : truthy s = true ↔ s ≠ "".
Proof. destruct s; simpl; split; (done || congruence). Qed.

(** A split always has a first piece, so the guard [len(lines) > 0] of
    the merger never fails. *)
Lemma split_go_not_nil (sep : string) (k : nat) (s : string) :
  split_go sep k s ≠ [].
Proof.
  revert k; induction s as [|c s IH]; intros k; cbn [split_go]; [done|].
  destruct k as [|k]; [|apply IH].
  destruct (startswith (String c s) sep); [done|].
  specialize (IH 0%nat). by destruct (split_go sep 0 s).
Qed.

Lemma split_length_pos (s sep : string) : (0 < length (split s sep))%nat.
Proof.
  unfold split. pose proof (split_go_not_nil sep 0 s) as H.
  destruct (split_go sep 0 s); simpl; [done | lia].
Qed.

(** Without an occurrence of the separator the text is the only piece. *)
Lemma split_without_sep (s sep : string) :
  contains sep s = false → split s sep = [s].
Proof.
  unfold split. induction s as [|c s IH]; intros H; [done|].
  cbn [contains] in H. apply orb_false_iff in H as [H1 H2].
  cbn [split_go]. rewrite H1, (IH H2). done.
Qed.

Lemma contains_empty (sep : string) : sep ≠ "" → contains sep "" = false.
Proof. by destruct sep. Qed.

End PyStrFacts.

(** ** Running the environment's operations *)

Section Runs.

Lemma join_not_empty (a b : string) : b ≠ "" → OsPath.join a b ≠ "".
Proof.
  intros Hb. unfold OsPath.join.
  destruct (startswith b OsPath.sep); [done|].
  destruct (negb (truthy a) || endswith a OsPath.sep).
  - destruct a; [done | by rewrite append_cons].
  - destruct a; [by rewrite append_nil_l | by rewrite append_cons].
Qed.

Lemma append_not_empty_r (a b : string) : b ≠ "" → a +:+ b ≠ "".
Proof. intros Hb. destruct a; [done | by rewrite append_cons]. Qed.

Lemma lookup_path_set_fs (f : gmap string node) (w : World) (p : string) :
  lookup_path (set_fs f w) p = if truthy p then f !! p else None.
Proof. reflexivity. Qed.

Lemma lookup_path_log (e : event) (w : World) (p : string) :
  lookup_path (log e w) p = lookup_path w p.
Proof. reflexivity. Qed.

Lemma ensure_folder_run (w : World) (output_folder : string) :
  accepts_folder w output_folder = true →
  ∃ w1, ensure_folder output_folder w = (inr tt, w1)
        ∧ refuses w1 = refuses w
        ∧ is_Some (lookup_path w1 output_folder)
        ∧ (lookup_path w output_folder = None →
           fs w1 = <[output_folder := Dir]> (fs w))
        ∧ (is_Some (lookup_path w output_folder) → fs w1 = fs w)
        ∧ writes_of (trace w1) = writes_of (trace w).
Proof.
  unfold accepts_folder, ensure_folder, bind, os_path_exists, os_makedirs.
  intros Hacc. cbn beta iota.
  destruct (lookup_path w output_folder) as [n|] eqn:Hl; cbn [negb].
  - eexists; split; [reflexivity|]. cbn.
    repeat split; try done.
    unfold writes_of. by rewrite omap_app, app_nil_r.
  - apply andb_true_iff in Hacc as [Ht Hr].
    cbn [refuses log]. destruct (refuses w output_folder); [done|].
    rewrite Ht, lookup_path_log, Hl. cbn [negb].
    eexists; split; [reflexivity|]. cbn.
    repeat split; try done.
    + rewrite lookup_path_set_fs, Ht, lookup_insert_eq. by eexists.
    + unfold writes_of. by rewrite !omap_app, !app_nil_r.
Qed.

Lemma write_text_run (w : World) (path content : string) :
  refuses w path = None → path ≠ "" → lookup_path w path ≠ Some Dir →
  write_text path content w
  = (inr tt, set_fs (<[path := File content]> (fs w))
                    (log (EvWrite path content) w)).
Proof.
  intros Hr Hp Hd. unfold write_text. rewrite Hr.
  apply truthy_spec in Hp. rewrite Hp. cbn [negb].
  destruct (lookup_path w path) as [[|c]|]; done.
Qed.

Lemma writes_of_snoc (t : list event) (e : event) :
  writes_of (t ++ [e])
  = writes_of t ++ (if e is EvWrite p c then [(p, c)] else []).
Proof. unfold writes_of. rewrite omap_app. by destruct e. Qed.

Lemma ensure_folder_writes (w : World) (output_folder : string) :
  writes_of (trace (ensure_folder output_folder w).2) = writes_of (trace w).
Proof.
  unfold ensure_folder, bind, os_path_exists, os_makedirs. cbn beta iota.
  destruct (lookup_path w output_folder) as [n|] eqn:Hl; cbn [negb].
  - cbn. by rewrite writes_of_snoc, app_nil_r.
  - cbn [refuses log]. rewrite lookup_path_log, Hl.
    destruct (refuses w output_folder), (truthy output_folder);
      cbn; by rewrite !writes_of_snoc, !app_nil_r.
Qed.

Lemma write_text_writes (w : World) (path content : string) :
  writes_of (trace (write_text path content w).2)
  = writes_of (trace w) ++ [(path, content)].
Proof.
  unfold write_text.
  destruct (refuses w path), (truthy path), (lookup_path w path) as [[]|];
    cbn; by rewrite writes_of_snoc.
Qed.

(** In every world, whether the system accepts or refuses, the merger asks
    for no other write than that of the merged text to its file. *)
Lemma merge_documents_requests (documents : list Document)
    (output_folder filename : string) (w : World) :
  writes_within w
    (merge_documents_to_single_markdown documents output_folder filename w).2
    [(merged_filepath_of output_folder filename, merged_content_of documents)].
Proof.
  unfold merge_documents_to_single_markdown.
  change (bind (os_path_exists output_folder) _)
    with (bind (ensure_folder output_folder)
            (λ _, bind (write_text (merged_filepath_of output_folder filename)
                          (merged_content_of documents))
                    (λ _, print ("모든 문서가 "
                                 +:+ merged_filepath_of output_folder filename
                                 +:+ "에 병합되어 저장되었습니다.")))).
  pose proof (ensure_folder_writes w output_folder) as He.
  unfold bind at 1.
  destruct (ensure_folder output_folder w) as [[e|[]] w1]; cbn [snd] in He.
  - exists 0%nat. cbn. by rewrite app_nil_r.
  - pose proof (write_text_writes w1 (merged_filepath_of output_folder filename)
                  (merged_content_of documents)) as Hw.
    unfold bind.
    destruct (write_text _ _ w1) as [[e|[]] w2]; cbn [snd] in Hw;
      exists 1%nat; unfold print; cbn [snd trace log take].
    + by rewrite Hw, He.
    + by rewrite writes_of_snoc, app_nil_r, Hw, He.
Qed.

(** The merger in a world that accepts its folder and its file. *)
Lemma merge_documents_run (documents : list Document)
    (output_folder filename : string) (w : World) :
  let path := merged_filepath_of output_folder filename in
  let r := merge_documents_to_single_markdown documents output_folder filename w in
  accepts_folder w output_folder = true →
  accepts_write w output_folder path = true →
  r.1 = inr tt
  ∧ fs r.2 !! path = Some (File (merged_content_of documents))
  ∧ is_Some (lookup_path r.2 output_folder)
  ∧ (lookup_path w output_folder = None → fs r.2 !! output_folder = Some Dir)
  ∧ (∀ q, q ≠ path → q ≠ output_folder → fs r.2 !! q = fs w !! q)
  ∧ writes_of (trace r.2)
    = writes_of (trace w) ++ [(path, merged_content_of documents)].
Proof.
  intros path r Hf Hw.
  destruct (ensure_folder_run w output_folder Hf)
    as (w1 & Hrun & Href & Hex & Hnew & Hold & Hwr).
  assert (Hpath : path ≠ "").
  { apply join_not_empty, append_not_empty_r. done. }
  apply andb_true_iff in Hw as [Hw Hw3].
  apply andb_true_iff in Hw as [Hw1 Hw2].
  assert (Hne : lookup_path w output_folder = None → path ≠ output_folder).
  { intros Hn. rewrite Hn in Hw3. apply negb_true_iff in Hw3.
    by apply String.eqb_neq. }
  assert (Hr1 : refuses w1 path = None).
  { rewrite Href. by destruct (refuses w path). }
  assert (Hd1 : lookup_path w1 path ≠ Some Dir).
  { unfold lookup_path in *. destruct (truthy path); [|done].
    destruct (truthy output_folder) eqn:Ht.
    - destruct (fs w !! output_folder) as [n|] eqn:Hl.
      + rewrite Hold by (by eexists). by destruct (fs w !! path) as [[]|].
      + rewrite Hnew by done. rewrite lookup_insert_ne by (symmetry; auto).
        by destruct (fs w !! path) as [[]|].
    - rewrite Hnew by done. rewrite lookup_insert_ne by (symmetry; auto).
      by destruct (fs w !! path) as [[]|]. }
  assert (Hr : r = (inr tt,
            log (EvPrint ("모든 문서가 " +:+ path +:+ "에 병합되어 저장되었습니다."))
              (set_fs (<[path := File (merged_content_of documents)]> (fs w1))
                 (log (EvWrite path (merged_content_of documents)) w1)))).
  { subst r. unfold merge_documents_to_single_markdown.
    change (bind (os_path_exists output_folder) _)
      with (bind (ensure_folder output_folder)
              (λ _, bind (write_text path (merged_content_of documents))
                      (λ _, print ("모든 문서가 " +:+ path
                                   +:+ "에 병합되어 저장되었습니다.")))).
    unfold bind at 1. rewrite Hrun.
    unfold bind. rewrite (write_text_run w1 path _ Hr1 Hpath Hd1).
    reflexivity. }
  rewrite Hr. cbn [fst snd fs log set_fs trace].
  split_and!.
  - done.
  - by rewrite lookup_insert_eq.
  - rewrite lookup_path_log, lookup_path_set_fs.
    destruct Hex as [n Hn]. unfold lookup_path in Hn.
    destruct (truthy output_folder); [|done].
    destruct (decide (path = output_folder)) as [->|Hneq].
    + rewrite lookup_insert_eq. by eexists.
    + rewrite lookup_insert_ne by done. by eexists.
  - intros Hn. rewrite lookup_insert_ne by auto.
    rewrite Hnew by done. by rewrite lookup_insert_eq.
  - intros q Hq1 Hq2. rewrite lookup_insert_ne by done.
    destruct (lookup_path w output_folder) as [n|] eqn:Hl.
    + rewrite Hold by (by eexists). done.
    + rewrite Hnew by done. by rewrite lookup_insert_ne.
  - rewrite !writes_of_snoc, Hwr. cbn. by rewrite app_nil_r.
Qed.

End Runs.

(** ** The merged text *)

Section Merger.

Lemma page_text_first (doc : Document) : page_text 0 doc = text doc +:+ " ".
Proof. reflexivity. Qed.

(** After the first page the first paragraph goes; the test on the empty
    text changes nothing, since stripping the empty text gives it back. *)
Lemma page_text_later (i : nat) (doc : Document) :
  (0 < i)%nat → page_text i doc = later_page doc.
Proof.
  intros Hi. unfold page_text, later_page, strip_first_paragraph.
  apply Nat.ltb_lt in Hi. rewrite Hi. cbn [andb].
  destruct (truthy (text doc)) eqn:Ht.
  - pose proof (split_length_pos (text doc) LFLF) as Hl.
    apply Nat.ltb_lt in Hl. by rewrite Hl.
  - by destruct (text doc).
Qed.

Lemma merge_loop_acc (i : nat) (acc : string) (documents : list Document) :
  merge_loop i acc documents = acc +:+ merge_loop i "" documents.
Proof.
  revert i acc. induction documents as [|doc rest IH]; intros i acc.
  - cbn. by rewrite append_nil_r.
  - cbn [merge_loop]. rewrite (IH (S i) (acc +:+ _)), (IH (S i) ("" +:+ _)).
    by rewrite append_nil_l, append_assoc.
Qed.

Lemma merge_loop_later (i : nat) (documents : list Document) :
  (0 < i)%nat →
  merge_loop i "" documents = concat_texts (later_page <$> documents).
Proof.
  revert i. induction documents as [|doc rest IH]; intros i Hi; [done|].
  cbn [merge_loop fmap list_fmap concat_texts foldr].
  rewrite merge_loop_acc, append_nil_l, page_text_later by done.
  f_equal. apply IH. lia.
Qed.

Lemma merge_loop_app (i : nat) (acc : string) (l1 l2 : list Document) :
  merge_loop i acc (l1 ++ l2)
  = merge_loop (i + length l1) (merge_loop i acc l1) l2.
Proof.
  revert i acc. induction l1 as [|doc l1 IH]; intros i acc; cbn.
  - by rewrite Nat.add_0_r.
  - rewrite IH. f_equal. lia.
Qed.

Lemma merged_content_cons (doc : Document) (rest : list Document) :
  merged_content_of (doc :: rest)
  = text doc +:+ " " +:+ concat_texts (later_page <$> rest).
Proof.
  unfold merged_content_of. cbn [merge_loop].
  rewrite merge_loop_acc, append_nil_l, page_text_first.
  rewrite merge_loop_later by lia. by rewrite append_assoc.
Qed.

(** A page without a paragraph break, the empty page included, is a
    single paragraph: stripping leaves nothing of it. *)
Lemma strip_single_paragraph (t : string) :
  contains LFLF t = false → strip_first_paragraph t = "".
Proof.
  intros H. unfold strip_first_paragraph. by rewrite split_without_sep.
Qed.

End Merger.

(** ** Properties of the merger *)

(** C1. For a DocumentSet of three pages with non-empty texts, the merged
    text is the first page's text, a space, the second page's text without
    its first paragraph, a space, the third page's text without its first
    paragraph, and a space, with nothing else between the pages.  In every
    world the merger asks for no other write than that of this text to its
    file; in a world that accepts the output folder and file it returns
    normally and the file holds this text. *)
Theorem merge_three_pages (p0 p1 p2 : Document)
    (output_folder filename : string) (w : World) :
  text p0 ≠ "" → text p1 ≠ "" → text p2 ≠ "" →
  let merged :=
    text p0 +:+ " " +:+ strip_first_paragraph (text p1) +:+ " "
            +:+ strip_first_paragraph (text p2) +:+ " " in
  let path := merged_filepath_of output_folder filename in
  let r := merge_documents_to_single_markdown [p0; p1; p2] output_folder filename w in
  merged_content_of [p0; p1; p2] = merged
  ∧ writes_within w r.2 [(path, merged)]
  ∧ (accepts_folder w output_folder = true →
     accepts_write w output_folder path = true →
     r.1 = inr tt
     ∧ fs r.2 !! path = Some (File merged)
     ∧ writes_of (trace r.2) = writes_of (trace w) ++ [(path, merged)]).
Proof.
  intros _ _ _ merged path r.
  assert (Hm : merged_content_of [p0; p1; p2] = merged).
  { rewrite merged_content_cons. subst merged. cbn. unfold later_page.
    by rewrite append_nil_r, !append_assoc. }
  split; [done|]. rewrite <- Hm. split.
  - apply merge_documents_requests.
  - intros Hf Hw.
    destruct (merge_documents_run [p0; p1; p2] output_folder filename w Hf Hw)
      as (H1 & H2 & _ & _ & _ & H3).
    done.
Qed.

Lemma merge_three_pages_witness :
  (text page_a ≠ "" ∧ text page_b ≠ "" ∧ text page_c ≠ "")
  ∧ accepts_folder sample_world "pdf2markdown" = true
  ∧ (merge_documents_to_single_markdown [page_a; page_b; page_c]
       "pdf2markdown" "civil" sample_world).1 = inr tt
  ∧ fs (merge_documents_to_single_markdown [page_a; page_b; page_c]
          "pdf2markdown" "civil" sample_world).2 !! "pdf2markdown/civil.md"
    = Some (File ("# Title" +:+ LFLF +:+ "first second" +:+ LF +:+ "more third ")).
Proof.
  pose proof (merge_three_pages page_a page_b page_c "pdf2markdown" "civil"
                sample_world) as H.
  destruct H as (_ & _ & H); [done | done | done |].
  destruct H as (H1 & H2 & _); [reflexivity | reflexivity |].
  split; [done|]. split; [reflexivity|]. split; [exact H1 | exact H2].
Defined.

(** C6. For a single-page DocumentSet the merged text is exactly the page's
    text followed by one space: nothing is stripped from the first page.  In
    every world the merger asks for no other write than that of this text to
    its file; in a world that accepts the output folder and file it returns
    normally and the file holds this text. *)
Theorem merge_single_page (p0 : Document)
    (output_folder filename : string) (w : World) :
  let path := merged_filepath_of output_folder filename in
  let r := merge_documents_to_single_markdown [p0] output_folder filename w in
  merged_content_of [p0] = text p0 +:+ " "
  ∧ writes_within w r.2 [(path, text p0 +:+ " ")]
  ∧ (accepts_folder w output_folder = true →
     accepts_write w output_folder path = true →
     r.1 = inr tt
     ∧ fs r.2 !! path = Some (File (text p0 +:+ " "))
     ∧ writes_of (trace r.2) = writes_of (trace w) ++ [(path, text p0 +:+ " ")]).
Proof.
  intros path r.
  assert (Hm : merged_content_of [p0] = text p0 +:+ " ") by reflexivity.
  split; [done|]. rewrite <- Hm. split.
  - apply merge_documents_requests.
  - intros Hf Hw.
    destruct (merge_documents_run [p0] output_folder filename w Hf Hw)
      as (H1 & H2 & _ & _ & _ & H3).
    done.
Qed.

Lemma merge_single_page_witness :
  accepts_folder sample_world "pdf2markdown" = true
  ∧ (merge_documents_to_single_markdown [page_a] "pdf2markdown" "civil"
       sample_world).1 = inr tt
  ∧ fs (merge_documents_to_single_markdown [page_a] "pdf2markdown" "civil"
          sample_world).2 !! "pdf2markdown/civil.md"
    = Some (File ("# Title" +:+ LFLF +:+ "first "))
  ∧ writes_of (trace (merge_documents_to_single_markdown [page_a]
                        "pdf2markdown" "civil" sample_world).2)
    = [("pdf2markdown/civil.md", "# Title" +:+ LFLF +:+ "first ")].
Proof.
  pose proof (merge_single_page page_a "pdf2markdown" "civil" sample_world) as H.
  destruct H as (_ & _ & H).
  destruct H as (H1 & H2 & H3); [reflexivity | reflexivity |].
  split; [reflexivity|]. split; [exact H1 | split; [exact H2 | exact H3]].
Defined.

(** C3. For every DocumentSet and every page after the first whose text has
    no paragraph break or is empty, all of the page's text is lost: the page
    adds a single space to the merged text, which is what removing the first
    paragraph leaves of it, so that the merged text is that of the pages
    before it, that space, and the pages after it.  Nothing tells of the
    loss: in every world the merger asks for no other write than that of
    this text, and in a world that accepts the output folder and file it
    returns normally and the file holds this text. *)
Theorem merge_loses_single_paragraph_page (documents : list Document)
    (i : nat) (doc : Document) (output_folder filename : string) (w : World) :
  documents !! i = Some doc → (0 < i)%nat →
  contains LFLF (text doc) = false ∨ text doc = "" →
  let merged :=
    merged_content_of (take i documents) +:+ " "
    +:+ concat_texts (later_page <$> drop (S i) documents) in
  let path := merged_filepath_of output_folder filename in
  let r := merge_documents_to_single_markdown documents output_folder filename w in
  page_text i doc = " "
  ∧ page_text i doc = strip_first_paragraph (text doc) +:+ " "
  ∧ merged_content_of documents = merged
  ∧ writes_within w r.2 [(path, merged)]
  ∧ (accepts_folder w output_folder = true →
     accepts_write w output_folder path = true →
     r.1 = inr tt ∧ fs r.2 !! path = Some (File merged)).
Proof.
  intros Hdoc Hi Hpar merged path r.
  assert (Hno : contains LFLF (text doc) = false).
  { destruct Hpar as [H|H]; [done | by rewrite H]. }
  assert (Hpage : page_text i doc = " ").
  { rewrite page_text_later by done. unfold later_page.
    by rewrite strip_single_paragraph. }
  assert (Hm : merged_content_of documents = merged).
  { subst merged. unfold merged_content_of.
    rewrite <- (take_drop_middle documents i doc Hdoc) at 1.
    rewrite merge_loop_app, Nat.add_0_l.
    rewrite length_take_le by (apply lookup_lt_Some in Hdoc; lia).
    cbn [merge_loop]. rewrite Hpage.
    rewrite merge_loop_acc, (merge_loop_later (S i)) by lia.
    by rewrite append_assoc. }
  split; [done|].
  split; [rewrite Hpage; by rewrite strip_single_paragraph|].
  split; [done|]. rewrite <- Hm. split.
  - apply merge_documents_requests.
  - intros Hf Hw.
    destruct (merge_documents_run documents output_folder filename w Hf Hw)
      as (H1 & H2 & _).
    done.
Qed.

Lemma merge_loses_single_paragraph_page_witness :
  ([page_a; page_plain; page_c] !! 1%nat = Some page_plain
   ∧ contains LFLF (text page_plain) = false)
  ∧ fs (merge_documents_to_single_markdown [page_a; page_plain; page_c]
          "pdf2markdown" "civil" sample_world).2 !! "pdf2markdown/civil.md"
    = Some (File ("# Title" +:+ LFLF +:+ "first  third ")).
Proof.
  pose proof (merge_loses_single_paragraph_page [page_a; page_plain; page_c]
                1 page_plain "pdf2markdown" "civil" sample_world) as H.
  destruct H as (_ & _ & _ & _ & H);
    [reflexivity | lia | left; reflexivity |].
  destruct H as (_ & H); [reflexivity | reflexivity |].
  split; [split; reflexivity | exact H].
Defined.

(** C10. For the empty DocumentSet the merged text is empty, and the merger
    goes on as for any other: in every world it asks for no other write
    than that of the empty text to [<output_folder>/<filename>.md]; in a
    world that accepts the output folder and file it returns normally, the
    output folder is there afterwards (made as a directory when it was
    absent), and the file is written and holds the empty text. *)
Theorem merge_empty_document_set (output_folder filename : string) (w : World) :
  let path := OsPath.join output_folder (filename +:+ ".md") in
  let r := merge_documents_to_single_markdown [] output_folder filename w in
  writes_within w r.2 [(path, "")]
  ∧ (accepts_folder w output_folder = true →
     accepts_write w output_folder path = true →
     r.1 = inr tt
     ∧ is_Some (lookup_path r.2 output_folder)
     ∧ (lookup_path w output_folder = None → fs r.2 !! output_folder = Some Dir)
     ∧ fs r.2 !! path = Some (File "")
     ∧ writes_of (trace r.2) = writes_of (trace w) ++ [(path, "")]).
Proof.
  intros path r. split.
  - apply (merge_documents_requests [] output_folder filename w).
  - intros Hf Hw.
    destruct (merge_documents_run [] output_folder filename w Hf Hw)
      as (H1 & H2 & H3 & H4 & _ & H5).
    done.
Qed.

Lemma merge_empty_document_set_witness :
  (accepts_folder sample_world "pdf2markdown" = true
   ∧ lookup_path sample_world "pdf2markdown" = None)
  ∧ (merge_documents_to_single_markdown [] "pdf2markdown" "civil"
       sample_world).1 = inr tt
  ∧ fs (merge_documents_to_single_markdown [] "pdf2markdown" "civil"
          sample_world).2 !! "pdf2markdown" = Some Dir
  ∧ fs (merge_documents_to_single_markdown [] "pdf2markdown" "civil"
          sample_world).2 !! "pdf2markdown/civil.md" = Some (File "").
Proof.
  pose proof (merge_empty_document_set "pdf2markdown" "civil" sample_world) as H.
  destruct H as (_ & H).
  destruct H as (H1 & _ & H2 & H3 & _); [reflexivity | reflexivity |].
  split; [split; reflexivity|].
  split; [exact H1 | split; [apply H2; reflexivity | exact H3]].
Defined.

(** ** The per-page writer *)

Section PageWriter.

Lemma append_inj_length (a b c d : string) :
  String.length a = String.length b → a +:+ c = b +:+ d → a = b ∧ c = d.
Proof.
  revert b. induction a as [|x a IH]; intros [|y b] Hlen Heq;
    try discriminate; [done|].
  rewrite !append_cons in Heq. injection Heq as -> Heq.
  destruct (IH b) as [-> ->]; [by injection Hlen | done | done].
Qed.

Lemma append_inj_r (a b c : string) : a +:+ c = b +:+ c → a = b.
Proof.
  intros Heq. apply (append_inj_length a b c c); [|done].
  apply (f_equal String.length) in Heq. rewrite !length_append in Heq. lia.
Qed.

Lemma join_inj (a b1 b2 : string) :
  startswith b1 OsPath.sep = false → startswith b2 OsPath.sep = false →
  OsPath.join a b1 = OsPath.join a b2 → b1 = b2.
Proof.
  unfold OsPath.join. intros -> ->.
  destruct (negb (truthy a) || endswith a OsPath.sep); intros Heq.
  - by apply (inj (String.append a)) in Heq.
  - apply (inj (String.append a)) in Heq.
    by apply (inj (String.append OsPath.sep)) in Heq.
Qed.

Lemma page_filepath_inj (output_folder : string) (i j : nat) :
  page_filepath output_folder i = page_filepath output_folder j → i = j.
Proof.
  unfold page_filepath. intros Heq.
  apply join_inj in Heq; [|done|done].
  apply (inj (String.append "document_")) in Heq.
  apply append_inj_r in Heq. apply (inj pretty) in Heq. lia.
Qed.

Lemma page_filepath_not_empty (output_folder : string) (i : nat) :
  page_filepath output_folder i ≠ "".
Proof. apply join_not_empty, append_not_empty_r, append_not_empty_r. done. Qed.

Lemma page_paths_NoDup (output_folder : string) (n : nat) :
  NoDup (page_paths output_folder n).
Proof.
  unfold page_paths. apply NoDup_fmap_2; [|apply NoDup_seq].
  intros i j. apply page_filepath_inj.
Qed.

Lemma save_loop_run (output_folder : string) (documents : list Document) :
  ∀ (i : nat) (w1 : World),
    (∀ k, (k < length documents)%nat →
          refuses w1 (page_filepath output_folder (i + k)) = None
          ∧ lookup_path w1 (page_filepath output_folder (i + k)) ≠ Some Dir) →
    ∃ w2,
      for_enumerate i documents (save_page output_folder) w1 = (inr tt, w2)
      ∧ refuses w2 = refuses w1
      ∧ writes_of (trace w2)
        = writes_of (trace w1)
          ++ imap (λ k doc, (page_filepath output_folder (i + k), text doc))
                  documents
      ∧ (∀ k doc, documents !! k = Some doc →
           fs w2 !! page_filepath output_folder (i + k) = Some (File (text doc)))
      ∧ (∀ q, (∀ k, (k < length documents)%nat →
                    q ≠ page_filepath output_folder (i + k)) →
              fs w2 !! q = fs w1 !! q).
Proof.
  induction documents as [|doc rest IH]; intros i w1 Hok.
  - exists w1. cbn. rewrite app_nil_r. by repeat split.
  - destruct (Hok 0%nat) as [Hr Hd]; [cbn; lia|].
    rewrite Nat.add_0_r in Hr, Hd.
    set (p := page_filepath output_folder i) in *.
    set (w1' := log (EvPrint ("문서 " +:+ pretty (i + 1)%nat +:+ "을(를) " +:+ p
                              +:+ "에 저장했습니다."))
                  (set_fs (<[p := File (text doc)]> (fs w1))
                          (log (EvWrite p (text doc)) w1))).
    assert (Hstep : save_page output_folder i doc w1 = (inr tt, w1')).
    { unfold save_page, bind. fold (page_filepath output_folder i). fold p.
      rewrite (write_text_run w1 p _ Hr (page_filepath_not_empty _ _) Hd).
      reflexivity. }
    destruct (IH (S i) w1') as (w2 & Hrun & Href & Hwr & Hfiles & Hframe).
    { intros k Hk. destruct (Hok (S k)) as [Hr' Hd']; [cbn; lia|].
      replace (i + S k)%nat with (S i + k)%nat in Hr', Hd' by lia.
      split; [done|].
      subst w1'. rewrite lookup_path_log, lookup_path_set_fs.
      unfold lookup_path in Hd'.
      destruct (truthy (page_filepath output_folder (S i + k))); [|done].
      rewrite lookup_insert_ne; [done|].
      subst p. intros Heq%page_filepath_inj. lia. }
    exists w2. split_and!.
    + cbn [for_enumerate]. unfold bind at 1. by rewrite Hstep.
    + by rewrite Href.
    + rewrite Hwr. subst w1'. cbn [trace log set_fs].
      rewrite !writes_of_snoc, app_nil_r, <- app_assoc. cbn [app].
      rewrite imap_cons, Nat.add_0_r. do 2 f_equal. apply imap_ext.
      intros k d _. cbn. do 2 f_equal. lia.
    + intros [|k] d Hk.
      * cbn in Hk. injection Hk as ->. rewrite Nat.add_0_r.
        rewrite Hframe.
        -- subst w1'. cbn [fs log set_fs]. by rewrite lookup_insert_eq.
        -- intros k _ Heq%page_filepath_inj. lia.
      * replace (i + S k)%nat with (S i + k)%nat by lia. by apply Hfiles.
    + intros q Hq. rewrite Hframe.
      * subst w1'. cbn [fs log set_fs]. rewrite lookup_insert_ne; [done|].
        intros <-. apply (Hq 0%nat); [cbn; lia|]. by rewrite Nat.add_0_r.
      * intros k Hk. replace (S i + k)%nat with (i + S k)%nat by lia.
        apply Hq. cbn; lia.
Qed.

(** In every world the loop of the per-page writer asks for the writes of
    the pages in order, up to the first one refused. *)
Lemma save_loop_requests (output_folder : string) (documents : list Document) :
  ∀ (i : nat) (w1 : World),
    writes_within w1
      (for_enumerate i documents (save_page output_folder) w1).2
      (imap (λ k doc, (page_filepath output_folder (i + k), text doc))
            documents).
Proof.
  induction documents as [|doc rest IH]; intros i w1.
  - exists 0%nat. cbn. by rewrite app_nil_r.
  - set (p := page_filepath output_folder i).
    assert (Hstep : save_page output_folder i doc w1
                    = match write_text p (text doc) w1 with
                      | (inr _, w2) =>
                          (inr tt,
                           log (EvPrint ("문서 " +:+ pretty (i + 1)%nat
                                         +:+ "을(를) " +:+ p
                                         +:+ "에 저장했습니다.")) w2)
                      | (inl e, w2) => (inl e, w2)
                      end).
    { unfold save_page, bind, print. fold (page_filepath output_folder i).
      fold p. by destruct (write_text p (text doc) w1) as [[e|[]] w2]. }
    pose proof (write_text_writes w1 p (text doc)) as Hw.
    cbn [for_enumerate]. unfold bind at 1. rewrite Hstep.
    rewrite imap_cons, Nat.add_0_r. fold p.
    destruct (write_text p (text doc) w1) as [[e|[]] w2]; cbn [snd] in Hw.
    + exists 1%nat. cbn [snd take]. by rewrite Hw.
    + destruct (IH (S i) (log (EvPrint ("문서 " +:+ pretty (i + 1)%nat
                                        +:+ "을(를) " +:+ p
                                        +:+ "에 저장했습니다.")) w2))
        as [k Hk].
      exists (S k). rewrite Hk. cbn [trace log take].
      rewrite writes_of_snoc, app_nil_r, Hw, <- app_assoc. cbn [app].
      do 3 f_equal. apply imap_ext. intros j d _. cbn. do 2 f_equal. lia.
Qed.

(** What the world accepted before the folder was seen to, it accepts
    after. *)
Lemma accepts_write_kept (w w1 : World) (output_folder path : string) :
  refuses w1 = refuses w →
  (lookup_path w output_folder = None →
   fs w1 = <[output_folder := Dir]> (fs w)) →
  (is_Some (lookup_path w output_folder) → fs w1 = fs w) →
  accepts_write w output_folder path = true →
  refuses w1 path = None ∧ lookup_path w1 path ≠ Some Dir.
Proof.
  intros Href Hnew Hold Hw.
  apply andb_true_iff in Hw as [Hw Hw3].
  apply andb_true_iff in Hw as [Hw1 Hw2].
  split; [rewrite Href; by destruct (refuses w path)|].
  destruct (lookup_path w output_folder) as [n|] eqn:Hl.
  - unfold lookup_path in *. rewrite Hold by (by eexists).
    destruct (truthy path); [|done]. by destruct (fs w !! path) as [[]|].
  - apply negb_true_iff, String.eqb_neq in Hw3.
    unfold lookup_path in *. rewrite Hnew by done.
    destruct (truthy path); [|done].
    rewrite lookup_insert_ne by (symmetry; done).
    by destruct (fs w !! path) as [[]|].
Qed.

End PageWriter.

Lemma imap_paths (f : nat → string) (documents : list Document) :
  (imap (λ i doc, (f i, text doc)) documents).*1
  = f <$> seq 0 (length documents).
Proof.
  revert f. induction documents as [|doc rest IH]; intros f; [done|].
  rewrite imap_cons. cbn [fmap list_fmap fst length seq]. f_equal.
  rewrite (imap_ext _ (λ i doc, ((f ∘ S) i, text doc))) by done.
  fold (fmap (M := list) (@fst string string)).
  rewrite (IH (f ∘ S)). by rewrite <- fmap_S_seq, <- list_fmap_compose.
Qed.

(** In every world the per-page writer asks for the writes of the pages in
    order, up to the first one refused, and for no other. *)
Lemma save_documents_requests (documents : list Document)
    (output_folder : string) (w : World) :
  writes_within w (save_documents_as_markdown documents output_folder w).2
    (imap (λ i doc, (page_filepath output_folder i, text doc)) documents).
Proof.
  unfold save_documents_as_markdown.
  change (bind (os_path_exists output_folder) _)
    with (bind (ensure_folder output_folder)
            (λ _, for_enumerate 0 documents (save_page output_folder))).
  pose proof (ensure_folder_writes w output_folder) as He.
  unfold bind.
  destruct (ensure_folder output_folder w) as [[e|[]] w1]; cbn [snd] in He.
  - exists 0%nat. cbn. by rewrite app_nil_r.
  - destruct (save_loop_requests output_folder documents 0 w1) as [k Hk].
    exists k. by rewrite Hk, He.
Qed.

(** C9. For every DocumentSet of [n] pages and output folder, the files the
    per-page writer writes are [document_1.md] to [document_n.md] of the
    folder, the one of page [i] (counted from 0) being [document_(i+1).md]
    with the page's text as it is, nothing stripped.  In every world it asks
    for these writes, in order, and for no other; in a world that accepts
    the folder and the [n] files it returns normally, has written all [n],
    which are [n] different files, each holds its page's text, and no other
    file is touched. *)
Theorem save_documents_writes_each_page (documents : list Document)
    (output_folder : string) (w : World) :
  let files :=
    imap (λ i doc,
            (OsPath.join output_folder
               ("document_" +:+ pretty (i + 1)%nat +:+ ".md"),
             text doc))
         documents in
  let r := save_documents_as_markdown documents output_folder w in
  writes_within w r.2 files
  ∧ (accepts_folder w output_folder = true →
     forallb (accepts_write w output_folder)
             (page_paths output_folder (length documents)) = true →
     r.1 = inr tt
     ∧ writes_of (trace r.2) = writes_of (trace w) ++ files
     ∧ length files = length documents
     ∧ NoDup files.*1
     ∧ (∀ i doc, documents !! i = Some doc →
          fs r.2 !! OsPath.join output_folder
                      ("document_" +:+ pretty (i + 1)%nat +:+ ".md")
          = Some (File (text doc)))
     ∧ (∀ q, q ∉ files.*1 → q ≠ output_folder → fs r.2 !! q = fs w !! q)).
Proof.
  intros files r.
  assert (Hpaths : files.*1 = page_paths output_folder (length documents)).
  { subst files. apply (imap_paths (page_filepath output_folder)). }
  split; [apply save_documents_requests|].
  intros Hf Hall.
  destruct (ensure_folder_run w output_folder Hf)
    as (w1 & Hrun & Href & Hex & Hnew & Hold & Hwr).
  destruct (save_loop_run output_folder documents 0 w1)
    as (w2 & Hloop & _ & Hwr2 & Hfiles & Hframe).
  { intros k Hk. cbn [Nat.add].
    apply (accepts_write_kept w w1 output_folder); [done..|].
    rewrite forallb_forall in Hall. apply Hall.
    apply list_elem_of_In. unfold page_paths.
    apply list_elem_of_fmap. exists k. split; [done|].
    apply elem_of_seq. lia. }
  assert (Hr : r = (inr tt, w2)).
  { subst r. unfold save_documents_as_markdown.
    change (bind (os_path_exists output_folder) _)
      with (bind (ensure_folder output_folder)
              (λ _, for_enumerate 0 documents (save_page output_folder))).
    unfold bind. by rewrite Hrun, Hloop. }
  rewrite Hr. cbn [fst snd]. split_and!.
  - done.
  - by rewrite Hwr2, Hwr.
  - subst files. by rewrite length_imap.
  - rewrite Hpaths. apply page_paths_NoDup.
  - intros i doc Hi. by apply (Hfiles i doc).
  - intros q Hq1 Hq2. rewrite Hpaths in Hq1. rewrite Hframe.
    + destruct (lookup_path w output_folder) as [n|] eqn:Hl.
      * rewrite Hold by (by eexists). done.
      * rewrite Hnew by done. by rewrite lookup_insert_ne.
    + intros k Hk Heq. apply Hq1. unfold page_paths.
      apply list_elem_of_fmap. exists k. split; [done|]. apply elem_of_seq. lia.
Qed.

Lemma save_documents_writes_each_page_witness :
  (accepts_folder sample_world "pages" = true
   ∧ forallb (accepts_write sample_world "pages") (page_paths "pages" 3) = true)
  ∧ (save_documents_as_markdown [page_a; page_b; page_c] "pages" sample_world).1
    = inr tt
  ∧ writes_of (trace (save_documents_as_markdown [page_a; page_b; page_c]
                        "pages" sample_world).2)
    = [("pages/document_1.md", text page_a);
       ("pages/document_2.md", text page_b);
       ("pages/document_3.md", text page_c)].
Proof.
  pose proof (save_documents_writes_each_page [page_a; page_b; page_c] "pages"
                sample_world) as H.
  destruct H as (_ & H).
  destruct H as (H1 & H2 & _); [reflexivity | reflexivity |].
  split; [split; reflexivity|]. split; [exact H1 | exact H2].
Defined.

(** ** The loader *)

Section Loader.

Lemma same_outside_refl (w : World) : same_outside w w.
Proof. by repeat split. Qed.

Lemma same_outside_log (e : event) (w w' : World) :
  same_outside w w' → same_outside w (log e w').
Proof. intros (?&?&?&?). by repeat split. Qed.

Lemma same_outside_lookup (w w' : World) (p : string) :
  same_outside w w' → lookup_path w' p = lookup_path w p.
Proof. intros (H&_). unfold lookup_path. by rewrite H. Qed.

(** Without the credential [api_key_load] raises a [ValueError], having
    only loaded the environment file and read the variable. *)
Lemma api_key_load_missing (w : World) :
  credential w = None ∨ credential w = Some "" →
  api_key_load w
  = (inl (Exn ValueError ("API 키 로드 중 오류 발생: " +:+ KEY_MISSING)),
     key_sought w).
Proof.
  unfold credential, api_key_load, try_except, bind, load_dotenv, os_getenv.
  cbn [environ set_environ log].
  intros [-> | ->]; reflexivity.
Qed.

(** With the credential it returns it, and touches no file. *)
Lemma api_key_load_present (w : World) (key : string) :
  credential w = Some key → key ≠ "" →
  api_key_load w
  = (inr key, key_loaded w key).
Proof.
  unfold credential, api_key_load, try_except, bind, load_dotenv, os_getenv.
  cbn [environ set_environ log].
  intros -> Hk%truthy_spec. cbn beta iota. rewrite Hk. reflexivity.
Qed.

Lemma api_key_load_cases (w : World) :
  let r := api_key_load w in
  same_outside w r.2
  ∧ parsed_of (trace r.2) = parsed_of (trace w)
  ∧ ((∃ key, credential w = Some key ∧ key ≠ "" ∧ r.1 = inr key)
     ∨ ((credential w = None ∨ credential w = Some "")
        ∧ ∃ e, r.1 = inl e)).
Proof.
  intros r. subst r.
  destruct (credential w) as [key|] eqn:Hc.
  - destruct (decide (key = "")) as [->|Hk].
    + rewrite api_key_load_missing by auto. cbn.
      split; [by repeat split|]. split.
      * unfold parsed_of. by rewrite !omap_app, !app_nil_r.
      * right. split; [auto | by eexists].
    + rewrite (api_key_load_present w key) by done. cbn.
      split; [by repeat split|]. split.
      * unfold parsed_of. by rewrite !omap_app, !app_nil_r.
      * left. by exists key.
  - rewrite api_key_load_missing by auto. cbn.
    split; [by repeat split|]. split.
    + unfold parsed_of. by rewrite !omap_app, !app_nil_r.
    + right. split; [auto | by eexists].
Qed.

Lemma parsed_of_snoc (t : list event) (e : event) :
  parsed_of (t ++ [e])
  = parsed_of t ++ (if e is EvLoadData p then [p] else []).
Proof. unfold parsed_of. rewrite omap_app. by destruct e. Qed.

Lemma parse_one_run (result_dict : gmap string (list Document))
    (pdf_file : string) (w : World) :
  parse_one result_dict pdf_file w
  = match parse_result w pdf_file with
    | inr documents =>
        (inr (<[key_of_path pdf_file := documents]> result_dict),
         log (EvPrint ("'" +:+ key_of_path pdf_file +:+ ".pdf' 파일 파싱 완료: "
                       +:+ pretty (length documents) +:+ " 페이지"))
             (log (EvLoadData pdf_file) w))
    | inl e => (inl e, log (EvLoadData pdf_file) w)
    end.
Proof.
  unfold parse_one, bind, load_data.
  by destruct (parse_result w pdf_file).
Qed.

(** The parsing loop either files every path, or stops at the first path
    the service fails on, with that exception and no mapping. *)
Lemma parse_loop_cases (pdf_files : list string) :
  ∀ (result_dict : gmap string (list Document)) (w : World),
    let r := for_fold pdf_files result_dict parse_one w in
    same_outside w r.2
    ∧ ((forallb (parses w) pdf_files = true
        ∧ r.1 = inr (filed w result_dict pdf_files)
        ∧ parsed_of (trace r.2) = parsed_of (trace w) ++ pdf_files)
       ∨ (∃ done pdf_file rest e,
            pdf_files = done ++ pdf_file :: rest
            ∧ forallb (parses w) done = true
            ∧ parse_result w pdf_file = inl e
            ∧ r.1 = inl e
            ∧ parsed_of (trace r.2) = parsed_of (trace w) ++ done ++ [pdf_file])).
Proof.
  induction pdf_files as [|pdf_file rest IH]; intros result_dict w r.
  - subst r. cbn. split; [apply same_outside_refl|]. left.
    by rewrite app_nil_r.
  - assert (Hrun : for_fold (pdf_file :: rest) result_dict parse_one w
                   = match parse_result w pdf_file with
                     | inr documents =>
                         for_fold rest
                           (<[key_of_path pdf_file := documents]> result_dict)
                           parse_one
                           (log (EvPrint ("'" +:+ key_of_path pdf_file
                                          +:+ ".pdf' 파일 파싱 완료: "
                                          +:+ pretty (length documents)
                                          +:+ " 페이지"))
                                (log (EvLoadData pdf_file) w))
                     | inl e => (inl e, log (EvLoadData pdf_file) w)
                     end).
    { cbn [for_fold]. unfold bind. rewrite parse_one_run.
      by destruct (parse_result w pdf_file). }
    subst r. rewrite Hrun. clear Hrun.
    destruct (parse_result w pdf_file) as [e|documents] eqn:Hp.
    + cbn [fst snd]. split; [by repeat split|]. right.
      exists [], pdf_file, rest, e. cbn [trace log].
      rewrite parsed_of_snoc. by repeat split.
    + set (w' := log _ (log (EvLoadData pdf_file) w)).
      destruct (IH (<[key_of_path pdf_file := documents]> result_dict) w')
        as [Hsame Hcases].
      split.
      { destruct Hsame as (?&?&?&?). by repeat split. }
      assert (Htr : parsed_of (trace w') = parsed_of (trace w) ++ [pdf_file]).
      { subst w'. cbn [trace log]. rewrite !parsed_of_snoc. by rewrite app_nil_r. }
      destruct Hcases as [(Hall & Hres & Hparsed)
                         | (done & pdf & rest' & e & -> & Hall & Hfail & Hres & Hparsed)].
      * left. split_and!.
        -- cbn [forallb]. unfold parses at 1. by rewrite Hp.
        -- rewrite Hres. unfold filed at 2. cbn [foldl].
           unfold pages_of at 2. by rewrite Hp.
        -- rewrite Hparsed, Htr, <- app_assoc. done.
      * right. exists (pdf_file :: done), pdf, rest', e. split_and!.
        -- done.
        -- cbn [forallb]. unfold parses at 1. by rewrite Hp.
        -- done.
        -- done.
        -- rewrite Hparsed, Htr, <- !app_assoc. done.
Qed.

Lemma pdf_files_of_acc (folder_path : string) (entries acc : list string) :
  foldl (λ pdf_files file,
           if endswith (lower file) ".pdf"
           then pdf_files ++ [OsPath.join folder_path file]
           else pdf_files)
        acc entries
  = acc ++ (OsPath.join folder_path <$> List.filter is_pdf_name entries).
Proof.
  revert acc. induction entries as [|file entries IH]; intros acc; cbn.
  - by rewrite app_nil_r.
  - rewrite IH. unfold is_pdf_name.
    destruct (endswith (lower file) ".pdf"); [|done].
    by rewrite <- app_assoc.
Qed.

(** Lines 71-74 keep the entries whose lowercased name ends with [.pdf],
    in the order listed. *)
Lemma pdf_files_of_filter (folder_path : string) (entries : list string) :
  pdf_files_of folder_path entries
  = OsPath.join folder_path <$> List.filter is_pdf_name entries.
Proof. unfold pdf_files_of. by rewrite pdf_files_of_acc. Qed.

Lemma body_missing_key (folder_path : string) (w : World) :
  credential w = None ∨ credential w = Some "" →
  pdf_file_load_body folder_path w
  = (inl (Exn ValueError ("API 키 로드 중 오류 발생: " +:+ KEY_MISSING)),
     key_sought w).
Proof.
  intros Hc. unfold pdf_file_load_body, bind.
  by rewrite api_key_load_missing.
Qed.

Lemma body_folder_absent (folder_path key : string) (w : World) :
  credential w = Some key → key ≠ "" →
  lookup_path w folder_path = None →
  pdf_file_load_body folder_path w
  = (inr ∅,
     log (EvPrint ("'" +:+ folder_path +:+ "' 폴더가 존재하지 않습니다."))
         (log (EvExists folder_path) (key_loaded w key))).
Proof.
  intros Hc Hk Hl. unfold pdf_file_load_body, bind.
  rewrite (api_key_load_present w key Hc Hk).
  unfold os_path_exists.
  change (lookup_path (key_loaded w key) folder_path)
    with (lookup_path w folder_path).
  by rewrite Hl.
Qed.

Lemma body_not_a_folder (folder_path key content : string) (w : World) :
  credential w = Some key → key ≠ "" →
  lookup_path w folder_path = Some (File content) →
  pdf_file_load_body folder_path w
  = (inr ∅,
     log (EvPrint ("'" +:+ folder_path +:+ "'는 폴더가 아닙니다."))
         (log (EvIsdir folder_path)
              (log (EvExists folder_path) (key_loaded w key)))).
Proof.
  intros Hc Hk Hl. unfold pdf_file_load_body, bind.
  rewrite (api_key_load_present w key Hc Hk).
  unfold os_path_exists, os_path_isdir.
  change (lookup_path (key_loaded w key) folder_path)
    with (lookup_path w folder_path).
  rewrite Hl. cbn [negb].
  change (lookup_path (log _ (key_loaded w key)) folder_path)
    with (lookup_path w folder_path).
  by rewrite Hl.
Qed.

Lemma body_folder_listed (folder_path key : string) (w : World) :
  credential w = Some key → key ≠ "" →
  lookup_path w folder_path = Some Dir →
  pdf_file_load_body folder_path w
  = match dir_entries w folder_path with
    | inl e => (inl e, folder_listed w key folder_path)
    | inr entries =>
        match pdf_files_of folder_path entries with
        | [] =>
            (inr ∅,
             log (EvPrint ("'" +:+ folder_path
                           +:+ "' 폴더에 PDF 파일이 없습니다."))
                 (folder_listed w key folder_path))
        | _ :: _ =>
            for_fold (pdf_files_of folder_path entries) ∅ parse_one
              (log (EvPrint ("'" +:+ folder_path +:+ "' 폴더에 "
                             +:+ pretty (length (pdf_files_of folder_path entries))
                             +:+ " 개의 PDF 파일이 로드되었습니다."))
                   (folder_listed w key folder_path))
        end
    end.
Proof.
  intros Hc Hk Hl. unfold pdf_file_load_body, bind.
  rewrite (api_key_load_present w key Hc Hk).
  unfold os_path_exists, os_path_isdir.
  change (lookup_path (key_loaded w key) folder_path)
    with (lookup_path w folder_path).
  rewrite Hl. cbn [negb].
  change (lookup_path (log _ (key_loaded w key)) folder_path)
    with (lookup_path w folder_path).
  rewrite Hl. cbn [negb].
  unfold LlamaParse, os_listdir.
  change (dir_entries (log _ _) folder_path) with (dir_entries w folder_path).
  destruct (dir_entries w folder_path) as [e|entries]; [done|].
  by destruct (pdf_files_of folder_path entries).
Qed.

(** The handler of the loader turns every exception into the empty
    mapping. *)
Lemma pdf_file_load_handles (folder_path : string) (w w' : World) (e : exn) :
  pdf_file_load_body folder_path w = (inl e, w') →
  ∃ line, pdf_file_load folder_path w = (inr ∅, log (EvPrint line) w').
Proof.
  intros Hb. unfold pdf_file_load, try_except. rewrite Hb.
  destruct (class_of e); by eexists.
Qed.

(** The loader itself never raises. *)
Lemma pdf_file_load_never_raises (folder_path : string) (w : World) :
  ∃ m, (pdf_file_load folder_path w).1 = inr m.
Proof.
  destruct (pdf_file_load_body folder_path w) as [[e|m] w'] eqn:Hb.
  - destruct (pdf_file_load_handles _ _ _ _ Hb) as [line ->]. by eexists.
  - unfold pdf_file_load, try_except. rewrite Hb. by eexists.
Qed.

Lemma pdf_file_load_returns (folder_path : string) (w w' : World)
    (m : gmap string (list Document)) :
  pdf_file_load_body folder_path w = (inr m, w') →
  pdf_file_load folder_path w = (inr m, w').
Proof. intros Hb. unfold pdf_file_load, try_except. by rewrite Hb. Qed.

End Loader.

(** ** Paths, stems and the mapping built by the loop *)

Section Stems.

Lemma startswith_sep_false (file : string) :
  contains_char "/" file = false → startswith file OsPath.sep = false.
Proof.
  destruct file as [|c file]; [done|]. cbn.
  intros [Hc _]%orb_false_iff. apply bool_decide_eq_false in Hc.
  destruct (decide ("/"%char = c)); [by subst | done].
Qed.

Lemma rfind_go_absent (c : ascii) (p : string) (i : Z) :
  contains_char c p = false → OsPath.rfind_go c p i = (-1)%Z.
Proof.
  revert i. induction p as [|a p IH]; intros i; [done|]. cbn.
  intros [Ha Hp]%orb_false_iff. rewrite (IH _ Hp). cbn.
  apply bool_decide_eq_false in Ha. by destruct (decide (a = c)).
Qed.

(** The last [c] of [a ++ c ++ b], when [b] has none, is the one shown. *)
Lemma rfind_go_last (c : ascii) (a b : string) (i : Z) :
  contains_char c b = false → (0 ≤ i)%Z →
  OsPath.rfind_go c (a +:+ String c b) i = (i + Z.of_nat (String.length a))%Z.
Proof.
  intros Hb. revert i. induction a as [|x a IH]; intros i Hi.
  - rewrite append_nil_l. cbn. rewrite (rfind_go_absent _ _ _ Hb). cbn.
    destruct (decide (c = c)); [lia | done].
  - rewrite append_cons. cbn [OsPath.rfind_go String.length].
    rewrite IH by lia.
    destruct (0 <=? i + 1 + Z.of_nat (String.length a))%Z eqn:Hle; [lia|].
    apply Z.leb_gt in Hle. lia.
Qed.

Lemma basename_plain (file : string) :
  contains_char "/" file = false → OsPath.basename file = file.
Proof.
  intros H. unfold OsPath.basename, OsPath.rfind.
  by rewrite (rfind_go_absent _ _ _ H).
Qed.

Lemma basename_after_sep (a file : string) :
  contains_char "/" file = false →
  OsPath.basename (a +:+ OsPath.sep +:+ file) = file.
Proof.
  intros H. unfold OsPath.basename, OsPath.rfind, OsPath.sep.
  change ("/" +:+ file) with (String "/" file).
  rewrite (rfind_go_last _ _ _ _ H) by lia.
  replace (Z.to_nat (0 + Z.of_nat (String.length a) + 1))
    with (String.length (a +:+ "/")) by (rewrite length_append; cbn; lia).
  change (String "/" file) with ("/" +:+ file).
  rewrite <- append_assoc. apply slice_from_append.
Qed.

Lemma endswith_split (a suffix : string) :
  endswith a suffix = true → ∃ a', a = a' +:+ suffix.
Proof.
  unfold endswith. intros [_ H]%bool_decide_eq_true.
  exists (slice_to (String.length a - String.length suffix) a).
  rewrite <- (slice_to_from (String.length a - String.length suffix) a) at 1.
  by rewrite H.
Qed.

(** Line 87 recovers the entry from the path built at line 74. *)
Lemma basename_join (folder_path file : string) :
  contains_char "/" file = false →
  OsPath.basename (OsPath.join folder_path file) = file.
Proof.
  intros H. unfold OsPath.join. rewrite (startswith_sep_false _ H).
  destruct (truthy folder_path) eqn:Ht; cbn [negb orb].
  - destruct (endswith folder_path OsPath.sep) eqn:He.
    + apply endswith_split in He as [a' ->].
      rewrite append_assoc. by apply basename_after_sep.
    + by apply basename_after_sep.
  - destruct folder_path; [|done]. by apply basename_plain.
Qed.

Lemma key_of_path_join (folder_path file : string) :
  contains_char "/" file = false →
  key_of_path (OsPath.join folder_path file) = stem file.
Proof. intros H. unfold key_of_path, stem. by rewrite basename_join. Qed.

Lemma keys_of_joined (folder_path : string) (names : list string) :
  Forall (λ file, contains_char "/" file = false) names →
  key_of_path <$> (OsPath.join folder_path <$> names) = stem <$> names.
Proof.
  induction 1 as [|file l Hfile _ IH]; [done|].
  cbn. by rewrite IH, key_of_path_join.
Qed.

Lemma length_lower (s : string) : String.length (lower s) = String.length s.
Proof. induction s as [|c s IH]; cbn; [done | by rewrite IH]. Qed.

Lemma slice_from_lower (n : nat) (s : string) :
  slice_from n (lower s) = lower (slice_from n s).
Proof. revert s. induction n as [|n IH]; intros [|c s]; cbn; auto. Qed.

Lemma lower_char_dot (c : ascii) : lower_char c = "."%char → c = "."%char.
Proof.
  destruct c as [[] [] [] [] [] [] [] []]; vm_compute;
    intros H; first [reflexivity | discriminate H].
Qed.

(** A kept name is a root followed by a dot and three letters that read
    [pdf] whatever their case. *)
Lemma pdf_name_shape (file : string) :
  is_pdf_name file = true →
  ∃ root c1 c2 c3,
    file = root +:+ String "." (String c1 (String c2 (String c3 "")))
    ∧ lower_char c1 = "p"%char ∧ lower_char c2 = "d"%char
    ∧ lower_char c3 = "f"%char.
Proof.
  unfold is_pdf_name, endswith. intros [_ H]%bool_decide_eq_true.
  rewrite length_lower, slice_from_lower in H.
  set (n := (String.length file - String.length ".pdf")%nat) in H.
  exists (slice_to n file).
  destruct (slice_from n file) as [|c0 [|c1 [|c2 [|c3 [|c4 rest]]]]] eqn:Hext;
    try discriminate.
  cbn in H. injection H as H0 H1 H2 H3.
  exists c1, c2, c3. apply lower_char_dot in H0 as ->.
  split_and!; try done.
  rewrite <- Hext. by rewrite slice_to_from.
Qed.

Lemma contains_char_append (c : ascii) (a b : string) :
  contains_char c (a +:+ b) = contains_char c a || contains_char c b.
Proof.
  induction a as [|x a IH]; [done|].
  rewrite append_cons. cbn. by rewrite IH, orb_assoc.
Qed.

(** [os.path.splitext] on a name without [/] whose last dot is shown. *)
Lemma splitext_at_last_dot (root ext : string) :
  contains_char "/" (root +:+ String "." ext) = false →
  contains_char "." ext = false →
  OsPath.splitext (root +:+ String "." ext)
  = if OsPath.only_dots root then (root +:+ String "." ext, "")
    else (root, String "." ext).
Proof.
  intros Hsep Hdot. unfold OsPath.splitext, OsPath.rfind.
  rewrite (rfind_go_absent _ _ _ Hsep), (rfind_go_last _ _ _ _ Hdot) by lia.
  destruct (-1 <? 0 + Z.of_nat (String.length root))%Z eqn:Hlt;
    [|apply Z.ltb_ge in Hlt; lia].
  unfold OsPath.slice.
  replace (Z.to_nat (0 + Z.of_nat (String.length root) - (-1 + 1)))
    with (String.length root) by lia.
  replace (Z.to_nat (0 + Z.of_nat (String.length root)))
    with (String.length root) by lia.
  change (slice_from (Z.to_nat (-1 + 1)) ?s) with s.
  by rewrite slice_to_append, slice_from_append.
Qed.

(** The stem of a kept name is the name without its four last characters,
    the extension, unless only dots come before the extension: such a name
    is its own stem. *)
Lemma stem_of_pdf_name (file : string) :
  is_pdf_name file = true → contains_char "/" file = false →
  ∃ root ext,
    file = root +:+ ext ∧ lower ext = ".pdf"
    ∧ stem file = if OsPath.only_dots root then file else root.
Proof.
  intros Hpdf Hsep.
  destruct (pdf_name_shape file Hpdf) as (root & c1 & c2 & c3 & -> & H1 & H2 & H3).
  exists root, (String "." (String c1 (String c2 (String c3 "")))).
  split; [done|]. split; [cbn; by rewrite H1, H2, H3|].
  unfold stem. rewrite splitext_at_last_dot; [by destruct (OsPath.only_dots root)|done|].
  cbn. rewrite !orb_false_r.
  assert (Hne : ∀ c x, lower_char c = x → x ≠ "."%char →
                       bool_decide (c = "."%char) = false).
  { intros c x Hc Hx. apply bool_decide_eq_false. intros ->.
    apply Hx. rewrite <- Hc. reflexivity. }
  rewrite (Hne c1 "p"%char), (Hne c2 "d"%char), (Hne c3 "f"%char); done.
Qed.

Lemma filed_snoc (w : World) (acc : gmap string (list Document))
    (pdf_files : list string) (pdf_file : string) :
  filed w acc (pdf_files ++ [pdf_file])
  = <[key_of_path pdf_file := pages_of w pdf_file]> (filed w acc pdf_files).
Proof. unfold filed. by rewrite foldl_app. Qed.

Lemma filed_dom (w : World) (pdf_files : list string) :
  dom (filed w ∅ pdf_files) = list_to_set (key_of_path <$> pdf_files).
Proof.
  induction pdf_files as [|pdf_file l IH] using rev_ind.
  - cbn. by rewrite dom_empty_L.
  - rewrite filed_snoc, dom_insert_L, IH, fmap_app, list_to_set_app_L.
    cbn. rewrite (right_id_L ∅ (∪)). apply (comm_L (∪)).
Qed.

Lemma filed_size (w : World) (pdf_files : list string) :
  NoDup (key_of_path <$> pdf_files) →
  size (filed w ∅ pdf_files) = length pdf_files.
Proof.
  intros Hnd. rewrite <- size_dom, filed_dom, size_list_to_set by done.
  by rewrite length_fmap.
Qed.

Lemma filed_lookup (w : World) (pdf_files : list string) (pdf_file : string) :
  NoDup (key_of_path <$> pdf_files) → pdf_file ∈ pdf_files →
  filed w ∅ pdf_files !! key_of_path pdf_file = Some (pages_of w pdf_file).
Proof.
  induction pdf_files as [|p l IH] using rev_ind; intros Hnd Hin.
  - by apply elem_of_nil in Hin.
  - rewrite filed_snoc. rewrite fmap_app in Hnd.
    apply NoDup_app in Hnd as (Hl & Hdisj & _).
    apply elem_of_app in Hin as [Hin | Hin%list_elem_of_singleton].
    + rewrite lookup_insert_ne; [by apply IH|].
      intros Heq. apply (Hdisj (key_of_path pdf_file)).
      * apply list_elem_of_fmap. by exists pdf_file.
      * rewrite <- Heq. cbn. apply list_elem_of_singleton. done.
    + subst. by rewrite lookup_insert_eq.
Qed.

Lemma first_failure_unique {A} (P : A → bool)
    (d1 d2 : list A) (x1 x2 : A) (r1 r2 : list A) :
  d1 ++ x1 :: r1 = d2 ++ x2 :: r2 →
  forallb P d1 = true → P x1 = false →
  forallb P d2 = true → P x2 = false →
  d1 = d2 ∧ x1 = x2.
Proof.
  revert d2. induction d1 as [|a d1 IH]; intros [|b d2] Heq H1 Hx1 H2 Hx2;
    cbn in *.
  - by injection Heq as -> _.
  - injection Heq as -> _. apply andb_true_iff in H2 as [H2 _]. congruence.
  - injection Heq as -> _. apply andb_true_iff in H1 as [H1 _]. congruence.
  - injection Heq as -> Heq.
    apply andb_true_iff in H1 as [_ H1]. apply andb_true_iff in H2 as [_ H2].
    destruct (IH d2 Heq H1 Hx1 H2 Hx2) as [-> ->]. done.
Qed.

End Stems.

(** ** The loader on a listed folder *)

Section ListedFolder.

Lemma parsed_of_folder_listed (w : World) (key folder_path : string) :
  parsed_of (trace (folder_listed w key folder_path)) = parsed_of (trace w).
Proof.
  unfold folder_listed, key_loaded, key_sought. cbn [trace log set_environ].
  rewrite !parsed_of_snoc. by rewrite !app_nil_r.
Qed.

(** With the credential and a listed folder, the body of the loader files
    every kept entry, or stops at the first one the service fails on. *)
Lemma body_listed_cases (folder_path key : string) (entries : list string)
    (w : World) :
  credential w = Some key → key ≠ "" →
  lookup_path w folder_path = Some Dir →
  dir_entries w folder_path = inr entries →
  let pdf_files := pdf_files_of folder_path entries in
  let r := pdf_file_load_body folder_path w in
  (forallb (parses w) pdf_files = true
   ∧ r.1 = inr (filed w ∅ pdf_files)
   ∧ parsed_of (trace r.2) = parsed_of (trace w) ++ pdf_files)
  ∨ (∃ done pdf_file rest e,
       pdf_files = done ++ pdf_file :: rest
       ∧ forallb (parses w) done = true
       ∧ parse_result w pdf_file = inl e
       ∧ r.1 = inl e
       ∧ parsed_of (trace r.2) = parsed_of (trace w) ++ done ++ [pdf_file]).
Proof.
  intros Hc Hk Hl He pdf_files r. subst r.
  rewrite (body_folder_listed folder_path key w Hc Hk Hl), He.
  fold pdf_files.
  destruct pdf_files as [|p l] eqn:Hpdfs.
  - left. cbn [fst snd trace log forallb]. split_and!; [done | done |].
    rewrite parsed_of_snoc, parsed_of_folder_listed. by rewrite !app_nil_r.
  - rewrite <- Hpdfs. clear Hpdfs.
    set (w5 := log _ (folder_listed w key folder_path)).
    assert (Htr : parsed_of (trace w5) = parsed_of (trace w)).
    { subst w5. cbn [trace log].
      rewrite parsed_of_snoc, parsed_of_folder_listed. by rewrite app_nil_r. }
    destruct (parse_loop_cases pdf_files ∅ w5) as [_ Hcases].
    rewrite Htr in Hcases. exact Hcases.
Qed.

End ListedFolder.

(** ** Properties of the loader *)

(** C2, as the code has it. When the credential is absent, [api_key_load]
    raises a configuration error (a [ValueError]), but [pdf_file_load]
    catches it: it returns the empty mapping to its caller, having only
    loaded the environment file, read the variable and printed the error,
    without any access to the folder or the service. *)
Theorem missing_credential_gives_empty_mapping (folder_path : string)
    (w : World) :
  credential w = None →
  (api_key_load w).1
  = inl (Exn ValueError ("API 키 로드 중 오류 발생: " +:+ KEY_MISSING))
  ∧ (pdf_file_load folder_path w).1 = inr ∅
  ∧ trace (pdf_file_load folder_path w).2
    = trace w
      ++ [EvLoadDotenv; EvGetenv "LLAMA_CLOUD_API_KEY";
          EvPrint ("PDF 파일 로드 중 오류가 발생했습니다: "
                   +:+ "API 키 로드 중 오류 발생: " +:+ KEY_MISSING)]
  ∧ List.filter is_file_access (trace (pdf_file_load folder_path w).2)
    = List.filter is_file_access (trace w).
Proof.
  intros Hc.
  rewrite api_key_load_missing by auto.
  assert (Hrun : pdf_file_load folder_path w
                 = (inr ∅,
                    log (EvPrint ("PDF 파일 로드 중 오류가 발생했습니다: "
                                  +:+ "API 키 로드 중 오류 발생: " +:+ KEY_MISSING))
                        (key_sought w))).
  { unfold pdf_file_load, try_except.
    rewrite body_missing_key by auto. reflexivity. }
  rewrite Hrun. cbn [fst snd trace log key_sought set_environ].
  split_and!; [done | done | by rewrite <- !app_assoc |].
  rewrite !List.filter_app. cbn. by rewrite !app_nil_r.
Qed.

Lemma missing_credential_gives_empty_mapping_witness :
  credential world_without_key = None
  ∧ (pdf_file_load "data" world_without_key).1 = inr ∅
  ∧ List.filter is_file_access (trace (pdf_file_load "data" world_without_key).2)
    = [].
Proof.
  pose proof (missing_credential_gives_empty_mapping "data" world_without_key) as H.
  destruct H as (_ & H1 & _ & H2); [reflexivity|].
  split; [reflexivity|]. split; [exact H1 | exact H2].
Defined.

(** C2 as stated fails: without the credential the loader raises nothing
    to its caller. *)
Lemma missing_credential_not_raised :
  credential world_without_key = None
  ∧ ¬ ∃ e, (pdf_file_load "data" world_without_key).1 = inl e.
Proof.
  split; [reflexivity|]. intros [e He]. vm_compute in He. discriminate.
Qed.

(** C7. For a folder path that names nothing in the file system, and for
    the empty path, the loader returns the empty mapping and raises
    nothing. *)
Theorem missing_folder_gives_empty_mapping (folder_path : string) (w : World) :
  (lookup_path w folder_path = None →
   (pdf_file_load folder_path w).1 = inr ∅)
  ∧ (pdf_file_load "" w).1 = inr ∅.
Proof.
  assert (Hgen : ∀ p, lookup_path w p = None → (pdf_file_load p w).1 = inr ∅).
  { intros p Hl.
    destruct (api_key_load_cases w) as (_ & _ & [(key & Hc & Hk & _) | (Hc & _)]).
    - pose proof (body_folder_absent p key w Hc Hk Hl) as Hb.
      by rewrite (pdf_file_load_returns _ _ _ _ Hb).
    - pose proof (body_missing_key p w Hc) as Hb.
      destruct (pdf_file_load_handles _ _ _ _ Hb) as [line ->]. done. }
  split; [apply Hgen | by apply Hgen].
Qed.

Lemma missing_folder_gives_empty_mapping_witness :
  lookup_path sample_world "archive" = None
  ∧ (pdf_file_load "archive" sample_world).1 = inr ∅
  ∧ (pdf_file_load "" sample_world).1 = inr ∅.
Proof.
  pose proof (missing_folder_gives_empty_mapping "archive" sample_world) as [H1 H2].
  split; [reflexivity|]. split; [apply H1; reflexivity | exact H2].
Defined.

(** C5. Whenever an exception is raised during the loader's processing,
    the loader returns the empty mapping.  In particular, when the service
    fails on a file of the folder after others have been parsed, the
    results of those are dropped with it: the files before it were handed
    to the service, and the mapping returned is empty. *)
Theorem exception_gives_empty_mapping (folder_path : string) (w : World) :
  (∀ e, (pdf_file_load_body folder_path w).1 = inl e →
        (pdf_file_load folder_path w).1 = inr ∅)
  ∧ (∀ key entries done pdf_file rest e,
       credential w = Some key → key ≠ "" →
       lookup_path w folder_path = Some Dir →
       dir_entries w folder_path = inr entries →
       pdf_files_of folder_path entries = done ++ pdf_file :: rest →
       forallb (parses w) done = true →
       parse_result w pdf_file = inl e →
       (pdf_file_load_body folder_path w).1 = inl e
       ∧ (pdf_file_load folder_path w).1 = inr ∅
       ∧ parsed_of (trace (pdf_file_load folder_path w).2)
         = parsed_of (trace w) ++ done ++ [pdf_file]).
Proof.
  assert (Hgen : ∀ e, (pdf_file_load_body folder_path w).1 = inl e →
                      ∃ line, pdf_file_load folder_path w
                              = (inr ∅, log (EvPrint line)
                                            (pdf_file_load_body folder_path w).2)).
  { intros e He.
    destruct (pdf_file_load_body folder_path w) as [o w'] eqn:Hb.
    cbn in He. subst o. by apply (pdf_file_load_handles _ _ _ e). }
  split.
  - intros e He. destruct (Hgen e He) as [line ->]. done.
  - intros key entries done pdf_file rest e Hc Hk Hl Hd Hpdfs Hdone Hfail.
    destruct (body_listed_cases folder_path key entries w Hc Hk Hl Hd)
      as [(Hall & _) | (d' & p' & r' & e' & Heq & Hd' & Hf' & Hres & Htr)].
    + rewrite Hpdfs, forallb_app in Hall.
      apply andb_true_iff in Hall as [_ Hall]. cbn in Hall.
      apply andb_true_iff in Hall as [Hall _].
      unfold parses in Hall. by rewrite Hfail in Hall.
    + rewrite Hpdfs in Heq.
      destruct (first_failure_unique (parses w) done d' pdf_file p' rest r')
        as [<- <-]; try done.
      { unfold parses. by rewrite Hfail. }
      { unfold parses. by rewrite Hf'. }
      assert (e' = e) as -> by congruence.
      destruct (Hgen e Hres) as [line Hrun].
      rewrite Hrun. cbn [fst snd trace log].
      split_and!; [done | done |].
      rewrite parsed_of_snoc, Htr. by rewrite app_nil_r.
Qed.

Lemma exception_gives_empty_mapping_witness :
  (pdf_files_of "data" ["civil.pdf"; "notes.txt"; "penal.PDF"; "tax.Pdf"]
   = ["data/civil.pdf"] ++ "data/penal.PDF" :: ["data/tax.Pdf"]
   ∧ parses world_failing_service "data/civil.pdf" = true
   ∧ parses world_failing_service "data/penal.PDF" = false)
  ∧ (pdf_file_load "data" world_failing_service).1 = inr ∅
  ∧ parsed_of (trace (pdf_file_load "data" world_failing_service).2)
    = ["data/civil.pdf"; "data/penal.PDF"].
Proof.
  pose proof (exception_gives_empty_mapping "data" world_failing_service) as [_ H].
  destruct (H "llx-0123456789"
              ["civil.pdf"; "notes.txt"; "penal.PDF"; "tax.Pdf"]
              ["data/civil.pdf"] "data/penal.PDF" ["data/tax.Pdf"]
              (Exn OtherException "service unavailable"))
    as (_ & H1 & H2); [reflexivity | done | reflexivity | reflexivity
                      | reflexivity | reflexivity | reflexivity |].
  split; [by split_and! |]. split; [exact H1 | exact H2].
Defined.

Section Submitted.

Lemma up_to_first_failure_all (ok : string → bool) (l : list string) :
  forallb ok l = true → up_to_first_failure ok l = l.
Proof.
  induction l as [|p l IH]; [done|]. cbn.
  intros [-> H]%andb_true_iff. by rewrite IH.
Qed.

Lemma up_to_first_failure_stop (ok : string → bool)
    (done rest : list string) (p : string) :
  forallb ok done = true → ok p = false →
  up_to_first_failure ok (done ++ p :: rest) = done ++ [p].
Proof.
  induction done as [|q done IH]; cbn.
  - by intros _ ->.
  - intros [-> H]%andb_true_iff Hp. by rewrite IH.
Qed.

Lemma up_to_first_failure_prefix (ok : string → bool) (l : list string) :
  up_to_first_failure ok l `prefix_of` l.
Proof.
  induction l as [|p l IH]; [done|]. cbn. destruct (ok p).
  - by apply prefix_cons.
  - by exists l.
Qed.

(** In every world, the paths the loader hands to the parsing service are
    exactly [submitted_paths]. *)
Lemma parsed_of_pdf_file_load (folder_path : string) (w : World) :
  parsed_of (trace (pdf_file_load folder_path w).2)
  = parsed_of (trace w) ++ submitted_paths w folder_path.
Proof.
  assert (Hnone : ∀ w' line m,
            pdf_file_load folder_path w = (m, log (EvPrint line) w') →
            parsed_of (trace w') = parsed_of (trace w) →
            parsed_of (trace (pdf_file_load folder_path w).2)
            = parsed_of (trace w) ++ []).
  { intros w' line m -> Htr. cbn [snd trace log].
    by rewrite parsed_of_snoc, Htr, !app_nil_r. }
  assert (Hsought : parsed_of (trace (key_sought w)) = parsed_of (trace w)).
  { unfold key_sought. cbn [trace log set_environ].
    rewrite !parsed_of_snoc. by rewrite !app_nil_r. }
  assert (Hloaded : ∀ key, parsed_of (trace (key_loaded w key))
                           = parsed_of (trace w)).
  { intros key. unfold key_loaded. cbn [trace log].
    rewrite !parsed_of_snoc, Hsought. by rewrite !app_nil_r. }
  destruct (api_key_load_cases w) as (_ & _ & [(key & Hc & Hk & _) | (Hc & _)]).
  2:{ assert (Hsub : submitted_paths w folder_path = []).
      { unfold submitted_paths. by destruct Hc as [-> | ->]. }
      rewrite Hsub.
      pose proof (body_missing_key folder_path w Hc) as Hb.
      destruct (pdf_file_load_handles _ _ _ _ Hb) as [line Hrun].
      by apply (Hnone _ _ _ Hrun). }
  apply truthy_spec in Hk as Ht.
  destruct (lookup_path w folder_path) as [[|content]|] eqn:Hl.
  - destruct (dir_entries w folder_path) as [e|entries] eqn:Hd.
    + assert (Hsub : submitted_paths w folder_path = []).
      { unfold submitted_paths. by rewrite Hc, Ht, Hl, Hd. }
      rewrite Hsub.
      pose proof (body_folder_listed folder_path key w Hc Hk Hl) as Hb.
      rewrite Hd in Hb.
      destruct (pdf_file_load_handles _ _ _ _ Hb) as [line Hrun].
      by apply (Hnone _ _ _ Hrun), parsed_of_folder_listed.
    + assert (Hsub : submitted_paths w folder_path
                     = up_to_first_failure (parses w)
                         (pdf_files_of folder_path entries)).
      { unfold submitted_paths. rewrite Hc, Ht, Hl, Hd.
        by rewrite pdf_files_of_filter. }
      rewrite Hsub.
      destruct (body_listed_cases folder_path key entries w Hc Hk Hl Hd)
        as [(Hall & Hres & Htr)
           | (d' & p' & r' & e' & Heq & Hd' & Hf' & Hres & Htr)].
      * rewrite (up_to_first_failure_all _ _ Hall).
        destruct (pdf_file_load_body folder_path w) as [o w'] eqn:Hb.
        cbn in Hres, Htr. subst o.
        by rewrite (pdf_file_load_returns _ _ _ _ Hb).
      * rewrite Heq, (up_to_first_failure_stop _ _ _ _ Hd')
          by (unfold parses; by rewrite Hf').
        destruct (pdf_file_load_body folder_path w) as [o w'] eqn:Hb.
        cbn in Hres, Htr. subst o.
        destruct (pdf_file_load_handles _ _ _ _ Hb) as [line ->].
        cbn [snd trace log]. rewrite parsed_of_snoc, Htr. by rewrite app_nil_r.
  - assert (Hsub : submitted_paths w folder_path = []).
    { unfold submitted_paths. rewrite Hc, Ht, Hl.
      by destruct (dir_entries w folder_path). }
    rewrite Hsub.
    pose proof (body_not_a_folder folder_path key content w Hc Hk Hl) as Hb.
    pose proof (pdf_file_load_returns _ _ _ _ Hb) as Hrun.
    apply (Hnone _ _ _ Hrun). cbn [trace log].
    rewrite !parsed_of_snoc, Hloaded. by rewrite !app_nil_r.
  - assert (Hsub : submitted_paths w folder_path = []).
    { unfold submitted_paths. rewrite Hc, Ht, Hl.
      by destruct (dir_entries w folder_path). }
    rewrite Hsub.
    pose proof (body_folder_absent folder_path key w Hc Hk Hl) as Hb.
    pose proof (pdf_file_load_returns _ _ _ _ Hb) as Hrun.
    apply (Hnone _ _ _ Hrun). cbn [trace log].
    rewrite !parsed_of_snoc, Hloaded. by rewrite !app_nil_r.
Qed.

Lemma join_elem_of (folder_path file : string) (names : list string) :
  contains_char "/" file = false →
  Forall (λ name, contains_char "/" name = false) names →
  OsPath.join folder_path file ∈ (OsPath.join folder_path <$> names)
  ↔ file ∈ names.
Proof.
  intros Hfile Hnames. split.
  - intros (name & Heq & Hin)%list_elem_of_fmap.
    rewrite Forall_forall in Hnames.
    apply join_inj in Heq; [by subst | |];
      apply startswith_sep_false; [done | by apply Hnames].
  - intros Hin. apply list_elem_of_fmap. by exists file.
Qed.

End Submitted.

(** C8. The loader selects a directory entry for parsing if and only if
    its name, lowercased, ends with [.pdf].  The paths it collects are those
    of the entries with that property, in the order listed.  In every world
    the paths [pdf_file_load] hands to the parsing service are exactly
    these, from the first on and up to the first file the service fails on,
    and none at all when the credential, the folder or its listing is
    missing; so an entry without the extension is never submitted.  When the
    folder is listed and the service fails on no file, an entry of the
    folder is submitted if and only if its lowercased name ends with
    [.pdf]. *)
Theorem only_pdf_entries_are_parsed (folder_path : string) (w : World) :
  (∀ entries,
     pdf_files_of folder_path entries
     = OsPath.join folder_path
       <$> List.filter (λ file, endswith (lower file) ".pdf") entries)
  ∧ (∃ submitted,
      parsed_of (trace (pdf_file_load folder_path w).2)
      = parsed_of (trace w) ++ submitted
      ∧ submitted `prefix_of`
          (OsPath.join folder_path
           <$> List.filter (λ file, endswith (lower file) ".pdf")
                           (listing w folder_path)))
  ∧ parsed_of (trace (pdf_file_load folder_path w).2)
    = parsed_of (trace w) ++ submitted_paths w folder_path
  ∧ (∀ key entries,
       credential w = Some key → key ≠ "" →
       lookup_path w folder_path = Some Dir →
       dir_entries w folder_path = inr entries →
       Forall (λ file, contains_char "/" file = false) entries →
       forallb (parses w) (pdf_files_of folder_path entries) = true →
       ∃ submitted,
         parsed_of (trace (pdf_file_load folder_path w).2)
         = parsed_of (trace w) ++ submitted
         ∧ submitted
           = OsPath.join folder_path
             <$> List.filter (λ file, endswith (lower file) ".pdf") entries
         ∧ ∀ file, file ∈ entries →
             (OsPath.join folder_path file ∈ submitted
              ↔ endswith (lower file) ".pdf" = true)).
Proof.
  pose proof (parsed_of_pdf_file_load folder_path w) as Hexact.
  split; [apply pdf_files_of_filter|]. split; [|split; [exact Hexact|]].
  - exists (submitted_paths w folder_path). split; [exact Hexact|].
    unfold submitted_paths, listing.
    destruct (credential w) as [key|]; [|apply prefix_nil].
    destruct (truthy key); [|apply prefix_nil].
    destruct (lookup_path w folder_path) as [[|content]|];
      destruct (dir_entries w folder_path) as [e|entries];
      try apply prefix_nil.
    apply up_to_first_failure_prefix.
  - intros key entries Hc Hk Hl Hd Hnames Hall.
    eexists. split; [exact Hexact|].
    assert (Hsub : submitted_paths w folder_path
                   = OsPath.join folder_path
                     <$> List.filter (λ file, endswith (lower file) ".pdf")
                                     entries).
    { unfold submitted_paths. apply truthy_spec in Hk.
      rewrite Hc, Hk, Hl, Hd. apply up_to_first_failure_all.
      by rewrite pdf_files_of_filter in Hall. }
    split; [exact Hsub|]. intros file Hin. rewrite Hsub.
    rewrite Forall_forall in Hnames.
    rewrite join_elem_of.
    + rewrite list_elem_of_In, List.filter_In, <- list_elem_of_In.
      split; [by intros [_ Hpdf] | by intros Hpdf; split].
    + by apply Hnames.
    + apply Forall_forall. intros name Hname.
      apply list_elem_of_In, List.filter_In in Hname as [Hname _].
      by apply Hnames, list_elem_of_In.
Qed.

Lemma only_pdf_entries_are_parsed_witness :
  (credential sample_world = Some "llx-0123456789"
   ∧ dir_entries sample_world "data"
     = inr ["civil.pdf"; "notes.txt"; "penal.PDF"; "tax.Pdf"]
   ∧ forallb (parses sample_world)
       (pdf_files_of "data" ["civil.pdf"; "notes.txt"; "penal.PDF"; "tax.Pdf"])
     = true)
  ∧ parsed_of (trace (pdf_file_load "data" sample_world).2)
    = ["data/civil.pdf"; "data/penal.PDF"; "data/tax.Pdf"]
  ∧ parsed_of (trace (pdf_file_load "data" world_failing_service).2)
    = ["data/civil.pdf"; "data/penal.PDF"].
Proof.
  pose proof (only_pdf_entries_are_parsed "data" sample_world) as (_ & _ & _ & H).
  destruct (H "llx-0123456789" ["civil.pdf"; "notes.txt"; "penal.PDF"; "tax.Pdf"])
    as (submitted & H1 & H2 & _);
    [reflexivity | done | reflexivity | reflexivity | repeat constructor
    | reflexivity |].
  pose proof (only_pdf_entries_are_parsed "data" world_failing_service)
    as (_ & _ & H3 & _).
  split; [by split_and!|]. split.
  - rewrite H1, H2. reflexivity.
  - exact H3.
Defined.

(** C4, as the code has it. For a folder whose listing holds [N] names
    ending in [.pdf] whatever the case, with the credential set and no
    failure of the system or of the service, the loader returns a mapping
    whose keys are exactly the stems of those [N] names, after handing each
    of the [N] files to the service; the stem of a name is the name without
    its extension (the name itself when only dots come before the
    extension); the mapping has exactly [N] entries, each stem bound to the
    pages of its file, provided the [N] stems are pairwise different. *)
Theorem loader_keys_are_stems (folder_path key : string)
    (entries : list string) (w : World) :
  credential w = Some key → key ≠ "" →
  lookup_path w folder_path = Some Dir →
  dir_entries w folder_path = inr entries →
  Forall (λ file, contains_char "/" file = false) entries →
  forallb (parses w) (pdf_files_of folder_path entries) = true →
  let pdf_names := List.filter (λ file, endswith (lower file) ".pdf") entries in
  ∃ m,
    (pdf_file_load folder_path w).1 = inr m
    ∧ parsed_of (trace (pdf_file_load folder_path w).2)
      = parsed_of (trace w) ++ (OsPath.join folder_path <$> pdf_names)
    ∧ dom m = list_to_set (stem <$> pdf_names)
    ∧ (∀ file, file ∈ pdf_names →
         ∃ root ext, file = root +:+ ext ∧ lower ext = ".pdf"
                     ∧ stem file = if OsPath.only_dots root then file else root)
    ∧ (NoDup (stem <$> pdf_names) →
       size m = length pdf_names
       ∧ ∀ file, file ∈ pdf_names →
           m !! stem file = Some (pages_of w (OsPath.join folder_path file))).
Proof.
  intros Hc Hk Hl Hd Hnames Hall pdf_names.
  assert (Hkeys : key_of_path <$> pdf_files_of folder_path entries
                  = stem <$> pdf_names).
  { rewrite pdf_files_of_filter. apply keys_of_joined.
    apply Forall_forall. intros file Hin.
    apply list_elem_of_In, List.filter_In in Hin as [Hin _].
    rewrite Forall_forall in Hnames. by apply Hnames, list_elem_of_In. }
  destruct (body_listed_cases folder_path key entries w Hc Hk Hl Hd)
    as [(_ & Hres & Htr) | (d' & p' & r' & e' & Heq & _ & Hf' & _)].
  2:{ rewrite Heq, forallb_app in Hall.
      apply andb_true_iff in Hall as [_ Hall]. cbn in Hall.
      apply andb_true_iff in Hall as [Hall _].
      unfold parses in Hall. by rewrite Hf' in Hall. }
  exists (filed w ∅ (pdf_files_of folder_path entries)).
  destruct (pdf_file_load_body folder_path w) as [o w'] eqn:Hb.
  cbn in Hres, Htr. subst o.
  rewrite (pdf_file_load_returns _ _ _ _ Hb). cbn [fst snd].
  split_and!.
  - done.
  - rewrite Htr, pdf_files_of_filter. done.
  - by rewrite filed_dom, Hkeys.
  - intros file Hin.
    apply list_elem_of_In, List.filter_In in Hin as [Hin Hpdf].
    apply stem_of_pdf_name; [done|].
    rewrite Forall_forall in Hnames. by apply Hnames, list_elem_of_In.
  - intros Hnd. split.
    + rewrite filed_size by (by rewrite Hkeys).
      rewrite pdf_files_of_filter, length_fmap. done.
    + intros file Hin.
      rewrite <- (key_of_path_join folder_path file).
      * apply filed_lookup; [by rewrite Hkeys|].
        rewrite pdf_files_of_filter. apply list_elem_of_fmap. by exists file.
      * apply list_elem_of_In, List.filter_In in Hin as [Hin _].
        rewrite Forall_forall in Hnames. by apply Hnames, list_elem_of_In.
Qed.

Lemma loader_keys_are_stems_witness :
  (credential sample_world = Some "llx-0123456789"
   ∧ dir_entries sample_world "data"
     = inr ["civil.pdf"; "notes.txt"; "penal.PDF"; "tax.Pdf"])
  ∧ ∃ m, (pdf_file_load "data" sample_world).1 = inr m
         ∧ dom m = list_to_set ["civil"; "penal"; "tax"]
         ∧ size m = 3%nat.
Proof.
  pose proof (loader_keys_are_stems "data" "llx-0123456789"
                ["civil.pdf"; "notes.txt"; "penal.PDF"; "tax.Pdf"]
                sample_world) as H.
  destruct H as (m & H1 & _ & H2 & _ & H3);
    [reflexivity | done | reflexivity | reflexivity
    | repeat constructor | reflexivity |].
  split; [by split|]. exists m. split; [exact H1|]. split; [exact H2|].
  apply H3. apply (bool_decide_eq_true_1 _). reflexivity.
Defined.

(** C4 as stated fails: two PDF files whose names differ only in the case
    of the extension are both parsed, without any failure, and yet the
    mapping returned has one entry. *)
Lemma twin_stems_share_one_entry :
  credential world_with_twins = Some "llx-0123456789"
  ∧ List.filter is_pdf_name (listing world_with_twins "data")
    = ["law.pdf"; "law.PDF"]
  ∧ parsed_of (trace (pdf_file_load "data" world_with_twins).2)
    = ["data/law.pdf"; "data/law.PDF"]
  ∧ ∃ m, (pdf_file_load "data" world_with_twins).1 = inr m
         ∧ m = {[ "law" := pages_of world_with_twins "data/law.PDF" ]}
         ∧ size m = 1%nat
         ∧ size m
           ≠ length (List.filter is_pdf_name (listing world_with_twins "data")).
Proof.
  split_and!; try reflexivity.
  eexists. split_and!; try reflexivity. vm_compute. discriminate.
Qed.


(** * The rest of the script: the loader over a dictionary, and [run] *)

Section LoaderWith.
Context {D : Type} (empty : D) (set : string → list Document → D → D).

Lemma only_logged_refl (w : World) : only_logged w w.
Proof. by repeat split. Qed.

Lemma only_logged_log (e : event) (w w' : World) :
  (if e is EvWrite _ _ then False else True) →
  only_logged w w' → only_logged w (log e w').
Proof.
  intros He ((?&?&?&?) & Hw & ? & ?).
  unfold only_logged, same_outside. split_and!; try done.
  cbn [trace log]. rewrite writes_of_snoc, Hw. destruct e; try done;
    by rewrite app_nil_r.
Qed.

Lemma only_read_logged (w w1 w2 : World) :
  only_read w w1 → only_logged w1 w2 → only_read w w2.
Proof.
  intros ((?&?&?&?) & Hw & He & Hd) ((?&?&?&?) & Hw' & He' & Hd').
  unfold only_read, same_outside. split_and!; congruence.
Qed.

Lemma only_read_key_sought (w : World) : only_read w (key_sought w).
Proof.
  unfold key_sought, only_read, same_outside. split_and!; try done.
  cbn [trace log set_environ]. rewrite !writes_of_snoc. by rewrite !app_nil_r.
Qed.

Lemma only_read_key_loaded (w : World) (key : string) :
  only_read w (key_loaded w key).
Proof.
  unfold key_loaded. apply (only_read_logged w (key_sought w));
    [apply only_read_key_sought|].
  do 2 (apply only_logged_log; [done|]). apply only_logged_refl.
Qed.

Lemma parse_one_with_run (result_dict : D) (pdf_file : string) (w : World) :
  parse_one_with set result_dict pdf_file w
  = match parse_result w pdf_file with
    | inr documents =>
        (inr (set (key_of_path pdf_file) documents result_dict),
         log (EvPrint ("'" +:+ key_of_path pdf_file +:+ ".pdf' 파일 파싱 완료: "
                       +:+ pretty (length documents) +:+ " 페이지"))
             (log (EvLoadData pdf_file) w))
    | inl e => (inl e, log (EvLoadData pdf_file) w)
    end.
Proof.
  unfold parse_one_with, bind, load_data.
  by destruct (parse_result w pdf_file).
Qed.

(** The parsing loop over a dictionary: all files filed, or an exception
    at the first the service fails on. *)
Lemma parse_loop_with_cases (pdf_files : list string) :
  ∀ (result_dict : D) (w : World),
    let r := for_fold pdf_files result_dict (parse_one_with set) w in
    only_logged w r.2
    ∧ ((forallb (parses w) pdf_files = true
        ∧ r.1 = inr (filed_with set w result_dict pdf_files))
       ∨ (forallb (parses w) pdf_files = false ∧ ∃ e, r.1 = inl e)).
Proof.
  induction pdf_files as [|pdf_file rest IH]; intros result_dict w r.
  - subst r. cbn. split; [apply only_logged_refl | by left].
  - assert (Hrun : for_fold (pdf_file :: rest) result_dict (parse_one_with set) w
                   = match parse_result w pdf_file with
                     | inr documents =>
                         for_fold rest
                           (set (key_of_path pdf_file) documents result_dict)
                           (parse_one_with set)
                           (log (EvPrint ("'" +:+ key_of_path pdf_file
                                          +:+ ".pdf' 파일 파싱 완료: "
                                          +:+ pretty (length documents)
                                          +:+ " 페이지"))
                                (log (EvLoadData pdf_file) w))
                     | inl e => (inl e, log (EvLoadData pdf_file) w)
                     end).
    { cbn [for_fold]. unfold bind. rewrite parse_one_with_run.
      by destruct (parse_result w pdf_file). }
    subst r. rewrite Hrun. clear Hrun. cbn [forallb]. unfold parses at 1 3.
    destruct (parse_result w pdf_file) as [e|documents] eqn:Hp.
    + cbn [fst snd andb]. split.
      * apply only_logged_log; [done | apply only_logged_refl].
      * right. split; [done | by eexists].
    + set (w' := log _ (log (EvLoadData pdf_file) w)).
      destruct (IH (set (key_of_path pdf_file) documents result_dict) w')
        as [Hlog Hcases].
      assert (Hw' : only_logged w w').
      { subst w'. do 2 (apply only_logged_log; [done|]). apply only_logged_refl. }
      split.
      { destruct Hw' as ((?&?&?&?) & ? & ? & ?), Hlog as ((?&?&?&?) & ? & ? & ?).
        unfold only_logged, same_outside. split_and!; congruence. }
      cbn [andb].
      change (parses w') with (parses w) in Hcases.
      destruct Hcases as [(Hall & Hres) | (Hall & e & Hres)].
      * left. split; [done|]. rewrite Hres. unfold filed_with at 2.
        cbn [foldl]. unfold pages_of at 2. by rewrite Hp.
      * right. split; [done | by exists e].
Qed.

Lemma body_with_missing_key (folder_path : string) (w : World) :
  credential w = None ∨ credential w = Some "" →
  pdf_file_load_body_with empty set folder_path w
  = (inl (Exn ValueError ("API 키 로드 중 오류 발생: " +:+ KEY_MISSING)),
     key_sought w).
Proof.
  intros Hc. unfold pdf_file_load_body_with, bind.
  by rewrite api_key_load_missing.
Qed.

Lemma body_with_no_folder (folder_path key : string) (w : World) :
  credential w = Some key → key ≠ "" →
  lookup_path w folder_path ≠ Some Dir →
  ∃ w', pdf_file_load_body_with empty set folder_path w = (inr empty, w')
        ∧ only_logged (key_loaded w key) w'.
Proof.
  intros Hc Hk Hl. unfold pdf_file_load_body_with, bind.
  rewrite (api_key_load_present w key Hc Hk).
  unfold os_path_exists, os_path_isdir.
  change (lookup_path (key_loaded w key) folder_path)
    with (lookup_path w folder_path).
  destruct (lookup_path w folder_path) as [[|content]|] eqn:Hl'; [done|..];
    cbn [negb].
  - change (lookup_path (log _ (key_loaded w key)) folder_path)
      with (lookup_path w folder_path).
    rewrite Hl'. cbn [negb]. eexists. split; [reflexivity|].
    do 3 (apply only_logged_log; [done|]). apply only_logged_refl.
  - eexists. split; [reflexivity|].
    do 2 (apply only_logged_log; [done|]). apply only_logged_refl.
Qed.

Lemma body_with_listed (folder_path key : string) (w : World) :
  credential w = Some key → key ≠ "" →
  lookup_path w folder_path = Some Dir →
  pdf_file_load_body_with empty set folder_path w
  = match dir_entries w folder_path with
    | inl e => (inl e, folder_listed w key folder_path)
    | inr entries =>
        match pdf_files_of folder_path entries with
        | [] =>
            (inr empty,
             log (EvPrint ("'" +:+ folder_path
                           +:+ "' 폴더에 PDF 파일이 없습니다."))
                 (folder_listed w key folder_path))
        | _ :: _ =>
            for_fold (pdf_files_of folder_path entries) empty
              (parse_one_with set)
              (log (EvPrint ("'" +:+ folder_path +:+ "' 폴더에 "
                             +:+ pretty (length (pdf_files_of folder_path entries))
                             +:+ " 개의 PDF 파일이 로드되었습니다."))
                   (folder_listed w key folder_path))
        end
    end.
Proof.
  intros Hc Hk Hl. unfold pdf_file_load_body_with, bind.
  rewrite (api_key_load_present w key Hc Hk).
  unfold os_path_exists, os_path_isdir.
  change (lookup_path (key_loaded w key) folder_path)
    with (lookup_path w folder_path).
  rewrite Hl. cbn [negb].
  change (lookup_path (log _ (key_loaded w key)) folder_path)
    with (lookup_path w folder_path).
  rewrite Hl. cbn [negb].
  unfold LlamaParse, os_listdir.
  change (dir_entries (log _ _) folder_path) with (dir_entries w folder_path).
  destruct (dir_entries w folder_path) as [e|entries]; [done|].
  by destruct (pdf_files_of folder_path entries).
Qed.

Lemma only_logged_folder_listed (w : World) (key folder_path : string) :
  only_logged (key_loaded w key) (folder_listed w key folder_path).
Proof.
  unfold folder_listed.
  do 4 (apply only_logged_log; [done|]). apply only_logged_refl.
Qed.

Lemma only_logged_trans (w1 w2 w3 : World) :
  only_logged w1 w2 → only_logged w2 w3 → only_logged w1 w3.
Proof.
  intros ((?&?&?&?) & ? & ? & ?) ((?&?&?&?) & ? & ? & ?).
  unfold only_logged, same_outside. split_and!; congruence.
Qed.

(** What the body of the loader comes to, in every world. *)
Lemma body_with_cases (folder_path : string) (w : World) :
  let r := pdf_file_load_body_with empty set folder_path w in
  only_read w r.2
  ∧ ((load_fails w folder_path ∧ (r.1 = inr empty ∨ ∃ e, r.1 = inl e))
     ∨ (∃ key entries,
          credential w = Some key ∧ key ≠ ""
          ∧ lookup_path w folder_path = Some Dir
          ∧ dir_entries w folder_path = inr entries
          ∧ forallb (parses w) (pdf_files_of folder_path entries) = true
          ∧ r.1 = inr (filed_with set w empty
                         (pdf_files_of folder_path entries)))).
Proof.
  intros r. subst r.
  destruct (credential w) as [key|] eqn:Hc;
    [destruct (decide (key = "")) as [->|Hk]|].
  2:{ pose proof (only_read_key_loaded w key) as Hkey.
      assert (lookup_path w folder_path = Some Dir
              ∨ lookup_path w folder_path ≠ Some Dir) as [Hl|Hl].
      { destruct (lookup_path w folder_path) as [[|content]|]; auto. }
      - rewrite (body_with_listed folder_path key w Hc Hk Hl).
        pose proof (only_logged_folder_listed w key folder_path) as H4.
        destruct (dir_entries w folder_path) as [e|entries] eqn:Hd.
        + cbn [fst snd]. split; [by apply (only_read_logged w _ _ Hkey)|].
          left. split; [|right; by eexists]. right. right. left. by exists e.
        + destruct (pdf_files_of folder_path entries) as [|p l] eqn:Hpdfs.
          * cbn [fst snd]. split.
            -- apply (only_read_logged w _ _ Hkey).
               apply only_logged_log; [done | exact H4].
            -- right. exists key, entries. rewrite Hpdfs. by split_and!.
          * rewrite <- Hpdfs.
            set (w5 := log _ (folder_listed w key folder_path)).
            assert (H5 : only_read w w5).
            { subst w5. apply (only_read_logged w _ _ Hkey).
              apply only_logged_log; [done | exact H4]. }
            destruct (parse_loop_with_cases (pdf_files_of folder_path entries)
                        empty w5) as [Hlog Hcases].
            change (parses w5) with (parses w) in Hcases.
            change (filed_with set w5) with (filed_with set w) in Hcases.
            split; [by apply (only_read_logged w w5)|].
            destruct Hcases as [(Hall & Hres) | (Hall & e & Hres)].
            -- right. exists key, entries. by split_and!.
            -- left. split; [|right; by exists e].
               right. right. right. by exists entries.
      - destruct (body_with_no_folder folder_path key w Hc Hk Hl)
          as (w' & -> & Hlog).
        cbn [fst snd]. split; [by apply (only_read_logged w _ _ Hkey)|].
        left. split; [|by left]. right. by left. }
  all: rewrite body_with_missing_key by auto; cbn [fst snd];
    (split; [apply only_read_key_sought|]); left;
    (split; [left; auto | right; by eexists]).
Qed.

(** Every way through the loader: it only reads, and it returns either
    the empty dictionary, when loading the folder comes to nothing, or the
    dictionary filed from every kept entry of the folder. *)
Lemma pdf_file_load_with_cases (folder_path : string) (w : World) :
  let r := pdf_file_load_with empty set folder_path w in
  only_read w r.2
  ∧ ((load_fails w folder_path ∧ r.1 = inr empty)
     ∨ (∃ key entries,
          credential w = Some key ∧ key ≠ ""
          ∧ lookup_path w folder_path = Some Dir
          ∧ dir_entries w folder_path = inr entries
          ∧ forallb (parses w) (pdf_files_of folder_path entries) = true
          ∧ r.1 = inr (filed_with set w empty
                         (pdf_files_of folder_path entries)))).
Proof.
  intros r. subst r.
  destruct (body_with_cases folder_path w) as [Hread Hcases].
  unfold pdf_file_load_with, try_except.
  destruct (pdf_file_load_body_with empty set folder_path w) as [[e|d] w'].
  - cbn [fst snd] in Hread, Hcases.
    assert (Hfail : load_fails w folder_path).
    { destruct Hcases as [[Hf _] | (? & ? & _ & _ & _ & _ & _ & ?)]; done. }
    destruct (class_of e); cbn; (split; [|by left]);
      (apply (only_read_logged w w'); [done|]);
      (apply only_logged_log; [done | apply only_logged_refl]).
  - cbn [fst snd] in *. split; [done|].
    destruct Hcases as [[Hf [Hres | [e He]]] | Hgood]; [by left | done | by right].
Qed.

End LoaderWith.

(** Over [gmap] the loader is the one of the script. *)
Lemma pdf_file_load_with_gmap (folder_path : string) :
  pdf_file_load folder_path
  = pdf_file_load_with ∅ (λ k v m, <[k := v]> m) folder_path.
Proof. reflexivity. Qed.

(** ** More on the credential and on the loader *)

(** X1. [api_key_load], whatever [load_dotenv()], [nest_asyncio.apply()] and
    the [print] of line 167 do, each of them being free to raise.  When it
    returns a value, the environment file was loaded and the value is the
    text of the variable read after that, which is not empty.  When it
    fails, the error is a [ValueError] whose message starts with the prefix
    of line 170.  Its outcome is settled step by step: a failure of
    [load_dotenv()] is raised again behind the prefix; once the file is
    loaded, a variable that is missing or empty gives the message of line
    163 behind the prefix, an empty text counting as none; with a text that
    is not empty, a failure of [nest_asyncio.apply()] or of the [print] is
    raised again behind the prefix, and the text is returned when both
    return. *)
Theorem api_key_load_returns_the_credential
    (load_dotenv' nest_asyncio_apply' : M unit) (print' : string → M unit)
    (w : World) :
  let r := api_key_load_with load_dotenv' nest_asyncio_apply' print' w in
  let wrapped (e : exn) :=
    Exn ValueError ("API 키 로드 중 오류 발생: " +:+ str e) in
  api_key_load = api_key_load_with load_dotenv nest_asyncio_apply print
  ∧ (∀ key, r.1 = inr key →
       ∃ w1, load_dotenv' w = (inr tt, w1)
             ∧ environ w1 !! "LLAMA_CLOUD_API_KEY" = Some key ∧ key ≠ "")
  ∧ (∀ e, r.1 = inl e →
       class_of e = ValueError
       ∧ ∃ cause, str e = "API 키 로드 중 오류 발생: " +:+ cause)
  ∧ (∀ e w1, load_dotenv' w = (inl e, w1) → r = (inl (wrapped e), w1))
  ∧ (∀ w1, load_dotenv' w = (inr tt, w1) →
       environ w1 !! "LLAMA_CLOUD_API_KEY" = None
       ∨ environ w1 !! "LLAMA_CLOUD_API_KEY" = Some "" →
       r = (inl (wrapped (Exn ValueError KEY_MISSING)),
            log (EvGetenv "LLAMA_CLOUD_API_KEY") w1))
  ∧ (∀ w1 key, load_dotenv' w = (inr tt, w1) →
       environ w1 !! "LLAMA_CLOUD_API_KEY" = Some key → key ≠ "" →
       let w2 := log (EvGetenv "LLAMA_CLOUD_API_KEY") w1 in
       let line := "API 키 로드 완료: " +:+ slice_to 5 key +:+ "..." in
       (∀ e w3, nest_asyncio_apply' w2 = (inl e, w3) →
          r = (inl (wrapped e), w3))
       ∧ (∀ w3, nest_asyncio_apply' w2 = (inr tt, w3) →
            (∀ e w4, print' line w3 = (inl e, w4) → r = (inl (wrapped e), w4))
            ∧ (∀ w4, print' line w3 = (inr tt, w4) → r = (inr key, w4)))).
Proof.
  intros r wrapped. subst r wrapped.
  unfold api_key_load_with, try_except, bind, os_getenv.
  split; [reflexivity|].
  destruct (load_dotenv' w) as [[e0|[]] w1] eqn:Hld.
  { cbn [fst]. split_and!; try done.
    - intros e [= <-]. cbn. eauto.
    - by intros e w1' [= <- <-]. }
  destruct (environ w1 !! "LLAMA_CLOUD_API_KEY") as [key|] eqn:Hget.
  2:{ cbn [fst raise]. split_and!; try done.
      - intros e [= <-]. cbn. eauto.
      - by intros w1' [= <-] _.
      - intros w1' key [= <-]. by rewrite Hget. }
  destruct (decide (key = "")) as [->|Hk].
  { cbn [fst raise truthy]. split_and!; try done.
    - intros e [= <-]. cbn. eauto.
    - by intros w1' [= <-] _.
    - intros w1' key [= <-]. rewrite Hget. by intros [= <-]. }
  rewrite (proj2 (truthy_spec key) Hk).
  assert (Hrest : ∀ w1' key', (inr tt : exn + unit, w1) = (inr tt, w1') →
            environ w1' !! "LLAMA_CLOUD_API_KEY" = Some key' →
            w1' = w1 ∧ key' = key).
  { intros w1' key' [= <-]. rewrite Hget. by intros [= <-]. }
  destruct (nest_asyncio_apply' (log (EvGetenv "LLAMA_CLOUD_API_KEY") w1))
    as [[e0|[]] w3] eqn:Hna.
  { cbn [fst raise]. split_and!; try done.
    - intros e [= <-]. cbn. eauto.
    - intros w1' [= <-]. rewrite Hget. by intros [|[= ->]].
    - intros w1' key' H1 H2 _. destruct (Hrest _ _ H1 H2) as [-> ->].
      cbv zeta. rewrite Hna. split.
      + by intros e w3' [= <- <-].
      + done. }
  destruct (print' ("API 키 로드 완료: " +:+ slice_to 5 key +:+ "...") w3)
    as [[e0|[]] w4] eqn:Hpr.
  { cbn [fst raise]. split_and!; try done.
    - intros e [= <-]. cbn. eauto.
    - intros w1' [= <-]. rewrite Hget. by intros [|[= ->]].
    - intros w1' key' H1 H2 _. destruct (Hrest _ _ H1 H2) as [-> ->].
      cbv zeta. rewrite Hna. split; [done|].
      intros w3' [= <-]. rewrite Hpr. split.
      + by intros e w4' [= <- <-].
      + done. }
  cbn [fst ret]. split_and!; try done.
  - intros key' [= <-]. by exists w1.
  - intros w1' [= <-]. rewrite Hget. by intros [|[= ->]].
  - intros w1' key' H1 H2 _. destruct (Hrest _ _ H1 H2) as [-> ->].
    cbv zeta. rewrite Hna. split; [done|].
    intros w3' [= <-]. rewrite Hpr. split; [done|].
    by intros w4' [= <-].
Qed.

(** X2. When the folder path names a regular file, the loader returns the
    empty mapping; with the credential set it stops after the two tests on
    the path and the message of line 56, without listing anything and
    without calling the parsing service. *)
Theorem loader_on_a_regular_file (folder_path content : string) (w : World) :
  lookup_path w folder_path = Some (File content) →
  (pdf_file_load folder_path w).1 = inr ∅
  ∧ parsed_of (trace (pdf_file_load folder_path w).2) = parsed_of (trace w)
  ∧ (∀ key, credential w = Some key → key ≠ "" →
       trace (pdf_file_load folder_path w).2
       = trace (key_loaded w key)
         ++ [EvExists folder_path; EvIsdir folder_path;
             EvPrint ("'" +:+ folder_path +:+ "'는 폴더가 아닙니다.")]).
Proof.
  intros Hl.
  assert (Hkeyed : ∀ key, credential w = Some key → key ≠ "" →
            pdf_file_load folder_path w
            = (inr ∅,
               log (EvPrint ("'" +:+ folder_path +:+ "'는 폴더가 아닙니다."))
                 (log (EvIsdir folder_path)
                    (log (EvExists folder_path) (key_loaded w key))))).
  { intros key Hc Hk. apply pdf_file_load_returns.
    by apply (body_not_a_folder folder_path key content). }
  destruct (api_key_load_cases w) as (_ & _ & [(key & Hc & Hk & _) | (Hc & _)]).
  - rewrite (Hkeyed key Hc Hk). cbn [fst snd trace log]. split_and!.
    + done.
    + unfold key_loaded, key_sought. cbn [trace log set_environ].
      rewrite !parsed_of_snoc. by rewrite !app_nil_r.
    + intros key' Hc' Hk'. assert (key' = key) as -> by congruence.
      by rewrite <- !app_assoc.
  - pose proof (body_missing_key folder_path w Hc) as Hb.
    destruct (pdf_file_load_handles _ _ _ _ Hb) as [line ->].
    cbn [fst snd trace log]. split_and!.
    + done.
    + unfold key_sought. cbn [trace log set_environ].
      rewrite !parsed_of_snoc. by rewrite !app_nil_r.
    + intros key' Hc' Hk'. destruct Hc as [Hc|Hc]; congruence.
Qed.

Lemma loader_on_a_regular_file_witness :
  lookup_path world_with_report "report.pdf" = Some (File "%PDF-1.7")
  ∧ (pdf_file_load "report.pdf" world_with_report).1 = inr ∅
  ∧ parsed_of (trace (pdf_file_load "report.pdf" world_with_report).2) = [].
Proof.
  pose proof (loader_on_a_regular_file "report.pdf" "%PDF-1.7" world_with_report)
    as H.
  destruct H as (H1 & H2 & _); [reflexivity|].
  split; [reflexivity|]. split; [exact H1 | exact H2].
Defined.

(** X3. For a folder none of whose entries has a name ending in [.pdf],
    the loader, with the credential set, lists the folder, prints the
    message of line 77 and returns the empty mapping without calling the
    parsing service. *)
Theorem loader_on_a_folder_without_pdf (folder_path key : string)
    (entries : list string) (w : World) :
  credential w = Some key → key ≠ "" →
  lookup_path w folder_path = Some Dir →
  dir_entries w folder_path = inr entries →
  Forall (λ file, endswith (lower file) ".pdf" = false) entries →
  pdf_file_load folder_path w
  = (inr ∅,
     log (EvPrint ("'" +:+ folder_path +:+ "' 폴더에 PDF 파일이 없습니다."))
         (folder_listed w key folder_path))
  ∧ parsed_of (trace (pdf_file_load folder_path w).2) = parsed_of (trace w).
Proof.
  intros Hc Hk Hl Hd Hnone.
  assert (Hpdfs : pdf_files_of folder_path entries = []).
  { rewrite pdf_files_of_filter.
    assert (Hf : List.filter is_pdf_name entries = []);
      [|by rewrite Hf].
    clear -Hnone. induction Hnone as [|file l Hfile _ IH]; [done|].
    cbn. unfold is_pdf_name at 1. by rewrite Hfile. }
  pose proof (body_folder_listed folder_path key w Hc Hk Hl) as Hb.
  rewrite Hd, Hpdfs in Hb.
  rewrite (pdf_file_load_returns _ _ _ _ Hb). split; [done|].
  cbn [snd trace log]. rewrite parsed_of_snoc, parsed_of_folder_listed.
  by rewrite app_nil_r.
Qed.

Lemma loader_on_a_folder_without_pdf_witness :
  (credential world_with_report = Some "llx-0123456789"
   ∧ dir_entries world_with_report "texts" = inr ["notes.txt"; "pdf"; "a.pdf.bak"])
  ∧ (pdf_file_load "texts" world_with_report).1 = inr ∅
  ∧ parsed_of (trace (pdf_file_load "texts" world_with_report).2) = [].
Proof.
  pose proof (loader_on_a_folder_without_pdf "texts" "llx-0123456789"
                ["notes.txt"; "pdf"; "a.pdf.bak"] world_with_report) as H.
  destruct H as (H1 & H2);
    [reflexivity | done | reflexivity | reflexivity
    | repeat constructor |].
  split; [by split|]. split; [by rewrite H1 | exact H2].
Defined.

(** X4. When listing the folder fails, the loader returns the empty
    mapping without calling the parsing service, and the line it prints
    tells a denied permission from any other failure: the message of line
    101 for a [PermissionError], that of line 104 with the text of the
    exception otherwise. *)
Theorem loader_when_listing_fails (folder_path key : string) (e : exn)
    (w : World) :
  credential w = Some key → key ≠ "" →
  lookup_path w folder_path = Some Dir →
  dir_entries w folder_path = inl e →
  pdf_file_load folder_path w
  = (inr ∅,
     log (EvPrint
            (match class_of e with
             | PermissionError =>
                 "'" +:+ folder_path +:+ "' 폴더에 접근할 권한이 없습니다."
             | _ => "PDF 파일 로드 중 오류가 발생했습니다: " +:+ str e
             end))
         (folder_listed w key folder_path))
  ∧ parsed_of (trace (pdf_file_load folder_path w).2) = parsed_of (trace w).
Proof.
  intros Hc Hk Hl Hd.
  pose proof (body_folder_listed folder_path key w Hc Hk Hl) as Hb.
  rewrite Hd in Hb.
  assert (Hrun : pdf_file_load folder_path w
                 = (inr ∅,
                    log (EvPrint
                           (match class_of e with
                            | PermissionError =>
                                "'" +:+ folder_path
                                +:+ "' 폴더에 접근할 권한이 없습니다."
                            | _ => "PDF 파일 로드 중 오류가 발생했습니다: "
                                   +:+ str e
                            end))
                        (folder_listed w key folder_path))).
  { unfold pdf_file_load, try_except. rewrite Hb. by destruct (class_of e). }
  rewrite Hrun. split; [done|].
  cbn [snd trace log]. rewrite parsed_of_snoc, parsed_of_folder_listed.
  by rewrite app_nil_r.
Qed.

Lemma loader_when_listing_fails_witness :
  (lookup_path world_with_report "sealed" = Some Dir
   ∧ dir_entries world_with_report "sealed"
     = inl (Exn PermissionError "Permission denied"))
  ∧ (pdf_file_load "sealed" world_with_report).1 = inr ∅
  ∧ last (trace (pdf_file_load "sealed" world_with_report).2)
    = Some (EvPrint "'sealed' 폴더에 접근할 권한이 없습니다.").
Proof.
  pose proof (loader_when_listing_fails "sealed" "llx-0123456789"
                (Exn PermissionError "Permission denied") world_with_report)
    as H.
  destruct H as (H1 & _); [reflexivity | done | reflexivity | reflexivity|].
  split; [by split|]. rewrite H1. by split.
Defined.

(** X5. All or nothing: in every world the loader returns a mapping, which
    is either empty, when loading the folder comes to nothing (no
    credential, no folder of that name, a listing refused, or a file the
    service fails on), or filed from every entry of the folder whose name
    ends in [.pdf], so that it has a key for each of them. *)
Theorem loader_all_or_nothing (folder_path : string) (w : World) :
  ∃ m, (pdf_file_load folder_path w).1 = inr m
       ∧ ((load_fails w folder_path ∧ m = ∅)
          ∨ (∃ key entries,
               credential w = Some key ∧ key ≠ ""
               ∧ lookup_path w folder_path = Some Dir
               ∧ dir_entries w folder_path = inr entries
               ∧ forallb (parses w) (pdf_files_of folder_path entries) = true
               ∧ m = filed w ∅ (pdf_files_of folder_path entries)
               ∧ dom m
                 = list_to_set
                     (key_of_path <$> pdf_files_of folder_path entries))).
Proof.
  rewrite pdf_file_load_with_gmap.
  destruct (pdf_file_load_with_cases (∅ : gmap string (list Document))
              (λ k v m, <[k := v]> m) folder_path w)
    as [_ [(Hf & Hres) | (key & entries & Hc & Hk & Hl & Hd & Hall & Hres)]].
  - exists ∅. split; [done | by left].
  - eexists. split; [exact Hres|]. right. exists key, entries.
    split_and!; try done. apply filed_dom.
Qed.

(** X6. The loader only reads: in every world, whatever comes of the
    call, the file system is as it was, no write has been asked for, and the
    answers of the system and of the service are unchanged; the one thing
    changed is the process environment, which has the variables of the
    environment file added to it. *)
Theorem loader_only_reads (folder_path : string) (w : World) :
  let w' := (pdf_file_load folder_path w).2 in
  fs w' = fs w
  ∧ writes_of (trace w') = writes_of (trace w)
  ∧ dir_entries w' = dir_entries w
  ∧ parse_result w' = parse_result w
  ∧ refuses w' = refuses w
  ∧ environ w' = environ w ∪ dotenv w
  ∧ dotenv w' = dotenv w.
Proof.
  intros w'. subst w'. rewrite pdf_file_load_with_gmap.
  destruct (pdf_file_load_with_cases (∅ : gmap string (list Document))
              (λ k v m, <[k := v]> m) folder_path w)
    as [((?&?&?&?) & ? & ? & ?) _].
  by split_and!.
Qed.

Lemma api_key_load_returns_the_credential_witness :
  (api_key_load sample_world).1 = inr "llx-0123456789"
  ∧ (api_key_load world_without_key).1
    = inl (Exn ValueError ("API 키 로드 중 오류 발생: " +:+ KEY_MISSING))
  ∧ api_key_load_with (raise (Exn OtherException "no environment file"))
      nest_asyncio_apply print sample_world
    = (inl (Exn ValueError
              ("API 키 로드 중 오류 발생: " +:+ "no environment file")),
       sample_world).
Proof.
  pose proof (api_key_load_returns_the_credential
                load_dotenv nest_asyncio_apply print sample_world)
    as (_ & _ & _ & _ & _ & H1).
  pose proof (api_key_load_returns_the_credential
                load_dotenv nest_asyncio_apply print world_without_key)
    as (_ & _ & _ & _ & H2 & _).
  pose proof (api_key_load_returns_the_credential
                (raise (Exn OtherException "no environment file"))
                nest_asyncio_apply print sample_world)
    as (_ & _ & _ & H3 & _).
  split_and!.
  - destruct (H1 _ "llx-0123456789" eq_refl) as [_ H4];
      [reflexivity | done |].
    destruct (H4 _ eq_refl) as [_ H5].
    exact (f_equal fst (H5 _ eq_refl)).
  - exact (f_equal fst (H2 _ eq_refl ltac:(by left))).
  - exact (H3 _ _ eq_refl).
Defined.

Section SharedStems.

Lemma filed_lookup_last (w : World) (before after : list string)
    (pdf_file : string) :
  key_of_path pdf_file ∉ key_of_path <$> after →
  filed w ∅ (before ++ pdf_file :: after) !! key_of_path pdf_file
  = Some (pages_of w pdf_file).
Proof.
  induction after as [|p l IH] using rev_ind; intros Hnot.
  - rewrite filed_snoc. by rewrite lookup_insert_eq.
  - rewrite fmap_app in Hnot. apply not_elem_of_app in Hnot as [Hl Hp].
    change (before ++ pdf_file :: l ++ [p])
      with (before ++ (pdf_file :: l) ++ [p]).
    rewrite app_assoc, filed_snoc.
    rewrite lookup_insert_ne; [by apply IH|].
    intros Heq. apply Hp. cbn. rewrite Heq. apply list_elem_of_here.
Qed.

Lemma filter_middle {A} (P : A → bool) (before after : list A) (x : A) :
  P x = true →
  List.filter P (before ++ x :: after)
  = List.filter P before ++ x :: List.filter P after.
Proof. intros Hx. rewrite List.filter_app. cbn. by rewrite Hx. Qed.

End SharedStems.

(** X7. The last one wins: when several PDF files of the folder share a
    stem, the mapping binds the stem to the pages of the one that comes last
    in the listing.  Stated for any entry [file] of a folder that loads
    without failure: if no entry after it that is kept has its stem, the
    mapping binds its stem to its own pages, whatever comes before it. *)
Theorem loader_last_file_wins (folder_path key file : string)
    (before after : list string) (w : World) :
  credential w = Some key → key ≠ "" →
  lookup_path w folder_path = Some Dir →
  dir_entries w folder_path = inr (before ++ file :: after) →
  Forall (λ name, contains_char "/" name = false) (before ++ file :: after) →
  forallb (parses w) (pdf_files_of folder_path (before ++ file :: after)) = true →
  endswith (lower file) ".pdf" = true →
  Forall (λ name, endswith (lower name) ".pdf" = true → stem name ≠ stem file)
         after →
  ∃ m, (pdf_file_load folder_path w).1 = inr m
       ∧ m !! stem file = Some (pages_of w (OsPath.join folder_path file)).
Proof.
  intros Hc Hk Hl Hd Hnames Hall Hpdf Hafter.
  destruct (body_listed_cases folder_path key _ w Hc Hk Hl Hd)
    as [(_ & Hres & _) | (d' & p' & r' & e' & Heq & _ & Hf' & _)].
  2:{ rewrite Heq, forallb_app in Hall.
      apply andb_true_iff in Hall as [_ Hall]. cbn in Hall.
      apply andb_true_iff in Hall as [Hall _].
      unfold parses in Hall. by rewrite Hf' in Hall. }
  eexists.
  destruct (pdf_file_load_body folder_path w) as [o w'] eqn:Hb.
  cbn in Hres. subst o.
  rewrite (pdf_file_load_returns _ _ _ _ Hb). cbn [fst]. split; [done|].
  apply Forall_app in Hnames as [_ Hnames].
  apply Forall_cons in Hnames as [Hfile Hnames].
  rewrite pdf_files_of_filter, (filter_middle is_pdf_name before after file Hpdf),
    fmap_app, fmap_cons.
  rewrite <- (key_of_path_join folder_path file Hfile).
  apply filed_lookup_last.
  rewrite (key_of_path_join folder_path file Hfile).
  intros (p & Hkey & Hin)%list_elem_of_fmap.
  apply list_elem_of_fmap in Hin as (name & -> & Hin).
  apply list_elem_of_In, List.filter_In in Hin as [Hin Hname].
  rewrite Forall_forall in Hafter, Hnames.
  apply list_elem_of_In in Hin.
  rewrite key_of_path_join in Hkey by (by apply Hnames).
  by apply (Hafter name Hin Hname).
Qed.

Lemma loader_last_file_wins_witness :
  dir_entries world_with_twins "data" = inr ([] ++ "law.pdf" :: ["law.PDF"])
  ∧ ∃ m, (pdf_file_load "data" world_with_twins).1 = inr m
         ∧ m !! "law" = Some (pages_of world_with_twins "data/law.PDF").
Proof.
  pose proof (loader_last_file_wins "data" "llx-0123456789" "law.PDF"
                ["law.pdf"] [] world_with_twins) as H.
  destruct H as (m & H1 & H2);
    [reflexivity | done | reflexivity | reflexivity | repeat constructor
    | reflexivity | reflexivity | constructor |].
  split; [reflexivity|]. exists m. split; [exact H1 | exact H2].
Defined.

(** ** More on the merged text *)

Section Paragraphs.

Lemma join_cons (sep x : string) (l : list string) :
  join sep (x :: l) = x +:+ (if l is [] then "" else sep +:+ join sep l).
Proof. destruct l; cbn; [by rewrite append_nil_r | done]. Qed.

Lemma join_cons_head (sep : string) (c : ascii) (l : list string) :
  l ≠ [] → join sep (cons_head c l) = String c (join sep l).
Proof. destruct l as [|h t]; [done|]. intros _. by destruct t. Qed.

Lemma startswith_split (s p : string) :
  startswith s p = true → s = p +:+ slice_from (String.length p) s.
Proof.
  revert s. induction p as [|a p IH]; intros [|b s]; cbn; try done.
  destruct (decide (a = b)) as [->|]; [|done].
  intros H. rewrite append_cons. f_equal. by apply IH.
Qed.

Lemma startswith_length (s p : string) :
  startswith s p = true → (String.length p ≤ String.length s)%nat.
Proof.
  revert s. induction p as [|a p IH]; intros [|b s]; cbn; try done; [lia|].
  destruct (decide (a = b)); [|done]. intros H%IH. lia.
Qed.

Lemma startswith_append (s t p : string) :
  startswith s p = true → startswith (s +:+ t) p = true.
Proof.
  revert s. induction p as [|a p IH]; intros s.
  - intros _. by destruct (s +:+ t).
  - destruct s as [|b s]; [done|]. rewrite append_cons. cbn.
    destruct (decide (a = b)); [apply IH | done].
Qed.

(** Joining the pieces of a split with the separator gives the text
    back. *)
Lemma join_split_go (sep : string) (s : string) :
  sep ≠ "" →
  ∀ k, (k ≤ String.length s)%nat →
       join sep (split_go sep k s) = slice_from k s.
Proof.
  intros Hsep. induction s as [|c s IH]; intros k Hk.
  - cbn in Hk. by replace k with 0%nat by lia.
  - cbn [split_go]. destruct k as [|k]; [|cbn in Hk; cbn; apply IH; lia].
    destruct (startswith (String c s) sep) eqn:Hs.
    + destruct sep as [|a sep']; [done|].
      cbn in Hs. destruct (decide (a = c)) as [->|]; [|done].
      pose proof (startswith_length _ _ Hs) as Hlen.
      rewrite join_cons.
      pose proof (split_go_not_nil (String c sep')
                    (String.length (String c sep') - 1) s) as Hne.
      destruct (split_go (String c sep') (String.length (String c sep') - 1) s)
        as [|h t] eqn:Hsplit; [done|].
      rewrite <- Hsplit, IH by (cbn; lia).
      cbn [String.length].
      replace (S (String.length sep') - 1)%nat with (String.length sep') by lia.
      rewrite append_nil_l, append_cons. cbn [slice_from].
      f_equal. symmetry. by apply startswith_split.
    + rewrite join_cons_head by apply split_go_not_nil.
      rewrite IH by lia. done.
Qed.

Lemma join_split (s sep : string) : sep ≠ "" → join sep (split s sep) = s.
Proof. intros Hsep. unfold split. by rewrite join_split_go by (done || lia). Qed.

(** The first piece of a split holds no separator. *)
Lemma split_first_piece (sep s first : string) (rest : list string) :
  sep ≠ "" → split s sep = first :: rest → contains sep first = false.
Proof.
  intros Hsep. unfold split. revert first rest.
  induction s as [|c s IH]; intros first rest.
  - intros [= <- <-]. by apply contains_empty.
  - cbn [split_go]. destruct (startswith (String c s) sep) eqn:Hs.
    + intros [= <- _]. by apply contains_empty.
    + destruct (split_go sep 0 s) as [|first' rest'] eqn:Hsplit;
        [by apply split_go_not_nil in Hsplit|].
      intros [= <- <-]. cbn [contains].
      rewrite (IH first' rest' eq_refl), orb_false_r.
      destruct (startswith (String c first') sep) eqn:Hs'; [|done].
      pose proof (join_split s sep Hsep) as Hj. unfold split in Hj.
      rewrite Hsplit, join_cons in Hj.
      rewrite <- Hj, <- append_cons in Hs.
      by rewrite (startswith_append _ _ _ Hs') in Hs.
Qed.

Lemma startswith_nil (s : string) : startswith s "" = true.
Proof. by destruct s. Qed.

Lemma startswith_cons (a b : ascii) (s p : string) :
  startswith (String b s) (String a p)
  = if decide (a = b) then startswith s p else false.
Proof. reflexivity. Qed.

Lemma startswith_break_after (c : ascii) (h more : string) :
  startswith (String c (h +:+ LF +:+ more)) LFLF
  = startswith (String c (h +:+ LF)) LFLF.
Proof.
  unfold LFLF, LF. destruct h as [|d h];
    rewrite ?append_nil_l, ?append_cons, ?append_nil_l;
    rewrite !startswith_cons, !startswith_nil; reflexivity.
Qed.

(** A header that neither holds a paragraph break nor ends in a line feed
    is the first piece of the text it heads. *)
Lemma split_after_header (header body : string) :
  contains LFLF (header +:+ LF) = false →
  split (header +:+ LFLF +:+ body) LFLF = header :: split body LFLF.
Proof.
  unfold split. induction header as [|c h IH]; intros Hno.
  - rewrite append_nil_l.
    change (LFLF +:+ body)
      with (String (ascii_of_nat 10) (String (ascii_of_nat 10) body)).
    change LFLF with (String (ascii_of_nat 10) (String (ascii_of_nat 10) "")).
    cbn [split_go]. rewrite !startswith_cons, startswith_nil.
    destruct (decide (ascii_of_nat 10 = ascii_of_nat 10)); [|done].
    reflexivity.
  - rewrite append_cons in Hno. cbn [contains] in Hno.
    apply orb_false_iff in Hno as [Hs Hno].
    rewrite append_cons. cbn [split_go].
    change (LFLF +:+ body) with (LF +:+ (LF +:+ body)).
    rewrite startswith_break_after, Hs.
    change (LF +:+ (LF +:+ body)) with (LFLF +:+ body).
    by rewrite (IH Hno).
Qed.

End Paragraphs.

(** X8. Merging keeps the order of the pages and composes: the merged text
    of a DocumentSet followed by further pages is the merged text of the
    DocumentSet followed, page by page, by each further page without its
    first paragraph and with a space after it. *)
Theorem merged_content_app (documents more : list Document) :
  documents ≠ [] →
  merged_content_of (documents ++ more)
  = merged_content_of documents +:+ concat_texts (later_page <$> more).
Proof.
  intros Hne. unfold merged_content_of.
  rewrite merge_loop_app, Nat.add_0_l.
  rewrite (merge_loop_acc (length documents)).
  rewrite (merge_loop_later (length documents)); [done|].
  destruct documents; [done | cbn; lia].
Qed.

Lemma merged_content_app_witness :
  [page_a; page_b] ≠ []
  ∧ merged_content_of ([page_a; page_b] ++ [page_c])
    = merged_content_of [page_a; page_b] +:+ "third ".
Proof.
  split; [done|].
  exact (merged_content_app [page_a; page_b] [page_c] ltac:(done)).
Defined.

(** X9. For a page after the first whose text is a header, a paragraph
    break and a body, where the header holds no paragraph break and does not
    end in a line feed, exactly the header and that break are removed; in
    the body every paragraph break becomes a single line feed, and a body
    without any break is kept as it is. *)
Theorem page_text_drops_the_header (i : nat) (doc : Document)
    (header body : string) :
  (0 < i)%nat →
  text doc = header +:+ LFLF +:+ body →
  contains LFLF (header +:+ LF) = false →
  page_text i doc = join LF (split body LFLF) +:+ " "
  ∧ (contains LFLF body = false → page_text i doc = body +:+ " ").
Proof.
  intros Hi Htext Hheader.
  assert (Hp : page_text i doc = join LF (split body LFLF) +:+ " ").
  { rewrite page_text_later by done.
    unfold later_page, strip_first_paragraph.
    by rewrite Htext, split_after_header. }
  split; [done|]. intros Hbody. by rewrite Hp, split_without_sep.
Qed.

Lemma page_text_drops_the_header_witness :
  (text page_b = "header" +:+ LFLF +:+ ("second" +:+ LFLF +:+ "more")
   ∧ contains LFLF ("header" +:+ LF) = false)
  ∧ page_text 1 page_b = "second" +:+ LF +:+ "more ".
Proof.
  pose proof (page_text_drops_the_header 1 page_b "header"
                ("second" +:+ LFLF +:+ "more")) as H.
  destruct H as [H _]; [lia | reflexivity | reflexivity|].
  split; [by split | exact H].
Defined.

(** X10. What a page after the first loses: its text is a first piece
    without any paragraph break, followed by further pieces, all joined by
    paragraph breaks; what is merged is the further pieces joined by single
    line feeds, and a space. *)
Theorem page_text_keeps_later_pieces (i : nat) (doc : Document) :
  (0 < i)%nat →
  ∃ first rest,
    text doc = join LFLF (first :: rest)
    ∧ contains LFLF first = false
    ∧ page_text i doc = join LF rest +:+ " ".
Proof.
  intros Hi.
  destruct (split (text doc) LFLF) as [|first rest] eqn:Hsplit.
  { pose proof (split_length_pos (text doc) LFLF) as H.
    rewrite Hsplit in H. cbn in H. lia. }
  exists first, rest. split_and!.
  - rewrite <- Hsplit. symmetry. by apply join_split.
  - by apply (split_first_piece LFLF (text doc) first rest).
  - rewrite page_text_later by done.
    unfold later_page, strip_first_paragraph. by rewrite Hsplit.
Qed.

Lemma page_text_keeps_later_pieces_witness :
  (0 < 2)%nat
  ∧ ∃ first rest,
      text page_b = join LFLF (first :: rest)
      ∧ contains LFLF first = false
      ∧ page_text 2 page_b = join LF rest +:+ " ".
Proof.
  split; [lia|]. exact (page_text_keeps_later_pieces 2 page_b ltac:(lia)).
Defined.


(** ** More on the two writers *)

Section WriterEffects.

Lemma ensure_folder_effect (w : World) (output_folder : string) :
  accepts_folder w output_folder = true →
  ensure_folder output_folder w = (inr tt, folder_ensured w output_folder).
Proof.
  unfold accepts_folder, ensure_folder, folder_ensured, bind,
    os_path_exists, os_makedirs.
  intros Hacc. cbn beta iota.
  destruct (lookup_path w output_folder) as [n|] eqn:Hl; cbn [negb]; [done|].
  apply andb_true_iff in Hacc as [Ht Hr].
  cbn [refuses log]. destruct (refuses w output_folder); [done|].
  by rewrite Ht, lookup_path_log, Hl.
Qed.

Lemma folder_ensured_refuses (w : World) (output_folder : string) :
  refuses (folder_ensured w output_folder) = refuses w.
Proof. unfold folder_ensured. by destruct (lookup_path w output_folder). Qed.

Lemma folder_ensured_lookup (w : World) (output_folder path : string) :
  lookup_path (folder_ensured w output_folder) path
  = match lookup_path w output_folder with
    | Some _ => lookup_path w path
    | None => if truthy path
              then <[output_folder := Dir]> (fs w) !! path else None
    end.
Proof. unfold folder_ensured. by destruct (lookup_path w output_folder). Qed.

Lemma accepts_write_ensured (w : World) (output_folder path : string) :
  accepts_write w output_folder path = true →
  refuses (folder_ensured w output_folder) path = None
  ∧ lookup_path (folder_ensured w output_folder) path ≠ Some Dir.
Proof.
  intros Hw. rewrite folder_ensured_refuses, folder_ensured_lookup.
  apply andb_true_iff in Hw as [Hw Hw3].
  apply andb_true_iff in Hw as [Hw1 Hw2].
  split; [by destruct (refuses w path)|].
  destruct (lookup_path w output_folder) as [n|] eqn:Hl.
  - by destruct (lookup_path w path) as [[]|].
  - apply negb_true_iff, String.eqb_neq in Hw3.
    unfold lookup_path in Hw2. destruct (truthy path); [|done].
    rewrite lookup_insert_ne by (symmetry; done).
    by destruct (fs w !! path) as [[]|].
Qed.

(** The merger in a world that accepts its folder and its file, with the
    world it leaves. *)
Lemma merge_documents_effect (documents : list Document)
    (output_folder filename : string) (w : World) :
  accepts_folder w output_folder = true →
  accepts_write w output_folder (merged_filepath_of output_folder filename)
  = true →
  merge_documents_to_single_markdown documents output_folder filename w
  = (inr tt, merged_world documents output_folder filename w).
Proof.
  intros Hf Hw. unfold merge_documents_to_single_markdown.
  change (bind (os_path_exists output_folder) _)
    with (bind (ensure_folder output_folder)
            (λ _, bind (write_text (merged_filepath_of output_folder filename)
                          (merged_content_of documents))
                    (λ _, print ("모든 문서가 "
                                 +:+ merged_filepath_of output_folder filename
                                 +:+ "에 병합되어 저장되었습니다.")))).
  unfold bind at 1. rewrite (ensure_folder_effect w output_folder Hf).
  destruct (accepts_write_ensured w output_folder _ Hw) as [Hr Hd].
  unfold bind. rewrite write_text_run; [done | done | | done].
  apply join_not_empty, append_not_empty_r. done.
Qed.

Lemma accepts_folder_truthy (w : World) (output_folder : string) :
  accepts_folder w output_folder = true → truthy output_folder = true.
Proof.
  unfold accepts_folder, lookup_path.
  destruct (truthy output_folder); [done|]. done.
Qed.

(** Once the merger has run, the world accepts the same folder and file
    again. *)
Lemma merged_world_accepts (documents : list Document)
    (output_folder filename : string) (w : World) :
  accepts_folder w output_folder = true →
  accepts_write w output_folder (merged_filepath_of output_folder filename)
  = true →
  let w' := merged_world documents output_folder filename w in
  is_Some (lookup_path w' output_folder)
  ∧ accepts_folder w' output_folder = true
  ∧ accepts_write w' output_folder (merged_filepath_of output_folder filename)
    = true.
Proof.
  intros Hf Hw w'.
  pose proof (accepts_folder_truthy w output_folder Hf) as Ht.
  set (path := merged_filepath_of output_folder filename) in *.
  assert (Hpath : truthy path = true).
  { apply truthy_spec, join_not_empty, append_not_empty_r. done. }
  assert (Hfolder : is_Some (lookup_path w' output_folder)).
  { subst w'. unfold merged_world. fold path.
    rewrite lookup_path_log, lookup_path_set_fs, Ht.
    destruct (decide (path = output_folder)) as [->|Hne].
    - rewrite lookup_insert_eq. by eexists.
    - rewrite lookup_insert_ne by done.
      pose proof (folder_ensured_lookup w output_folder output_folder) as Hl.
      unfold lookup_path at 1 in Hl. rewrite Ht in Hl. rewrite Hl.
      destruct (lookup_path w output_folder) as [n|] eqn:Hw0.
      + unfold lookup_path in Hw0. rewrite Ht in Hw0. by eexists.
      + rewrite lookup_insert_eq. by eexists. }
  split; [done|]. split.
  - unfold accepts_folder. by destruct Hfolder as [n ->].
  - unfold accepts_write. destruct Hfolder as [n ->].
    destruct (accepts_write_ensured w output_folder path Hw) as [Hr _].
    rewrite folder_ensured_refuses in Hr.
    subst w'. unfold merged_world. fold path. cbn [refuses log set_fs].
    rewrite folder_ensured_refuses, Hr.
    rewrite lookup_path_log, lookup_path_set_fs, Hpath, lookup_insert_eq. done.
Qed.

Lemma for_enumerate_app {A} (body : nat → A → M unit) (l1 l2 : list A) :
  ∀ (i : nat) (w : World),
    for_enumerate i (l1 ++ l2) body w
    = match for_enumerate i l1 body w with
      | (inr _, w') => for_enumerate (i + length l1) l2 body w'
      | (inl e, w') => (inl e, w')
      end.
Proof.
  induction l1 as [|x l1 IH]; intros i w.
  - cbn. by rewrite Nat.add_0_r.
  - cbn [app for_enumerate length]. unfold bind.
    destruct (body i x w) as [[e|[]] w1]; [done|].
    rewrite IH. by replace (i + S (length l1))%nat with (S i + length l1)%nat by lia.
Qed.

Lemma take_imap_middle {A B} (f : nat → A → B) (l : list A) :
  ∀ (i : nat) (x : A),
    l !! i = Some x → take (S i) (imap f l) = imap f (take i l) ++ [f i x].
Proof.
  revert f. induction l as [|y l IH]; intros f i x Hx; [done|].
  destruct i as [|i].
  - cbn in Hx. injection Hx as ->. by destruct l.
  - cbn in Hx. rewrite imap_cons. cbn [take]. rewrite imap_cons.
    cbn [app]. f_equal. by rewrite (IH (f ∘ S) i x Hx).
Qed.

End WriterEffects.

(** X11. No rolling back in the per-page writer: when the system refuses
    the file of the page of index [i], after accepting the folder and the
    files before it, the call raises that error; the pages before [i] are
    on disk with their texts, the writes asked for are those of the pages up
    to [i], and no other file has changed. *)
Theorem save_documents_stops_at_refusal (documents : list Document)
    (i : nat) (doc : Document) (e : exn) (output_folder : string) (w : World) :
  accepts_folder w output_folder = true →
  documents !! i = Some doc →
  forallb (accepts_write w output_folder) (page_paths output_folder i) = true →
  refuses w (page_filepath output_folder i) = Some e →
  let r := save_documents_as_markdown documents output_folder w in
  r.1 = inl e
  ∧ writes_of (trace r.2)
    = writes_of (trace w)
      ++ take (S i) (imap (λ k d, (page_filepath output_folder k, text d))
                          documents)
  ∧ (∀ k d, (k < i)%nat → documents !! k = Some d →
       fs r.2 !! page_filepath output_folder k = Some (File (text d)))
  ∧ (∀ q, q ∉ page_paths output_folder i → q ≠ output_folder →
          fs r.2 !! q = fs w !! q).
Proof.
  intros Hf Hdoc Hall Href r.
  pose proof (lookup_lt_Some _ _ _ Hdoc) as Hi.
  set (w1 := folder_ensured w output_folder).
  destruct (save_loop_run output_folder (take i documents) 0 w1)
    as (w2 & Hloop & Href2 & Hwr2 & Hfiles & Hframe).
  { intros k Hk. cbn [Nat.add]. rewrite length_take_le in Hk by lia.
    apply accepts_write_ensured.
    rewrite forallb_forall in Hall. apply Hall.
    apply list_elem_of_In. unfold page_paths.
    apply list_elem_of_fmap. exists k. split; [done|].
    apply elem_of_seq. lia. }
  rewrite length_take_le in Hframe by lia.
  set (p := page_filepath output_folder i) in *.
  assert (Hr : r = (inl e, log (EvWrite p (text doc)) w2)).
  { subst r. unfold save_documents_as_markdown.
    change (bind (os_path_exists output_folder) _)
      with (bind (ensure_folder output_folder)
              (λ _, for_enumerate 0 documents (save_page output_folder))).
    unfold bind at 1. rewrite (ensure_folder_effect w output_folder Hf).
    fold w1. rewrite <- (take_drop_middle documents i doc Hdoc).
    rewrite for_enumerate_app, Hloop.
    rewrite length_take_le, Nat.add_0_l by lia.
    cbn [for_enumerate]. unfold bind at 1, save_page, bind at 1.
    fold (page_filepath output_folder i). fold p.
    unfold write_text. rewrite Href2. unfold w1.
    rewrite folder_ensured_refuses, Href. done. }
  rewrite Hr. cbn [fst snd trace log fs]. split_and!.
  - done.
  - rewrite writes_of_snoc, Hwr2. unfold w1.
    assert (Hw1 : writes_of (trace (folder_ensured w output_folder))
                  = writes_of (trace w)).
    { pose proof (ensure_folder_writes w output_folder) as H.
      by rewrite (ensure_folder_effect w output_folder Hf) in H. }
    rewrite Hw1, <- app_assoc. f_equal.
    by rewrite (take_imap_middle _ documents i doc Hdoc).
  - intros k d Hk Hd. apply (Hfiles k d).
    by rewrite lookup_take_lt.
  - intros q Hq1 Hq2. rewrite Hframe.
    + unfold w1, folder_ensured.
      destruct (lookup_path w output_folder); [done|].
      cbn [fs set_fs]. by rewrite lookup_insert_ne.
    + intros k Hk Heq. apply Hq1. unfold page_paths.
      apply list_elem_of_fmap. exists k. split; [done|]. apply elem_of_seq. lia.
Qed.

Lemma save_documents_stops_at_refusal_witness :
  (accepts_folder world_refusing_second "pages" = true
   ∧ refuses world_refusing_second (page_filepath "pages" 1)
     = Some (Exn PermissionError "Permission denied"))
  ∧ (save_documents_as_markdown [page_a; page_b; page_c] "pages"
       world_refusing_second).1
    = inl (Exn PermissionError "Permission denied")
  ∧ fs (save_documents_as_markdown [page_a; page_b; page_c] "pages"
          world_refusing_second).2 !! "pages/document_1.md"
    = Some (File (text page_a))
  ∧ fs (save_documents_as_markdown [page_a; page_b; page_c] "pages"
          world_refusing_second).2 !! "pages/document_3.md"
    = None.
Proof.
  pose proof (save_documents_stops_at_refusal [page_a; page_b; page_c] 1 page_b
                (Exn PermissionError "Permission denied") "pages"
                world_refusing_second) as H.
  destruct H as (H1 & _ & H2 & H3);
    [reflexivity | reflexivity | reflexivity | reflexivity |].
  split; [by split|]. split; [exact H1|]. split.
  - apply (H2 0%nat page_a); [lia | reflexivity].
  - rewrite (H3 "pages/document_3.md"); [reflexivity | | done].
    apply (bool_decide_eq_true_1 _). reflexivity.
Defined.




(** X13. The merger overwrites: after merging a DocumentSet into a file,
    merging another one into the same file succeeds again and leaves the
    file system as if only the second had been merged; nothing of the first
    text is left, and merging the same DocumentSet twice changes nothing the
    second time. *)
Theorem merge_overwrites (first second : list Document)
    (output_folder filename : string) (w : World) :
  accepts_folder w output_folder = true →
  accepts_write w output_folder (merged_filepath_of output_folder filename)
  = true →
  let w1 := (merge_documents_to_single_markdown first output_folder filename w).2 in
  let r := merge_documents_to_single_markdown second output_folder filename w1 in
  r.1 = inr tt
  ∧ fs r.2 !! merged_filepath_of output_folder filename
    = Some (File (merged_content_of second))
  ∧ fs r.2
    = fs (merge_documents_to_single_markdown second output_folder filename w).2
  ∧ (first = second → fs r.2 = fs w1).
Proof.
  intros Hf Hw w1 r.
  assert (Hw1 : w1 = merged_world first output_folder filename w).
  { subst w1. by rewrite merge_documents_effect. }
  destruct (merged_world_accepts first output_folder filename w Hf Hw)
    as ([n Hn] & Hf1 & Hw1').
  rewrite <- Hw1 in Hn, Hf1, Hw1'.
  assert (Hr : r = (inr tt, merged_world second output_folder filename w1)).
  { subst r. by rewrite merge_documents_effect. }
  assert (Hfs : fs (merged_world second output_folder filename w1)
                = <[merged_filepath_of output_folder filename
                    := File (merged_content_of second)]> (fs w1)).
  { unfold merged_world at 1, folder_ensured. by rewrite Hn. }
  rewrite Hr. cbn [fst snd]. rewrite Hfs. split_and!.
  - done.
  - by rewrite lookup_insert_eq.
  - rewrite (merge_documents_effect second output_folder filename w Hf Hw).
    cbn [snd]. rewrite Hw1. unfold merged_world. cbn [fs log set_fs].
    by rewrite insert_insert_eq.
  - intros ->. rewrite Hw1. unfold merged_world. cbn [fs log set_fs].
    by rewrite insert_insert_eq.
Qed.

Lemma merge_overwrites_witness :
  accepts_folder sample_world "pdf2markdown" = true
  ∧ fs (merge_documents_to_single_markdown [page_c] "pdf2markdown" "civil"
          (merge_documents_to_single_markdown [page_a; page_b] "pdf2markdown"
             "civil" sample_world).2).2 !! "pdf2markdown/civil.md"
    = Some (File ("header" +:+ LFLF +:+ "third ")).
Proof.
  pose proof (merge_overwrites [page_a; page_b] [page_c] "pdf2markdown" "civil"
                sample_world) as H.
  destruct H as (_ & H & _); [reflexivity | reflexivity |].
  split; [reflexivity | exact H].
Defined.

(** ** The top-level routine *)

Section Run.

Lemma load_fails_not_loaded (w : World) (folder_path key : string)
    (entries : list string) :
  credential w = Some key → key ≠ "" →
  lookup_path w folder_path = Some Dir →
  dir_entries w folder_path = inr entries →
  forallb (parses w) (pdf_files_of folder_path entries) = true →
  ¬ load_fails w folder_path.
Proof.
  intros Hc Hk Hl Hd Hall [[H|H] | [H | [[e H] | (entries' & H & H')]]];
    congruence.
Qed.

Lemma accepts_same_outside (w w' : World) (output_folder path : string) :
  same_outside w w' →
  accepts_folder w' output_folder = accepts_folder w output_folder
  ∧ accepts_write w' output_folder path = accepts_write w output_folder path.
Proof.
  intros (Hfs & _ & _ & Hr).
  unfold accepts_folder, accepts_write, lookup_path. by rewrite Hfs, Hr.
Qed.

Lemma dict_set_fresh {V} (k : string) (v : V) (d : list (string * V)) :
  k ∉ d.*1 → dict_set k v d = d ++ [(k, v)].
Proof.
  induction d as [|[k' v'] d IH]; intros Hk; [done|].
  cbn in Hk. apply not_elem_of_cons in Hk as [Hne Hk].
  cbn. destruct (decide (k' = k)); [congruence|]. by rewrite IH.
Qed.

(** With pairwise different keys the ordered dictionary lists the files in
    the order parsed. *)
Lemma filed_items (w : World) (pdf_files : list string) :
  NoDup (key_of_path <$> pdf_files) →
  filed_with dict_set w [] pdf_files
  = (λ p, (key_of_path p, pages_of w p)) <$> pdf_files.
Proof.
  induction pdf_files as [|p l IH] using rev_ind; intros Hnd; [done|].
  rewrite fmap_app in Hnd. apply NoDup_app in Hnd as (Hl & Hdisj & _).
  unfold filed_with in *. rewrite foldl_app. cbn [foldl].
  rewrite (IH Hl), fmap_app. apply dict_set_fresh.
  rewrite <- list_fmap_compose. intros Hin.
  apply (Hdisj (key_of_path p)); [done|]. cbn. apply list_elem_of_here.
Qed.

Lemma markdown_path_plain (filename : string) :
  contains_char "/" filename = false →
  markdown_path filename = "pdf2markdown/" +:+ filename +:+ ".md".
Proof.
  intros Hk. unfold markdown_path, OsPath.join.
  assert (Hs : startswith (filename +:+ ".md") OsPath.sep = false).
  { apply startswith_sep_false. by rewrite contains_char_append, Hk. }
  by rewrite Hs.
Qed.

Lemma markdown_path_inj (k1 k2 : string) :
  contains_char "/" k1 = false → contains_char "/" k2 = false →
  markdown_path k1 = markdown_path k2 → k1 = k2.
Proof.
  intros H1 H2. rewrite !markdown_path_plain by done. intros Heq.
  apply (inj (String.append "pdf2markdown/")) in Heq.
  by apply append_inj_r in Heq.
Qed.

Lemma markdown_path_not_folder (k : string) :
  contains_char "/" k = false → markdown_path k ≠ "pdf2markdown".
Proof.
  intros Hk. rewrite markdown_path_plain by done. intros Heq.
  apply (f_equal String.length) in Heq. rewrite !length_append in Heq.
  cbn in Heq. lia.
Qed.

(** A file accepted before a merge into another file is accepted after
    it. *)
Lemma accepts_write_after_merge (documents : list Document)
    (output_folder filename q : string) (e : event) (w : World) :
  accepts_folder w output_folder = true →
  accepts_write w output_folder (merged_filepath_of output_folder filename)
  = true →
  accepts_write w output_folder q = true →
  q ≠ merged_filepath_of output_folder filename → q ≠ output_folder →
  accepts_write (log e (merged_world documents output_folder filename w))
    output_folder q = true.
Proof.
  intros Hf Hw Hq Hne1 Hne2.
  destruct (merged_world_accepts documents output_folder filename w Hf Hw)
    as ([n Hn] & _ & _).
  unfold accepts_write in *. rewrite !lookup_path_log, Hn.
  apply andb_true_iff in Hq as [Hq _]. apply andb_true_iff in Hq as [Hq1 Hq2].
  cbn [refuses log]. unfold merged_world at 1. cbn [refuses log set_fs].
  rewrite folder_ensured_refuses, andb_true_r.
  apply andb_true_iff. split; [done|].
  unfold merged_world. rewrite lookup_path_log, lookup_path_set_fs.
  unfold lookup_path in Hq2. destruct (truthy q); [|done].
  rewrite lookup_insert_ne by done.
  unfold folder_ensured. destruct (lookup_path w output_folder); [done|].
  cbn [fs set_fs log]. by rewrite lookup_insert_ne.
Qed.

(** The loop of [run] over items with pairwise different keys, in a world
    that accepts the output folder and the file of every item. *)
Lemma convert_loop_run (items : list (string * list Document)) :
  ∀ w1 : World,
    NoDup items.*1 →
    Forall (λ k, contains_char "/" k = false) items.*1 →
    accepts_folder w1 "pdf2markdown" = true →
    Forall (λ k, accepts_write w1 "pdf2markdown" (markdown_path k) = true)
           items.*1 →
    ∃ w2,
      for_each items convert_one w1 = (inr tt, w2)
      ∧ (∀ k documents, (k, documents) ∈ items → documents ≠ [] →
           fs w2 !! markdown_path k
           = Some (File (merged_content_of documents)))
      ∧ (∀ q, (∀ k documents, (k, documents) ∈ items → documents ≠ [] →
                 q ≠ markdown_path k) →
              q ≠ "pdf2markdown" → fs w2 !! q = fs w1 !! q).
Proof.
  induction items as [|[k documents] items IH]; intros w1 Hnd Hplain Hf Hall.
  - exists w1. split; [done|]. split; [|done].
    intros k documents Hin. by apply elem_of_nil in Hin.
  - cbn [fmap list_fmap fst] in Hnd, Hplain, Hall.
    apply NoDup_cons in Hnd as [Hk Hnd].
    apply Forall_cons in Hplain as [Hkp Hplain].
    apply Forall_cons in Hall as [Hwk Hall].
    destruct documents as [|doc rest].
    + destruct (IH w1 Hnd Hplain Hf Hall) as (w2 & Hrun & Hfiles & Hframe).
      exists w2. split_and!.
      * cbn [for_each]. unfold bind. cbn. exact Hrun.
      * intros k' d' [[= -> ->] | Hin]%elem_of_cons Hd'; [done|].
        by apply (Hfiles k' d').
      * intros q Hq Hqf. apply Hframe; [|done].
        intros k' d' Hin Hd'. apply (Hq k' d'); [|done]. by apply elem_of_cons; right.
    + set (documents := doc :: rest) in *.
      set (w1' := log (EvPrint ("'" +:+ k +:+ ".pdf'를 마크다운으로 변환 완료"))
                      (merged_world documents "pdf2markdown" k w1)).
      assert (Hstep : convert_one (k, documents) w1 = (inr tt, w1')).
      { unfold convert_one, documents, bind.
        fold documents.
        by rewrite (merge_documents_effect documents "pdf2markdown" k w1 Hf Hwk). }
      destruct (merged_world_accepts documents "pdf2markdown" k w1 Hf Hwk)
        as (_ & Hf' & _).
      assert (Hpaths : ∀ k', k' ∈ items.*1 →
                markdown_path k' ≠ markdown_path k).
      { intros k' Hin Heq. rewrite Forall_forall in Hplain.
        apply markdown_path_inj in Heq; [congruence | by apply Hplain | done]. }
      destruct (IH w1') as (w2 & Hrun & Hfiles & Hframe).
      * done.
      * done.
      * subst w1'. unfold accepts_folder in *. by rewrite lookup_path_log.
      * apply Forall_forall. intros k' Hin.
        rewrite Forall_forall in Hall, Hplain.
        apply accepts_write_after_merge; try done.
        -- by apply Hall.
        -- by apply Hpaths.
        -- by apply markdown_path_not_folder, Hplain.
      * exists w2. split_and!.
        -- cbn [for_each]. unfold bind at 1. by rewrite Hstep.
        -- intros k' d' [[= -> ->] | Hin]%elem_of_cons Hd'.
           ++ rewrite Hframe.
              ** subst w1'. unfold merged_world. cbn [fs log set_fs].
                 by rewrite lookup_insert_eq.
              ** intros k'' d'' Hin _. symmetry. apply Hpaths.
                 apply list_elem_of_fmap. by exists (k'', d'').
              ** by apply markdown_path_not_folder.
           ++ by apply (Hfiles k' d').
        -- intros q Hq Hqf. rewrite Hframe.
           ++ subst w1'. unfold merged_world. cbn [fs log set_fs].
              rewrite lookup_insert_ne.
              ** unfold folder_ensured.
                 destruct (lookup_path w1 "pdf2markdown"); [done|].
                 cbn [fs set_fs log]. by rewrite lookup_insert_ne.
              ** symmetry. apply (Hq k documents); [apply list_elem_of_here | done].
           ++ intros k' d' Hin Hd'. apply (Hq k' d'); [|done].
              by apply elem_of_cons; right.
           ++ done.
Qed.

End Run.

Section RunFacts.

Lemma run_unfold (w : World) :
  run w
  = match pdf_file_load_items "data" w with
    | (inr items, w') =>
        match for_each items convert_one w' with
        | (inr _, w2) => (inr tt, log (EvPrint ALL_CONVERTED) w2)
        | (inl e, w2) => (inl e, w2)
        end
    | (inl e, w') => (inl e, w')
    end.
Proof.
  unfold run, bind, print.
  destruct (pdf_file_load_items "data" w) as [[e|items] w']; [done|].
  by destruct (for_each items convert_one w') as [[e|[]] w2].
Qed.

Lemma contains_char_slice_to (c : ascii) (n : nat) (s : string) :
  contains_char c s = false → contains_char c (slice_to n s) = false.
Proof.
  revert s. induction n as [|n IH]; intros [|a s]; cbn; try done.
  intros [-> H]%orb_false_iff. cbn. by apply IH.
Qed.

Lemma stem_plain (name : string) :
  contains_char "/" name = false → contains_char "/" (stem name) = false.
Proof.
  intros H. unfold stem, OsPath.splitext.
  destruct (_ <? _)%Z; [|done].
  destruct (OsPath.only_dots _); [done|]. cbn [fst].
  by apply contains_char_slice_to.
Qed.

Lemma NoDup_fst_unique {A B} (l : list (A * B)) (k : A) (v1 v2 : B) :
  NoDup l.*1 → (k, v1) ∈ l → (k, v2) ∈ l → v1 = v2.
Proof.
  induction l as [|[k' v'] l IH]; intros Hnd H1 H2.
  - by apply elem_of_nil in H1.
  - cbn in Hnd. apply NoDup_cons in Hnd as [Hk Hnd].
    apply elem_of_cons in H1 as [H1 | H1];
      apply elem_of_cons in H2 as [H2 | H2]; simplify_eq.
    + done.
    + exfalso. apply Hk. apply list_elem_of_fmap. by exists (k', v2).
    + exfalso. apply Hk. apply list_elem_of_fmap. by exists (k', v1).
    + by apply IH.
Qed.

End RunFacts.

(** X14. When loading [data] comes to nothing (no credential, no such
    folder, a listing refused, or a file the service fails on), [run] still
    returns normally and ends on the message that all PDF files were
    converted, although it has written nothing: no write was asked for and
    the file system is as it was. *)
Theorem run_after_failed_load (w : World) :
  load_fails w "data" →
  (run w).1 = inr tt
  ∧ last (trace (run w).2) = Some (EvPrint ALL_CONVERTED)
  ∧ writes_of (trace (run w).2) = writes_of (trace w)
  ∧ fs (run w).2 = fs w.
Proof.
  intros Hfail. rewrite run_unfold. unfold pdf_file_load_items.
  destruct (pdf_file_load_with_cases ([] : list (string * list Document))
              dict_set "data" w)
    as [Hread [(_ & Hres) | (key & entries & Hc & Hk & Hl & Hd & Hall & _)]].
  2:{ by destruct (load_fails_not_loaded w "data" key entries). }
  destruct (pdf_file_load_with [] dict_set "data" w) as [o w'].
  cbn [fst snd] in Hread, Hres. subst o. cbn [for_each ret fst snd trace log].
  destruct Hread as ((Hfs & _) & Hwr & _).
  split_and!; [done | by rewrite last_snoc | | done].
  by rewrite writes_of_snoc, app_nil_r.
Qed.

Lemma run_after_failed_load_witness :
  load_fails world_without_key "data"
  ∧ (run world_without_key).1 = inr tt
  ∧ last (trace (run world_without_key).2) = Some (EvPrint ALL_CONVERTED)
  ∧ writes_of (trace (run world_without_key).2) = [].
Proof.
  assert (H0 : load_fails world_without_key "data") by (left; by left).
  pose proof (run_after_failed_load world_without_key H0) as (H1 & H2 & H3 & _).
  split; [exact H0|]. split; [exact H1|]. split; [exact H2 | exact H3].
Defined.

(** X15. When [data] loads without failure, its PDF files have pairwise
    different stems, and the system accepts the folder [pdf2markdown] and
    one file [<stem>.md] in it per PDF file, [run] returns normally and ends
    on its last message; for every PDF file with at least one page the file
    [pdf2markdown/<stem>.md] holds the merged text of its pages, and for a
    PDF file without pages no file is written. *)
Theorem run_converts_each_pdf (key : string) (entries : list string)
    (w : World) :
  credential w = Some key → key ≠ "" →
  lookup_path w "data" = Some Dir →
  dir_entries w "data" = inr entries →
  Forall (λ name, contains_char "/" name = false) entries →
  forallb (parses w) (pdf_files_of "data" entries) = true →
  let pdf_names := List.filter (λ name, endswith (lower name) ".pdf") entries in
  NoDup (stem <$> pdf_names) →
  accepts_folder w "pdf2markdown" = true →
  forallb (λ name, accepts_write w "pdf2markdown" (markdown_path (stem name)))
          pdf_names = true →
  (run w).1 = inr tt
  ∧ last (trace (run w).2) = Some (EvPrint ALL_CONVERTED)
  ∧ ∀ name, name ∈ pdf_names →
      let documents := pages_of w (OsPath.join "data" name) in
      (documents ≠ [] →
       fs (run w).2 !! markdown_path (stem name)
       = Some (File (merged_content_of documents)))
      ∧ (documents = [] →
         fs (run w).2 !! markdown_path (stem name)
         = fs w !! markdown_path (stem name)).
Proof.
  intros Hc Hk Hl Hd Hnames Hall pdf_names Hnd Hf Hacc.
  assert (Hplain : Forall (λ name, contains_char "/" name = false) pdf_names).
  { apply Forall_forall. intros name Hin.
    apply list_elem_of_In, List.filter_In in Hin as [Hin _].
    rewrite Forall_forall in Hnames. by apply Hnames, list_elem_of_In. }
  assert (Hkeys : key_of_path <$> pdf_files_of "data" entries
                  = stem <$> pdf_names).
  { rewrite pdf_files_of_filter. by apply keys_of_joined. }
  set (items := (λ name, (stem name, pages_of w (OsPath.join "data" name)))
                <$> pdf_names).
  assert (Hitems : filed_with dict_set w [] (pdf_files_of "data" entries)
                   = items).
  { rewrite filed_items by (by rewrite Hkeys).
    rewrite pdf_files_of_filter. fold pdf_names. subst items.
    rewrite <- list_fmap_compose. apply list_fmap_ext.
    intros i name Hin. cbn. f_equal. apply key_of_path_join.
    rewrite Forall_forall in Hplain. apply Hplain.
    by apply list_elem_of_lookup_2 in Hin. }
  assert (Hfst : items.*1 = stem <$> pdf_names).
  { subst items. rewrite <- list_fmap_compose. done. }
  rewrite run_unfold. unfold pdf_file_load_items.
  destruct (pdf_file_load_with_cases ([] : list (string * list Document))
              dict_set "data" w)
    as [Hread [(Hfail & _) | (key' & entries' & _ & _ & _ & Hd' & _ & Hres)]].
  { by destruct (load_fails_not_loaded w "data" key entries). }
  assert (entries' = entries) as -> by congruence.
  rewrite Hitems in Hres.
  destruct (pdf_file_load_with [] dict_set "data" w) as [o w'].
  cbn [fst snd] in Hread, Hres. subst o.
  destruct Hread as (Hsame & _).
  destruct (convert_loop_run items w') as (w2 & Hrun & Hfiles & Hframe).
  - by rewrite Hfst.
  - rewrite Hfst. apply Forall_fmap. eapply Forall_impl; [exact Hplain|].
    intros name Hn. by apply stem_plain.
  - by rewrite (proj1 (accepts_same_outside w w' "pdf2markdown" "" Hsame)).
  - rewrite Hfst. apply Forall_fmap, Forall_forall. intros name Hin.
    cbn. rewrite (proj2 (accepts_same_outside w w' "pdf2markdown" _ Hsame)).
    rewrite forallb_forall in Hacc. by apply Hacc, list_elem_of_In.
  - rewrite Hrun. cbn [fst snd trace log fs].
    split_and!; [done | by rewrite last_snoc |].
    intros name Hin. set (documents := pages_of w (OsPath.join "data" name)).
    assert (Hitem : (stem name, documents) ∈ items).
    { subst items. apply list_elem_of_fmap. by exists name. }
    split.
    + intros Hne. by apply (Hfiles (stem name) documents).
    + intros Hempty. rewrite Hframe.
      * destruct Hsame as (-> & _). done.
      * intros k d Hkd Hdne Heq.
        rewrite Forall_forall in Hplain.
        apply markdown_path_inj in Heq.
        -- subst k.
           assert (d = documents); [|congruence].
           apply (NoDup_fst_unique items (stem name)); [by rewrite Hfst|done..].
        -- by apply stem_plain, Hplain.
        -- subst items. apply list_elem_of_fmap in Hkd as (name' & [= -> _] & Hin').
           by apply stem_plain, Hplain.
      * rewrite Forall_forall in Hplain.
        by apply markdown_path_not_folder, stem_plain, Hplain.
Qed.

Lemma run_converts_each_pdf_witness :
  (credential world_with_blank = Some "llx-0123456789"
   ∧ dir_entries world_with_blank "data"
     = inr ["civil.pdf"; "notes.txt"; "blank.PDF"])
  ∧ (run world_with_blank).1 = inr tt
  ∧ fs (run world_with_blank).2 !! "pdf2markdown/civil.md"
    = Some (File "# data/civil.pdf  ")
  ∧ fs (run world_with_blank).2 !! "pdf2markdown/blank.md" = None.
Proof.
  pose proof (run_converts_each_pdf "llx-0123456789"
                ["civil.pdf"; "notes.txt"; "blank.PDF"] world_with_blank) as H.
  destruct H as (H1 & _ & H2);
    [reflexivity | done | reflexivity | reflexivity | repeat constructor
    | reflexivity | apply (bool_decide_eq_true_1 _); reflexivity
    | reflexivity | reflexivity |].
  split; [by split|]. split; [exact H1|]. split.
  - destruct (H2 "civil.pdf") as [H3 _];
      [apply (bool_decide_eq_true_1 _); reflexivity|].
    exact (H3 ltac:(done)).
  - destruct (H2 "blank.PDF") as [_ H3];
      [apply (bool_decide_eq_true_1 _); reflexivity|].
    exact (H3 eq_refl).
Defined.

Section RunFailure.



End RunFailure.


